(** * gen-score-pdf: validation, encoding detection and template rendering

    A shallow embedding of the Python sources

      - [app/pdf_generator/__init__.py]   ([validate_data], [create_pdf])
      - [app/pdf_generator/generator.py]   ([encode_image_to_base64], [generate_pdf])
      - [app/utils/file_processor.py]      ([detect_encoding], [validate_dataframe])
      - [app/utils/__init__.py]            ([detect_encoding], [validate_dataframe])
      - [app/main.py]                      ([validate_input])

    Python [str] and [bytes] values are byte strings (text in UTF-8),
    dictionaries are finite maps, and a function that can raise returns a
    [result]. What lies outside the sources is a parameter: the file system,
    the headless browser, the charset guesser, the way [pd.to_numeric] reads
    a string and the order in which a [set] is iterated.

    Each function is modelled by its body, with the modules it imports taken
    as loaded; whether [generator.py] can be loaded at all is the subject of
    [Syntax].

    The definitions come first, the facts after them:
    records ([validate_data], [validate_input]), tables
    ([validate_dataframe]), text ([str.replace]), encodings
    ([detect_encoding]), the renderer ([generate_pdf], [create_pdf]) and the
    text of [generator.py]. *)

From Stdlib Require Import ZArith Ascii String List Lia.
From stdpp Require Import gmap strings list pretty.

Local Open Scope Z_scope.

(** * Python values, exceptions and results *)

Module Py.

(** The exception classes the sources raise, catch or let through, each with
    the text [str(e)] is built from. *)
Inductive exn : Type :=
| KeyError (key : string)
| ValueError (msg : string)
| TypeError (msg : string)
| AttributeError (msg : string)
| IndexError (msg : string)
| OSError (msg : string)
| RuntimeError (msg : string)
| FileProcessError (msg : string)
| RendererError (msg : string)
| SyntaxError (msg : string).

(** [str(e)]; a [KeyError] prints the [repr] of its key, which for the plain
    identifiers the sources index with is the key between single quotes. *)
Definition str_exn (e : exn) : string :=
  match e with
  | KeyError key => "'" +:+ key +:+ "'"
  | ValueError msg | TypeError msg | AttributeError msg | IndexError msg
  | OSError msg | RuntimeError msg | FileProcessError msg
  | RendererError msg | SyntaxError msg => msg
  end.

Global Instance exn_eq_dec : EqDecision exn.
Proof. solve_decision. Defined.

Definition is_ValueError (e : exn) : bool :=
  match e with ValueError _ => true | _ => false end.

Inductive result (A : Type) : Type :=
| Ok (a : A)
| Raise (e : exn).
Global Arguments Ok {A} a.
Global Arguments Raise {A} e.

Global Instance result_ret : MRet result := @Ok.
Global Instance result_bind : MBind result := λ A B f m,
  match m with Ok a => f a | Raise e => Raise e end.

(** The values a record holds: what the form widgets and a caller of
    [create_pdf] put into the dictionary. *)
Inductive pyval : Type :=
| PNone
| PBool (b : bool)
| PInt (z : Z)
| PStr (s : string).

Global Instance pyval_eq_dec : EqDecision pyval.
Proof. solve_decision. Defined.

(** Truth value, as [not v] and [if v] use it. *)
Definition truthy (v : pyval) : bool :=
  match v with
  | PNone => false
  | PBool b => b
  | PInt z => negb (z =? 0)
  | PStr s => negb (String.eqb s "")
  end.

(** [str(v)]. *)
Definition py_str (v : pyval) : string :=
  match v with
  | PNone => "None"
  | PBool true => "True"
  | PBool false => "False"
  | PInt z => pretty z
  | PStr s => s
  end.

(** ** [int(s)] for a string

    Surrounding white space is dropped, one sign is allowed, and the digits
    may be grouped by single underscores. Python accepts every Unicode decimal
    digit and space here; this reading covers the ASCII ones. *)
Definition is_space (c : ascii) : bool :=
  match c with
  | "009" | "010" | "011" | "012" | "013" | "028" | "029" | "030" | "031"
  | " " => true
  | _ => false
  end%char.

(** The value of an ASCII digit, whose codes run from 48 to 57. *)
Definition digit_of (c : ascii) : option Z :=
  let code := Z.of_N (N_of_ascii c) in
  if (48 <=? code) && (code <=? 57) then Some (code - 48) else None.

Fixpoint lstrip (s : string) : string :=
  match s with
  | String c s' => if is_space c then lstrip s' else s
  | EmptyString => EmptyString
  end.

Definition strip (s : string) : string :=
  String.rev (lstrip (String.rev (lstrip s))).

(** [after_digit] records whether the previous character was a digit: an
    underscore is legal only between two digits. *)
Fixpoint int_digits (acc : Z) (after_digit : bool) (s : string) : option Z :=
  match s with
  | EmptyString => if after_digit then Some acc else None
  | String c s' =>
      match digit_of c with
      | Some d => int_digits (10 * acc + d) true s'
      | None =>
          if Ascii.eqb c "_" && after_digit then int_digits acc false s'
          else None
      end
  end.

Definition int_of_str (s : string) : option Z :=
  match strip s with
  | String "-" ds => Z.opp <$> int_digits 0 false ds
  | String "+" ds => int_digits 0 false ds
  | ds => int_digits 0 false ds
  end.

(** [int(v)]: only a string can make it raise [ValueError]. *)
Definition py_int (v : pyval) : result Z :=
  match v with
  | PNone =>
      Raise (TypeError "int() argument must be a string, a bytes-like object or a real number, not 'NoneType'")
  | PBool b => Ok (if b then 1 else 0)
  | PInt z => Ok z
  | PStr s =>
      match int_of_str s with
      | Some z => Ok z
      | None => Raise (ValueError ("invalid literal for int() with base 10: '" +:+ s +:+ "'"))
      end
  end.

(** [d[key]]. *)
Definition getitem {A} (d : gmap string A) (key : string) : result A :=
  match d !! key with
  | Some v => Ok v
  | None => Raise (KeyError key)
  end.

(** [lo <= v <= hi] for integer bounds: [v] is evaluated once, and a value
    that is no number cannot be ordered against an [int]. *)
Definition between_int (lo : Z) (v : pyval) (hi : Z) : result bool :=
  match v with
  | PInt z => Ok ((lo <=? z) && (z <=? hi))
  | PBool b => let z := if b then 1 else 0 in Ok ((lo <=? z) && (z <=? hi))
  | PStr _ => Raise (TypeError "'<=' not supported between instances of 'int' and 'str'")
  | PNone => Raise (TypeError "'<=' not supported between instances of 'int' and 'NoneType'")
  end.

End Py.
Import Py.

(** * Text: [str] methods, [re.sub] and [base64] *)

Module Text.

(** The double quote character. *)
Definition dq : string := String "034" EmptyString.

Section Sequences.

Context {A : Type} `{EqDecision A}.

(** [s.startswith(p)]. *)
Fixpoint starts_with (p s : list A) : bool :=
  match p, s with
  | [], _ => true
  | _ :: _, [] => false
  | a :: p', b :: s' => bool_decide (a = b) && starts_with p' s'
  end.

(** [p in s]: [p] starts at some position of [s]. *)
Fixpoint contains (p s : list A) : bool :=
  starts_with p s ||
  match s with
  | [] => false
  | _ :: s' => contains p s'
  end.

(** The scan of [s.replace(old, new)] for a non-empty [old]: left to right,
    each occurrence found is replaced and skipped over ([skip] counts the
    characters of it still to pass). *)
Fixpoint replace_go (old new : list A) (skip : nat) (s : list A) : list A :=
  match s with
  | [] => []
  | c :: s' =>
      match skip with
      | S k => replace_go old new k s'
      | O =>
          if starts_with old s
          then new ++ replace_go old new (pred (length old)) s'
          else c :: replace_go old new O s'
      end
  end.

(** [s.replace(old, new)]; an empty [old] matches before every character and
    at the end. *)
Definition replace (old new s : list A) : list A :=
  match old with
  | [] => new ++ flat_map (λ c, c :: new) s
  | _ :: _ => replace_go old new O s
  end.

(** The scan of [s.split(sep)] for a non-empty [sep]; [cur] is the piece being
    collected, last character first. *)
Fixpoint split_go (sep : list A) (skip : nat) (cur : list A) (s : list A)
  : list (list A) :=
  match s with
  | [] => [reverse cur]
  | c :: s' =>
      match skip with
      | S k => split_go sep k cur s'
      | O =>
          if starts_with sep s
          then reverse cur :: split_go sep (pred (length sep)) [] s'
          else split_go sep O (c :: cur) s'
      end
  end.

Definition split (sep s : list A) : list (list A) := split_go sep O [] s.

(** Two sequences clash when they differ at a position both have. *)
Fixpoint clash (p x : list A) : bool :=
  match p, x with
  | a :: p', b :: x' => negb (bool_decide (a = b)) || clash p' x'
  | _, _ => false
  end.

(** [new] can stand in for [old] without an [old] showing up again: [old]
    clashes with every non-empty end of [new], and no proper end of [old]
    could begin [new]. *)
Definition unmistakable (old new : list A) : bool :=
  forallb (λ k, clash old (drop k new)) (seq 0 (length new))
  && forallb (λ k, clash (drop k old) new) (seq 1 (length old - 1)).

End Sequences.

Abbreviation chars := list_ascii_of_string.
Abbreviation text := string_of_list_ascii.

Definition str_contains (p s : string) : bool := contains (chars p) (chars s).

Definition str_replace (old new s : string) : string :=
  text (replace (chars old) (chars new) (chars s)).

Definition str_split (sep s : string) : list string :=
  text <$> split (chars sep) (chars s).

(** [pieces[i]]. *)
Definition index {B} (pieces : list B) (i : nat) : Py.result B :=
  match pieces !! i with
  | Some x => Py.Ok x
  | None => Py.Raise (Py.IndexError "list index out of range")
  end.

(** ** Regular expressions

    The two patterns of [generate_pdf] are sequences of literals, greedy
    repetitions of one character class, and groups that do not nest. *)
Inductive atom : Type :=
| Lit (t : list ascii)
| Star (class : ascii → bool)
| GroupOpen
| GroupClose.

(** Greedy [class*] followed by the continuation [k]: as many characters as
    possible, giving them back one at a time while [k] fails. *)
Fixpoint star_then {R} (class : ascii → bool) (k : nat → list ascii → option R)
    (pos : nat) (s : list ascii) : option R :=
  match s with
  | c :: s' =>
      if class c
      then match star_then class k (S pos) s' with
           | Some r => Some r
           | None => k pos s
           end
      else k pos s
  | [] => k pos []
  end.

(** A match of the pattern at the start of [s]: the number of characters it
    covers and the positions of the group borders, last first. *)
Fixpoint match_atoms (atoms : list atom) (marks : list nat) (pos : nat)
    (s : list ascii) : option (nat * list nat) :=
  match atoms with
  | [] => Some (pos, marks)
  | Lit t :: rest =>
      if starts_with t s
      then match_atoms rest marks (pos + length t) (drop (length t) s)
      else None
  | Star class :: rest =>
      star_then class (λ pos' s', match_atoms rest marks pos' s') pos s
  | GroupOpen :: rest | GroupClose :: rest =>
      match_atoms rest (pos :: marks) pos s
  end.

(** The texts of the groups, from the borders [start1; end1; start2; ...]. *)
Fixpoint groups_of (s : list ascii) (borders : list nat) : list (list ascii) :=
  match borders with
  | a :: b :: rest => take (b - a) (drop a s) :: groups_of s rest
  | _ => []
  end.

(** A replacement template: literal text and group references. *)
Inductive repl_item : Type :=
| RText (t : list ascii)
| RGroup (n : nat).

Definition expand (repl : list repl_item) (groups : list (list ascii)) : list ascii :=
  flat_map (λ item, match item with
                    | RText t => t
                    | RGroup n => default [] (groups !! pred n)
                    end) repl.

(** The scan of [re.sub(pattern, repl, s)] for a pattern that cannot match
    the empty string. *)
Fixpoint sub_go (pattern : list atom) (repl : list repl_item) (skip : nat)
    (s : list ascii) : list ascii :=
  match s with
  | [] => []
  | c :: s' =>
      match skip with
      | S k => sub_go pattern repl k s'
      | O =>
          match match_atoms pattern [] 0 s with
          | Some (len, marks) =>
              expand repl (groups_of s (reverse marks))
                ++ sub_go pattern repl (pred len) s'
          | None => c :: sub_go pattern repl O s'
          end
      end
  end.

Definition re_sub (pattern : list atom) (repl : list repl_item) (s : string) : string :=
  text (sub_go pattern repl O (chars s)).

(** The class [\s] on bytes; the spaces outside ASCII, which the pattern
    would also take, are not. *)
Definition class_space : ascii → bool := Py.is_space.
Definition class_not (c : ascii) : ascii → bool := λ x, negb (Ascii.eqb x c).

(** ** [base64.b64encode] *)
Definition b64_alphabet : string :=
  "ABCDEFGHIJKLMNOPQRSTUVWXYZabcdefghijklmnopqrstuvwxyz0123456789+/".

Definition b64_digit (n : N) : ascii :=
  default "="%char (String.get (N.to_nat n) b64_alphabet).

Fixpoint b64encode (bytes : string) : string :=
  match bytes with
  | EmptyString => EmptyString
  | String a EmptyString =>
      let n := (N_of_ascii a * 65536)%N in
      String (b64_digit (n / 262144)) (String (b64_digit (n / 4096 mod 64)) "==")
  | String a (String b EmptyString) =>
      let n := (N_of_ascii a * 65536 + N_of_ascii b * 256)%N in
      String (b64_digit (n / 262144)) (String (b64_digit (n / 4096 mod 64))
        (String (b64_digit (n / 64 mod 64)) "="))
  | String a (String b (String c rest)) =>
      let n := (N_of_ascii a * 65536 + N_of_ascii b * 256 + N_of_ascii c)%N in
      String (b64_digit (n / 262144)) (String (b64_digit (n / 4096 mod 64))
        (String (b64_digit (n / 64 mod 64)) (String (b64_digit (n mod 64))
          (b64encode rest))))
  end.

(** [os.path.join(a, b)] on POSIX paths. *)
Definition path_join (a b : string) : string :=
  match b with
  | String "/" _ => b
  | _ =>
      match String.rev a with
      | EmptyString => b
      | String "/" _ => a +:+ b
      | _ => a +:+ "/" +:+ b
      end
  end.

End Text.
Import Text.

(** * Subject table and the record validators *)

(** [VALID_SUBJECTS] of [pdf_generator/__init__.py]; [SUBJECT_IMAGES] of
    [generator.py] is the same table. *)
Definition subject_images (medal ribbon : string) : gmap string string :=
  <["medal" := medal]> (<["ribbon" := ribbon]> ∅).

Definition VALID_SUBJECTS : gmap string (gmap string string) :=
  list_to_map
    [ ("国語", subject_images "n_lang1.png" "n_lang2.png");
      ("数学", subject_images "math1.png" "math2.png");
      ("社会", subject_images "social1.png" "social2.png");
      ("理科", subject_images "science1.png" "science2.png");
      ("英語", subject_images "eng1.png" "eng2.png");
      ("技術家庭", subject_images "tech1.png" "tech2.png");
      ("音楽", subject_images "music1.png" "music2.png");
      ("保健体育", subject_images "sport1.png" "sport2.png") ].

Definition SUBJECT_IMAGES : gmap string (gmap string string) := VALID_SUBJECTS.

Definition MULTILINE_SUBJECTS : gmap string string :=
  list_to_map
    [ ("技術家庭", "技術" +:+ String "010" "家庭");
      ("保健体育", "保健" +:+ String "010" "体育") ].

(** [v in d] for a dictionary with string keys. *)
Definition key_in {A} (v : pyval) (d : gmap string A) : bool :=
  match v with
  | PStr s => bool_decide (is_Some (d !! s))
  | _ => false
  end.

Module PdfGenerator.

Definition required_fields : list string :=
  ["subject"; "test_name"; "score"; "sc_year"; "last_name"; "first_name"].

Definition msg_missing_field (field : string) : string :=
  "必須フィールドが不足しています: " +:+ field.
Definition msg_empty_field (field : string) : string := field +:+ "が空です".
Definition msg_invalid_subject (subject : pyval) : string :=
  "無効な教科名です: " +:+ py_str subject.
Definition msg_score_range : string := "点数は0から100の間である必要があります".
Definition msg_score_integer : string := "点数は整数である必要があります".

(** The loop over [required_fields]: it returns at the first field that is
    absent or falsy. *)
Fixpoint check_required (data : gmap string pyval) (fields : list string)
  : option string :=
  match fields with
  | [] => None
  | field :: rest =>
      match data !! field with
      | None => Some (msg_missing_field field)
      | Some v =>
          if negb (truthy v) then Some (msg_empty_field field)
          else check_required data rest
      end
  end.

(** [validate_data]: [Ok None] is Python's [None] (the record is accepted),
    [Ok (Some msg)] the returned error message. *)
Definition validate_data (data : gmap string pyval) : result (option string) :=
  match check_required data required_fields with
  | Some msg => Ok (Some msg)
  | None =>
      subject ← getitem data "subject";
      if negb (key_in subject VALID_SUBJECTS)
      then Ok (Some (msg_invalid_subject subject))
      else
        raw ← getitem data "score";
        match py_int raw with
        | Ok score =>
            if negb ((0 <=? score) && (score <=? 100))
            then Ok (Some msg_score_range)
            else Ok None
        | Raise e =>
            if is_ValueError e then Ok (Some msg_score_integer) else Raise e
        end
  end.


Section Paths.

(** The directory of the package, [os.path.dirname(os.path.abspath(__file__))]. *)
Variable PACKAGE_DIR : string.

Definition TEMPLATES_DIR : string := path_join PACKAGE_DIR "templates".
Definition IMAGES_DIR : string := path_join TEMPLATES_DIR "images".
Definition CSS_DIR : string := path_join TEMPLATES_DIR "css".

Definition get_template_path (template_type filename : string) : string :=
  if String.eqb template_type "images" then path_join IMAGES_DIR filename
  else if String.eqb template_type "css" then path_join CSS_DIR filename
  else path_join TEMPLATES_DIR filename.

End Paths.

(** ** [generator.py]

    What a function prints goes to [stdout], a list of lines carried along
    with the result. The browser launch of [generate_pdf_async] is read as the
    single call [p.chromium.launch(headless=True, args=[...])] it was meant to
    be; how the file reads as written is the subject of [Syntax] below. *)

Module Generator.

Record io (A : Type) : Type := IO { run : result A * list string }.
Global Arguments IO {A} run.
Global Arguments run {A} i.

Global Instance io_ret : MRet io := λ A a, IO (Ok a, []).
Global Instance io_bind : MBind io := λ A B f m,
  match run m with
  | (Ok a, out) => let '(r, out') := run (f a) in IO (r, out ++ out')
  | (Raise e, out) => IO (Raise e, out)
  end.

Definition lift {A} (r : result A) : io A := IO (r, []).
Definition print (line : string) : io unit := IO (Ok tt, [line]).

Definition FONT_SIZES : gmap string nat :=
  list_to_map [("name", 36%nat); ("year", 36%nat); ("honorific", 29%nat)].

Definition LAYOUT : gmap string nat :=
  list_to_map [("content_width", 77%nat); ("name_width", 180%nat);
               ("margin", 20%nat); ("name_space", 18%nat)].

(** The score markup of the template and what the score-up template puts in
    its place. *)
Definition point_markup : string :=
  "<span class=" +:+ dq +:+ "point" +:+ dq +:+ ">点</span>".
Definition point_up_markup : string :=
  "<span class=" +:+ dq +:+ "point point-up" +:+ dq +:+ "><span class=" +:+ dq +:+ "ten" +:+ dq
  +:+ ">点</span><span class=" +:+ dq +:+ "up" +:+ dq +:+ ">UP</span></span>".

Definition additional_css : string :=
  "
        /* スコア全体のレイアウト調整 */
    .score-container {
        position: relative;
        width: 600px;  /* スコア表示エリアの幅を確保 */
    }
        /* 点数表示のコンテナ */
        .score {
        width: 485px;
        color: rgba(255,0,0,1);
        position: absolute;
        top: 136px;
        left: 178px;
        text-shadow: 8px 6px 6px rgba(0, 0, 0, 0.25);
        font-family: Inter;
        font-weight: Bold Italic;
        font-size: 227px;
        opacity: 1;
        text-align: center;
        } 

        /* 点UPのコンテナ */
        .point.point-up {
        position: absolute;
        top: 328px;
        left: 610px;  /* 元の.pointと同じ位置 */
        display: flex;
        align-items: baseline;
        white-space: nowrap;
        font-family: Inter;
        font-weight: Bold Italic;
        }

        /* 点の文字 */
        .point.point-up .ten {
            font-size: 104px;
            line-height: 1;
            color: black;
            font-family: Inter;
            font-weight: Bold Italic;
        }

        /* UPの文字 */
        .point.point-up .up {
            font-size: 60px; 
            line-height: 1;
            color: black;
            font-family: Inter;
            font-weight: Bold Italic;
            margin-left: 5px;
        }

        ".

Definition layout_css : string :=
  "
        .ribbon {
            width: 660px;
            height: 106px;
            background-repeat: no-repeat;
            background-position: center center;
            background-size: cover;
            position: absolute;
            top: 446px;
            left: 91px;
            display: flex;
            justify-content: center;
            align-items: flex-end;
        }

        .name-content {
            display: flex;
            align-items: center;
            justify-content: center;
            width: "
  +:+ pretty (LAYOUT !!! "content_width")
  +:+ "%;
            height: 66px;
            padding: 0 "
  +:+ pretty (LAYOUT !!! "margin")
  +:+ "px;
            box-sizing: border-box;
        }

        .name-group {
            display: flex;
            align-items: center;
            justify-content: center;
            margin: 0 "
  +:+ pretty (LAYOUT !!! "name_space")
  +:+ "px;
            flex: 1;
            width: "
  +:+ pretty (LAYOUT !!! "content_width")
  +:+ "%;
            height: 66px;
        }

        /* 固定サイズのテキスト要素 */
        .sc_year, .honorific {
            color: rgba(255,255,255,1);
            font-family: Inter;
            font-weight: Bold Italic;
            white-space: nowrap;
            display: inline-flex;
            align-items: center;
            justify-content: center;
        }

        .sc_year {
            font-size: "
  +:+ pretty (FONT_SIZES !!! "year")
  +:+ "px;
            height: "
  +:+ pretty (FONT_SIZES !!! "year")
  +:+ "px;
            line-height: "
  +:+ pretty (FONT_SIZES !!! "year")
  +:+ "px;
            min-width: 80px;
            margin-left: "
  +:+ pretty (LAYOUT !!! "margin")
  +:+ "px;
        }

        .honorific {
            font-size: "
  +:+ pretty (FONT_SIZES !!! "honorific")
  +:+ "px;
            height: "
  +:+ pretty (FONT_SIZES !!! "honorific")
  +:+ "px;
            line-height: "
  +:+ pretty (FONT_SIZES !!! "honorific")
  +:+ "px;
            min-width: 50px;
            margin-left: "
  +:+ pretty (LAYOUT !!! "name_space")
  +:+ "px;
        }

        /* 姓名要素 */
        .last_name, .first_name {
            display: flex;
            align-items: center;
            justify-content: center;
            width: "
  +:+ pretty (LAYOUT !!! "name_width")
  +:+ "px;
            height: 40px;
            font-size: "
  +:+ pretty (FONT_SIZES !!! "name")
  +:+ "px;
            color: rgba(255,255,255,1);
            font-family: Inter;
            font-weight: Bold Italic;
            white-space: nowrap;
            text-align: center;
        }
    ".

Definition multiline_subject_css : string :=
  "
            .subject {
                position: absolute;
                white-space: pre-line;
                text-align: center;
                width: 150px;
                top: 140px;
                left: 36px;
                line-height: 1.2;
                font-size: 38px;
                display: flex;
                flex-direction: column;
                justify-content: center;
                align-items: center;
                color: rgba(255,255,255,1);
                font-family: Inter;
                font-weight: Bold Italic;
            }
        ".

Definition single_line_subject_css : string :=
  "
            .subject {
                position: absolute;
                white-space: nowrap;
                text-align: center;
                width: 150px;
                top: 155px;
                left: 36px;
                font-size: 38px;
                color: rgba(255,255,255,1);
                font-family: Inter;
                font-weight: Bold Italic;
            }
        ".

Definition html_with_css (css_content body : string) : string :=
  "
    <!DOCTYPE html>
    <html>
        <head>
            <meta charset=" +:+ dq +:+ "UTF-8" +:+ dq +:+ ">
            <link href=" +:+ dq +:+ "https://fonts.googleapis.com/css?family=Inter&display=swap" +:+ dq +:+ " rel=" +:+ dq +:+ "stylesheet" +:+ dq +:+ " />
            <style>
                "
  +:+ css_content
  +:+ "
                html, body {
                    margin: 0;
                    padding: 0;
                    width: 842px;
                    height: 595px;
                    overflow: hidden;
                }
            </style>
        </head>
        <body>
            "
  +:+ body
  +:+ "
        </body>
    </html>
    ".

(** The pattern of the two [re.sub] calls. Group 1: a dot and the class name,
    spaces, an opening brace, characters other than a closing brace, the word
    background with its colon, spaces. Then url, an opening parenthesis, a
    double quote, characters other than a double quote, a double quote, a
    closing parenthesis. Group 2: characters other than a closing brace, and
    the closing brace. *)
Definition background_pattern (name : string) : list atom :=
  [ GroupOpen; Lit (chars ("." +:+ name)); Star class_space; Lit (chars "{");
    Star (class_not "}"); Lit (chars "background:"); Star class_space; GroupClose;
    Lit (chars ("url(" +:+ dq)); Star (class_not "034"); Lit (chars (dq +:+ ")"));
    GroupOpen; Star (class_not "}"); Lit (chars "}"); GroupClose ].

Definition data_url (base64 : string) : string :=
  "url(" +:+ dq +:+ "data:image/png;base64," +:+ base64 +:+ dq +:+ ")".

Definition background_repl (base64 : string) : list repl_item :=
  [ RGroup 1; RText (chars (data_url base64)); RGroup 2 ].

Section Render.

Variable PACKAGE_DIR : string.

(** Reading a file whole, [open(path).read()]: its content, or the exception
    that [open] or the read raises. *)
Variable fs : string → result string.

(** The headless browser: from the final markup to the bytes of the PDF, or
    the exception the renderer raises. *)
Variable render_pdf : string → result string.

Definition encode_image_to_base64 (image_path : string) : io string :=
  match fs image_path with
  | Ok bytes => mret (b64encode bytes)
  | Raise e =>
      _ ← print ("Warning: Could not load image " +:+ image_path +:+ ": " +:+ str_exn e);
      mret EmptyString
  end.

(** The template-type step: the extra style sheet and the rewritten score
    markup for the score-up template, nothing otherwise. *)
Definition apply_template_type (data : gmap string pyval) (css_content html_content : string)
  : string * string :=
  if bool_decide (data !! "template_type" = Some (PStr "点数アップ掲示"))
  then (css_content +:+ additional_css,
        str_replace point_markup point_up_markup html_content)
  else (css_content, html_content).

(** The six placeholder substitutions. *)
Definition substitute_fields (data : gmap string pyval) (html_content : string)
  : result string :=
  sc_year ← getitem data "sc_year";
  let html_content := str_replace "[sc_year]{.sc_year}" (py_str sc_year) html_content in
  last_name ← getitem data "last_name";
  let html_content := str_replace "[last_name]{.last_name}" (py_str last_name) html_content in
  first_name ← getitem data "first_name";
  let html_content := str_replace "[first_name]{.first_name}" (py_str first_name) html_content in
  subject ← getitem data "subject";
  let html_content := str_replace "[subject]{.subject}" (py_str subject) html_content in
  test_name ← getitem data "test_name";
  let html_content := str_replace "[test_name]{.test_name}" (py_str test_name) html_content in
  score ← getitem data "score";
  let html_content := str_replace "[score]{.score}" (py_str score) html_content in
  Ok html_content.

(** The dictionary [image_files], in the order its entries are evaluated. *)
Definition load_images (subject_images : gmap string string)
  : io (string * string * string * string) :=
  medal_file ← lift (getitem subject_images "medal");
  medal ← encode_image_to_base64 (get_template_path PACKAGE_DIR "images" medal_file);
  crest ← encode_image_to_base64 (get_template_path PACKAGE_DIR "images" "crest.png");
  ribbon_file ← lift (getitem subject_images "ribbon");
  ribbon ← encode_image_to_base64 (get_template_path PACKAGE_DIR "images" ribbon_file);
  twinkle ← encode_image_to_base64 (get_template_path PACKAGE_DIR "images" "twinkle.png");
  mret (medal, crest, ribbon, twinkle).

(** The images spliced into the style sheet. *)
Definition embed_images (images : string * string * string * string) (css_content : string)
  : string :=
  let '(medal, crest, ribbon, twinkle) := images in
  let css_content := re_sub (background_pattern "medal") (background_repl medal) css_content in
  let css_content := re_sub (background_pattern "ribbon") (background_repl ribbon) css_content in
  let css_content :=
    str_replace ("url(" +:+ dq +:+ "../images/crest.png" +:+ dq +:+ ")") (data_url crest) css_content in
  str_replace ("url(" +:+ dq +:+ "../images/twinkle.png" +:+ dq +:+ ")") (data_url twinkle) css_content.

(** The final markup, up to the call of the renderer. *)
Definition final_markup (data : gmap string pyval) : io string :=
  css_content ← lift (fs (get_template_path PACKAGE_DIR "css" "main.css"));
  html_content ← lift (fs (get_template_path PACKAGE_DIR "html" "index.html"));
  let '(css_content, html_content) := apply_template_type data css_content html_content in
  subject ← lift (getitem data "subject");
  html_content ← lift (substitute_fields data html_content);
  let subject_images :=
    match subject with
    | PStr s => default (SUBJECT_IMAGES !!! "国語") (SUBJECT_IMAGES !! s)
    | _ => SUBJECT_IMAGES !!! "国語"
    end in
  _ ← load_images subject_images;
  image_files ← load_images subject_images;
  let css_content := embed_images image_files css_content in
  let css_content := css_content +:+ layout_css in
  let css_content :=
    if key_in subject MULTILINE_SUBJECTS
    then css_content +:+ multiline_subject_css
    else css_content +:+ single_line_subject_css in
  html_content ←
    (if key_in subject MULTILINE_SUBJECTS
     then
       two_lines ← lift (match subject with
                         | PStr s => getitem MULTILINE_SUBJECTS s
                         | _ => Raise (KeyError (py_str subject))
                         end);
       mret (str_replace
               ("<span class=" +:+ dq +:+ "subject" +:+ dq +:+ ">" +:+ py_str subject +:+ "</span>")
               ("<span class=" +:+ dq +:+ "subject" +:+ dq +:+ ">" +:+ two_lines +:+ "</span>")
               html_content)
     else mret html_content);
  after_body ← lift (index (str_split "<body>" html_content) 1);
  body ← lift (index (str_split "</body>" after_body) 0);
  mret (html_with_css css_content body).

Definition generate_pdf (data : gmap string pyval) : io string :=
  html ← final_markup data;
  lift (render_pdf html).

End Render.

End Generator.

(** ** [create_pdf] *)

Section Create.

Variable PACKAGE_DIR : string.
Variable fs : string → result string.
Variable render_pdf : string → result string.

Definition msg_pdf_failed (e : exn) : string :=
  "PDF生成中にエラーが発生しました: " +:+ str_exn e.

(** The [try] around [generate_pdf]: any exception comes out as a
    [RuntimeError] that quotes it. *)
Definition try_generate_pdf (data : gmap string pyval) : Generator.io string :=
  match Generator.run (Generator.generate_pdf PACKAGE_DIR fs render_pdf data) with
  | (Ok pdf, out) => Generator.IO (Ok pdf, out)
  | (Raise e, out) => Generator.IO (Raise (RuntimeError (msg_pdf_failed e)), out)
  end.

(** [create_pdf(data, config)]; the configuration is merged and not used. *)
Definition create_pdf (data : gmap string pyval) : Generator.io string :=
  error ← Generator.lift (validate_data data);
  match error with
  | Some msg =>
      if negb (String.eqb msg EmptyString)
      then Generator.lift (Raise (ValueError msg))
      else try_generate_pdf data
  | None => try_generate_pdf data
  end.

End Create.
End PdfGenerator.

Module Main.

Definition msg_last_name : string := "姓を入力してください".
Definition msg_first_name : string := "名を入力してください".
Definition msg_score : string := "点数は0から100の間で入力してください".

(** [validate_input]: the list [errors] grows by one entry per failed check
    and is returned whole. *)
Definition validate_input (values : gmap string pyval) : result (list string) :=
  let errors := [] in
  last_name ← getitem values "last_name";
  let errors := if negb (truthy last_name) then errors ++ [msg_last_name] else errors in
  first_name ← getitem values "first_name";
  let errors := if negb (truthy first_name) then errors ++ [msg_first_name] else errors in
  score ← getitem values "score";
  in_range ← between_int 0 score 100;
  let errors := if negb in_range then errors ++ [msg_score] else errors in
  Ok errors.

(** ** The batch of [create_bulk_pdf]

    The loop over the rows and the archive built after it; the widgets
    (progress bar, buttons, previews) are left out. A row is the dictionary
    of its six cells, the temporary directory a map from paths to contents. *)

(** What the user is shown in the end: the archive, as the list of its
    entries (name and content) with the number of rows, or an error text. *)
Inductive shown : Type :=
| Download (archive : list (string * string)) (count : nat)
| Error (text : string).

Section Bulk.

Import PdfGenerator.Generator.

Variable PACKAGE_DIR : string.
Variable fs : string → result string.
Variable render_pdf : string → result string.

(** The path of the temporary directory. *)
Variable temp_dir : string.

(** Whether [open(path, "wb")] succeeds, which the operating system decides. *)
Variable open_for_writing : string → result unit.

(** The dictionary [input_values] of a row. *)
Definition input_values (template_type : pyval) (row : gmap string pyval)
  : result (gmap string pyval) :=
  subject ← getitem row "subject";
  test_name ← getitem row "test_name";
  score ← getitem row "score";
  sc_year ← getitem row "sc_year";
  last_name ← getitem row "last_name";
  first_name ← getitem row "first_name";
  Ok (list_to_map
        [ ("subject", subject); ("test_name", test_name); ("score", score);
          ("sc_year", sc_year); ("last_name", last_name); ("first_name", first_name);
          ("template_type", template_type) ]).

(** The name of the file of a row. *)
Definition file_name (row : gmap string pyval) : result string :=
  last_name ← getitem row "last_name";
  first_name ← getitem row "first_name";
  subject ← getitem row "subject";
  Ok (py_str last_name +:+ py_str first_name +:+ "_" +:+ py_str subject +:+ ".pdf").

(** The loop: per row a PDF is rendered, written into the temporary
    directory and noted in [pdfs]. *)
Fixpoint render_rows (template_type : pyval) (rows : list (gmap string pyval))
    (files : gmap string string) (pdfs : list (string * string))
  : io (gmap string string * list (string * string)) :=
  match rows with
  | [] => mret (files, pdfs)
  | row :: rest =>
      values ← lift (input_values template_type row);
      pdf_data ← generate_pdf PACKAGE_DIR fs render_pdf values;
      filename ← lift (file_name row);
      let pdf_path := path_join temp_dir filename in
      _ ← lift (open_for_writing pdf_path);
      render_rows template_type rest (<[pdf_path := pdf_data]> files)
        (pdfs ++ [(pdf_path, filename)])
  end.

(** The archive: for every noted file, what the directory holds at its path,
    under its name. *)
Fixpoint zip_entries (files : gmap string string) (pdfs : list (string * string))
  : result (list (string * string)) :=
  match pdfs with
  | [] => Ok []
  | (pdf_path, filename) :: rest =>
      match files !! pdf_path with
      | Some content =>
          entries ← zip_entries files rest; Ok ((filename, content) :: entries)
      | None =>
          Raise (OSError ("[Errno 2] No such file or directory: '" +:+ pdf_path +:+ "'"))
      end
  end.

Definition msg_bulk_failed (e : exn) : string :=
  "PDF生成中にエラーが発生しました: " +:+ str_exn e.

(** The handler of the button: what is shown, and what has been printed. *)
Definition bulk_generate (template_type : pyval) (rows : list (gmap string pyval))
  : shown * list string :=
  match run (render_rows template_type rows ∅ []) with
  | (Ok (files, pdfs), out) =>
      match zip_entries files pdfs with
      | Ok archive => (Download archive (length rows), out)
      | Raise e => (Error (msg_bulk_failed e), out)
      end
  | (Raise e, out) => (Error (msg_bulk_failed e), out)
  end.

(** A row goes through: its values are complete, its PDF is rendered (with
    [out] printed on the way) and the file can be written. *)
Definition row_renders (template_type : pyval) (row : gmap string pyval)
    (filename pdf_data : string) (out : list string) : Prop :=
  ∃ values,
    input_values template_type row = Ok values ∧
    run (generate_pdf PACKAGE_DIR fs render_pdf values) = (Ok pdf_data, out) ∧
    file_name row = Ok filename ∧
    open_for_writing (path_join temp_dir filename) = Ok tt.

End Bulk.

End Main.

(** * White space in UTF-8 text *)

Module Unicode.

(** The number of bytes of the white-space character a text starts with, 0
    when it starts with none. The characters are those [str.isspace] knows:
    U+0009..U+000D, U+001C..U+0020, U+0085, U+00A0, U+1680, U+2000..U+200A,
    U+2028, U+2029, U+202F, U+205F and U+3000. *)
Definition space_width (s : string) : nat :=
  match s with
  | String a rest =>
      if Py.is_space a then 1%nat
      else
        match N_of_ascii a, rest with
        | 194%N, String b _ =>
            if (N_of_ascii b =? 133)%N || (N_of_ascii b =? 160)%N then 2%nat else 0%nat
        | 225%N, String b (String c _) =>
            if (N_of_ascii b =? 154)%N && (N_of_ascii c =? 128)%N then 3%nat else 0%nat
        | 226%N, String b (String c _) =>
            let c := N_of_ascii c in
            if (N_of_ascii b =? 128)%N
               && ((128 <=? c)%N && (c <=? 138)%N
                   || (c =? 168)%N || (c =? 169)%N || (c =? 175)%N)
            then 3%nat
            else if (N_of_ascii b =? 129)%N && (c =? 159)%N then 3%nat else 0%nat
        | 227%N, String b (String c _) =>
            if (N_of_ascii b =? 128)%N && (N_of_ascii c =? 128)%N then 3%nat else 0%nat
        | _, _ => 0%nat
        end
  | EmptyString => 0%nat
  end.

(** The same for a text read from its end, the bytes in reverse. *)
Definition space_width_reversed (s : string) : nat :=
  match s with
  | String a rest =>
      if Py.is_space a then 1%nat
      else
        match rest with
        | String b rest' =>
            if space_width (String b (String a EmptyString)) =? 2 then 2%nat
            else
              match rest' with
              | String c _ =>
                  if space_width (String c (String b (String a EmptyString))) =? 3
                  then 3%nat else 0%nat
              | EmptyString => 0%nat
              end
        | EmptyString => 0%nat
        end
  | EmptyString => 0%nat
  end%nat.

(** Dropping the white space a text starts with; [skip] counts the bytes of
    the current character still to drop. *)
Fixpoint drop_spaces (width : string → nat) (skip : nat) (s : string) : string :=
  match s with
  | EmptyString => EmptyString
  | String _ s' =>
      match skip with
      | S k => drop_spaces width k s'
      | O =>
          match width s with
          | O => s
          | S k => drop_spaces width k s'
          end
      end
  end.

(** [s.strip()]. *)
Definition strip (s : string) : string :=
  String.rev
    (drop_spaces space_width_reversed 0
       (String.rev (drop_spaces space_width 0 s))).

End Unicode.

(** * Tables *)

Module Pandas.

(** A numeric cell: a Python or NumPy integer, a finite float (the dyadic
    [m * 2^e], which every finite IEEE double is), an infinity, or NaN. *)
Inductive num : Type :=
| NInt (z : Z)
| NFin (m e : Z)
| NInf (negative : bool)
| NaN.

(** A cell of a table as [read_csv] and [read_excel] deliver it: a number, a
    missing value ([None]; NaN is [CNum NaN]) or text. *)
Inductive cell : Type :=
| CNum (n : num)
| CNone
| CStr (s : string).

Global Instance num_eq_dec : EqDecision num.
Proof. solve_decision. Defined.
Global Instance cell_eq_dec : EqDecision cell.
Proof. solve_decision. Defined.

(** A [DataFrame], column by column; [df.columns] is the domain. *)
Abbreviation DataFrame := (gmap string (list cell)).

(** [Series.isna()] on one cell. *)
Definition isna (c : cell) : bool :=
  match c with
  | CNone | CNum NaN => true
  | _ => false
  end.

(** [Series.between(lo, hi)] on one numeric cell, bounds included; NaN and the
    infinities compare false. *)
Definition num_between (lo hi : Z) (n : num) : bool :=
  match n with
  | NInt z => (lo <=? z) && (z <=? hi)
  | NFin m e =>
      if 0 <=? e
      then (lo <=? m * 2 ^ e) && (m * 2 ^ e <=? hi)
      else (lo * 2 ^ (- e) <=? m) && (m <=? hi * 2 ^ (- e))
  | NInf _ | NaN => false
  end.

(** The text of the [ValueError] that [pd.to_numeric] raises. *)
Definition msg_unable_to_parse (s : string) (position : nat) : string :=
  "Unable to parse string " +:+ String "034" (s +:+ String "034" (" at position " +:+ pretty position)).

(** The type name [str.join] reports for an item that is no string. *)
Definition type_name (c : cell) : string :=
  match c with
  | CNum (NInt _) => "int"
  | CNum _ => "float"
  | CNone => "NoneType"
  | CStr _ => "str"
  end.

(** [sep.join(items)]: every item has to be a string. *)
Fixpoint join_from (index : nat) (items : list cell) : result (list string) :=
  match items with
  | [] => Ok []
  | CStr s :: rest => strs ← join_from (S index) rest; Ok (s :: strs)
  | c :: _ =>
      Raise (TypeError ("sequence item " +:+ pretty index +:+ ": expected str instance, "
                        +:+ type_name c +:+ " found"))
  end.

Definition join_cells (sep : string) (items : list cell) : result string :=
  strs ← join_from 0 items; Ok (String.concat sep strs).

Section Library.

(** How [pd.to_numeric] reads one string, [None] when it cannot. *)
Variable parse_numeric : string → option num.

(** The order in which a Python [set] hands out its elements, given them
    without repeats: some rearrangement, which the hash seed decides. *)
Variable set_order : ∀ A : Type, list A → list A.

(** [pd.to_numeric] on the cell at [position]: a number stays, a missing
    value becomes NaN, text is parsed or raises. *)
Definition to_numeric_cell (position : nat) (c : cell) : result num :=
  match c with
  | CNum n => Ok n
  | CNone => Ok NaN
  | CStr s =>
      match parse_numeric s with
      | Some n => Ok n
      | None => Raise (ValueError (msg_unable_to_parse s position))
      end
  end.

(** [pd.to_numeric(column)] with the default [errors="raise"]. *)
Fixpoint to_numeric_from (position : nat) (column : list cell) : result (list num) :=
  match column with
  | [] => Ok []
  | c :: rest =>
      n ← to_numeric_cell position c;
      ns ← to_numeric_from (S position) rest;
      Ok (n :: ns)
  end.

Definition to_numeric (column : list cell) : result (list num) :=
  to_numeric_from 0 column.

(** [set(xs) - set(ys)]: the elements, each once. Cells are told apart
    structurally. *)
Definition set_difference {A} `{EqDecision A} (xs ys : list A) : list A :=
  remove_dups (filter (λ x, x ∉ ys) xs).

Definition columns (df : DataFrame) : list string := elements (dom df).

(** The messages, spelled the same in both validators. *)
Definition msg_missing_columns (missing : list string) : string :=
  "必須カラムが不足しています: " +:+ String.concat ", " (set_order _ missing).
Definition msg_score_range : string := "点数は0から100の間である必要があります".
Definition msg_null (col : string) : string := col +:+ "に空の値が含まれています".
Definition msg_invalid_subjects (joined : string) : string :=
  "無効な教科名が含まれています: " +:+ joined.
Definition msg_exception (e : exn) : string :=
  "データの検証中にエラーが発生しました: " +:+ str_exn e.

(** What the [except Exception] clause makes of the result of the [try]
    block: an exception becomes its message. *)
Definition outcome (r : result (option string)) : option string :=
  match r with
  | Ok msg => msg
  | Raise e => Some (msg_exception e)
  end.

(** The loop [for col in cols: if df[col].isna().any(): return ...]. *)
Fixpoint null_check (df : DataFrame) (cols : list string) : result (option string) :=
  match cols with
  | [] => Ok None
  | col :: rest =>
      cells ← getitem df col;
      if existsb isna cells then Ok (Some (msg_null col))
      else null_check df rest
  end.

(** The subject check against the valid names. *)
Definition subject_check (df : DataFrame) (valid_subjects : list string)
  : result (option string) :=
  subjects ← getitem df "subject";
  let invalid_subjects := set_difference subjects (CStr <$> valid_subjects) in
  match invalid_subjects with
  | [] => Ok None
  | _ => joined ← join_cells ", " (set_order _ invalid_subjects);
         Ok (Some (msg_invalid_subjects joined))
  end.

End Library.

End Pandas.
Import Pandas.

(** * Byte streams and the charset guesser *)

Module IO.

(** An [io.BytesIO]: its bytes and its cursor. *)
Record BytesIO : Type := { getvalue : string; tell : nat }.

Definition seek (offset : nat) (f : BytesIO) : BytesIO :=
  {| getvalue := getvalue f; tell := offset |}.

(** [f.read()]: the bytes from the cursor on; the cursor ends up behind them. *)
Definition read (f : BytesIO) : string * BytesIO :=
  let size := String.length (getvalue f) in
  (String.substring (tell f) (size - tell f) (getvalue f),
   {| getvalue := getvalue f; tell := Nat.max (tell f) size |}).

Definition lower_char (c : ascii) : ascii :=
  let n := nat_of_ascii c in
  if (65 <=? n)%nat && (n <=? 90)%nat then ascii_of_nat (n + 32) else c.

(** [s.lower()] on the ASCII letters, which is what encoding labels are made of. *)
Fixpoint lower (s : string) : string :=
  match s with
  | EmptyString => EmptyString
  | String c s' => String (lower_char c) (lower s')
  end.

End IO.
Import IO.

(** * [utils/file_processor.py] *)

Module FileProcessor.

Section Encoding.

(** [chardet.detect(raw)["encoding"]]: the guessed label, [None] when the
    guesser has no guess. *)
Variable chardet_detect : string → option string.

(** [detect_encoding(file_obj)]: the returned label or the exception, and the
    stream afterwards. The label is lowercased for the test only. *)
Definition detect_encoding (file_obj : BytesIO) : result string * BytesIO :=
  let file_obj := seek 0 file_obj in
  let '(raw_data, file_obj) := read file_obj in
  match chardet_detect raw_data with
  | None => (Raise (AttributeError "'NoneType' object has no attribute 'lower'"), file_obj)
  | Some encoding =>
      let encoding :=
        if negb (bool_decide (lower encoding ∈ ["utf-8"; "shift-jis"; "shift_jis"]))
        then "utf-8" else encoding in
      let file_obj := seek 0 file_obj in
      (Ok encoding, file_obj)
  end.

End Encoding.

Section Validation.

Variable parse_numeric : string → option num.
Variable set_order : ∀ A : Type, list A → list A.

Definition valid_subjects : list string :=
  ["国語"; "数学"; "社会"; "理科"; "英語"; "技術家庭"; "音楽"; "保健体育"].

(** The [try] block of [validate_dataframe]: its result or the exception that
    leaves it, and the table as the block leaves it. *)
Definition try_block (df : DataFrame) : result (option string) * DataFrame :=
  match getitem df "score" ≫= to_numeric parse_numeric with
  | Raise e => (Raise e, df)
  | Ok scores =>
      let df := <["score" := CNum <$> scores]> df in
      if negb (forallb (num_between 0 100) scores)
      then (Ok (Some msg_score_range), df)
      else
        (r ← null_check df ["subject"; "test_name"; "sc_year"; "last_name"; "first_name"];
         match r with
         | Some msg => Ok (Some msg)
         | None => subject_check set_order df valid_subjects
         end, df)
  end.

(** [validate_dataframe(df, required_columns)]: the returned message
    ([None] when the table is accepted) and the caller's table afterwards. *)
Definition validate_dataframe (df : DataFrame) (required_columns : list string)
  : option string * DataFrame :=
  let missing_columns := set_difference required_columns (columns df) in
  match missing_columns with
  | _ :: _ => (Some (msg_missing_columns set_order missing_columns), df)
  | [] =>
      let '(r, df) := try_block df in (outcome r, df)
  end.

End Validation.

End FileProcessor.

(** * [utils/__init__.py] *)

Module Utils.

Definition ALLOWED_ENCODINGS : gset string := {[ "utf-8"; "shift-jis"; "shift_jis" ]}.

Definition msg_detect_failed (e : exn) : string :=
  "エンコーディングの検出に失敗しました: " +:+ str_exn e.

Section Encoding.

Variable chardet_detect : string → option string.

(** The body of the [try]: [file_obj] is a stream or plain [bytes]. *)
Definition detect_encoding_try (file_obj : BytesIO + string)
  : result string * (BytesIO + string) :=
  let '(raw_data, file_obj) :=
    match file_obj with
    | inl f => let '(raw, f) := read (seek 0 f) in (raw, inl f)
    | inr raw => (raw, inr raw)
    end in
  match chardet_detect raw_data with
  | None => (Raise (AttributeError "'NoneType' object has no attribute 'lower'"), file_obj)
  | Some encoding =>
      let detected_encoding := lower encoding in
      if bool_decide (detected_encoding ∈ ALLOWED_ENCODINGS)
      then (Ok detected_encoding, file_obj)
      else (Ok "utf-8", file_obj)
  end.

(** [detect_encoding(file_obj)]: every exception of the body is turned into a
    [FileProcessError], and the [finally] clause rewinds a stream. *)
Definition detect_encoding (file_obj : BytesIO + string)
  : result string * (BytesIO + string) :=
  let '(r, file_obj) := detect_encoding_try file_obj in
  let r := match r with
           | Ok encoding => Ok encoding
           | Raise e => Raise (FileProcessError (msg_detect_failed e))
           end in
  (r, match file_obj with inl f => inl (seek 0 f) | inr raw => inr raw end).

End Encoding.

Definition REQUIRED_COLUMNS : list string :=
  ["subject"; "test_name"; "score"; "sc_year"; "last_name"; "first_name"].

Section Validation.

Variable parse_numeric : string → option num.
Variable set_order : ∀ A : Type, list A → list A.

Definition try_block (df : DataFrame) : result (option string) * DataFrame :=
  match getitem df "score" ≫= to_numeric parse_numeric with
  | Raise e => (Raise e, df)
  | Ok scores =>
      let df := <["score" := CNum <$> scores]> df in
      let invalid_scores := filter (λ n, negb (num_between 0 100 n)) scores in
      if negb (bool_decide (invalid_scores = []))
      then (Ok (Some msg_score_range), df)
      else
        (r ← null_check df REQUIRED_COLUMNS;
         match r with
         | Some msg => Ok (Some msg)
         | None => subject_check set_order df (elements (dom VALID_SUBJECTS))
         end, df)
  end.

(** [validate_dataframe(df)], with [VALID_SUBJECTS] imported from
    [pdf_generator]. *)
Definition validate_dataframe (df : DataFrame) : option string * DataFrame :=
  let missing_columns := set_difference REQUIRED_COLUMNS (columns df) in
  match missing_columns with
  | _ :: _ => (Some (msg_missing_columns set_order missing_columns), df)
  | [] =>
      let '(r, df) := try_block df in (outcome r, df)
  end.

End Validation.

(** ** [process_file] *)

Definition MAX_FILE_SIZE : N := 10 * 1024 * 1024.

(** What the body of [process_file] can raise: an exception of the classes
    above, or pandas' [EmptyDataError]. *)
Inductive raised : Type :=
| Exn (e : exn)
| EmptyDataError (msg : string).

Definition msg_too_large : string := "ファイルサイズが大きすぎます。上限: 10.0MB".
Definition msg_unsupported : string := "サポートされていないファイル形式です".
Definition msg_no_data : string := "ファイルにデータが含まれていません".
Definition msg_processing (e : exn) : string :=
  "ファイルの処理中にエラーが発生しました: " +:+ str_exn e.

(** [lambda x: str(x).strip() if isinstance(x, str) else x]. *)
Definition strip_cell (c : cell) : cell :=
  match c with
  | CStr s => CStr (Unicode.strip s)
  | _ => c
  end.

Section Processing.

Variable chardet_detect : string → option string.
Variable parse_numeric : string → option num.
Variable set_order : ∀ A : Type, list A → list A.

(** [pd.read_csv(file_obj, encoding=encoding)] and [pd.read_excel(file_obj)]
    on the bytes of a rewound stream. *)
Variable read_csv : string → string → raised + DataFrame.
Variable read_excel : string → raised + DataFrame.

(** The body of the [try]. *)
Definition process_file_try (file_obj : BytesIO) (file_extension : string)
  : raised + DataFrame :=
  let file_size := N.of_nat (String.length (getvalue file_obj)) in
  if (MAX_FILE_SIZE <? file_size)%N then inl (Exn (FileProcessError msg_too_large))
  else
    let file_obj := seek 0 file_obj in
    let loaded :=
      if String.eqb (lower file_extension) ".csv" then
        match detect_encoding chardet_detect (inl file_obj) with
        | (Ok encoding, _) => read_csv (getvalue file_obj) encoding
        | (Raise e, _) => inl (Exn e)
        end
      else if String.eqb (lower file_extension) ".xlsx" then
        read_excel (getvalue file_obj)
      else inl (Exn (FileProcessError msg_unsupported)) in
    match loaded with
    | inl r => inl r
    | inr df =>
        let df : DataFrame := (λ column : list cell, strip_cell <$> column) <$> df in
        let '(error_msg, df) := validate_dataframe parse_numeric set_order df in
        match error_msg with
        | Some msg =>
            if negb (String.eqb msg EmptyString)
            then inl (Exn (FileProcessError msg))
            else inr df
        | None => inr df
        end
    end.

(** [process_file(file_obj, file_extension)]: the handlers pass a
    [FileProcessError] on and turn everything else into one. *)
Definition process_file (file_obj : BytesIO) (file_extension : string)
  : result DataFrame :=
  match process_file_try file_obj file_extension with
  | inr df => Ok df
  | inl (EmptyDataError _) => Raise (FileProcessError msg_no_data)
  | inl (Exn (FileProcessError msg)) => Raise (FileProcessError msg)
  | inl (Exn e) => Raise (FileProcessError (msg_processing e))
  end.

End Processing.

End Utils.
(** * The text of [generator.py] and its brackets *)

Module Syntax.

(** The file, line by line. *)
Definition generator_py : list string :=
  [ "import asyncio";
    "import base64";
    "import os";
    "import re";
    "from typing import Dict, Any";
    "from playwright.async_api import async_playwright";
    EmptyString;
    "# 固定サイズ定数";
    "FONT_SIZES = {" +:+ dq +:+ "name" +:+ dq +:+ ": 36, " +:+ dq +:+ "year" +:+ dq +:+ ": 36, " +:+ dq +:+ "honorific" +:+ dq +:+ ": 29}  # 姓名用  # 学年用  # さん用";
    EmptyString;
    "# レイアウト定数";
    "LAYOUT = {";
    "    " +:+ dq +:+ "content_width" +:+ dq +:+ ": 77,  # コンテンツ幅（%）";
    "    " +:+ dq +:+ "name_width" +:+ dq +:+ ": 180,  # 姓名の幅（px）";
    "    " +:+ dq +:+ "margin" +:+ dq +:+ ": 20,  # 基本余白";
    "    " +:+ dq +:+ "name_space" +:+ dq +:+ ": 18,  # 姓名間の余白";
    "}";
    EmptyString;
    "# 教科と画像のマッピング";
    "SUBJECT_IMAGES = {";
    "    " +:+ dq +:+ "国語" +:+ dq +:+ ": {" +:+ dq +:+ "medal" +:+ dq +:+ ": " +:+ dq +:+ "n_lang1.png" +:+ dq +:+ ", " +:+ dq +:+ "ribbon" +:+ dq +:+ ": " +:+ dq +:+ "n_lang2.png" +:+ dq +:+ "},";
    "    " +:+ dq +:+ "数学" +:+ dq +:+ ": {" +:+ dq +:+ "medal" +:+ dq +:+ ": " +:+ dq +:+ "math1.png" +:+ dq +:+ ", " +:+ dq +:+ "ribbon" +:+ dq +:+ ": " +:+ dq +:+ "math2.png" +:+ dq +:+ "},";
    "    " +:+ dq +:+ "社会" +:+ dq +:+ ": {" +:+ dq +:+ "medal" +:+ dq +:+ ": " +:+ dq +:+ "social1.png" +:+ dq +:+ ", " +:+ dq +:+ "ribbon" +:+ dq +:+ ": " +:+ dq +:+ "social2.png" +:+ dq +:+ "},";
    "    " +:+ dq +:+ "理科" +:+ dq +:+ ": {" +:+ dq +:+ "medal" +:+ dq +:+ ": " +:+ dq +:+ "science1.png" +:+ dq +:+ ", " +:+ dq +:+ "ribbon" +:+ dq +:+ ": " +:+ dq +:+ "science2.png" +:+ dq +:+ "},";
    "    " +:+ dq +:+ "英語" +:+ dq +:+ ": {" +:+ dq +:+ "medal" +:+ dq +:+ ": " +:+ dq +:+ "eng1.png" +:+ dq +:+ ", " +:+ dq +:+ "ribbon" +:+ dq +:+ ": " +:+ dq +:+ "eng2.png" +:+ dq +:+ "},";
    "    " +:+ dq +:+ "技術家庭" +:+ dq +:+ ": {" +:+ dq +:+ "medal" +:+ dq +:+ ": " +:+ dq +:+ "tech1.png" +:+ dq +:+ ", " +:+ dq +:+ "ribbon" +:+ dq +:+ ": " +:+ dq +:+ "tech2.png" +:+ dq +:+ "},";
    "    " +:+ dq +:+ "音楽" +:+ dq +:+ ": {" +:+ dq +:+ "medal" +:+ dq +:+ ": " +:+ dq +:+ "music1.png" +:+ dq +:+ ", " +:+ dq +:+ "ribbon" +:+ dq +:+ ": " +:+ dq +:+ "music2.png" +:+ dq +:+ "},";
    "    " +:+ dq +:+ "保健体育" +:+ dq +:+ ": {" +:+ dq +:+ "medal" +:+ dq +:+ ": " +:+ dq +:+ "sport1.png" +:+ dq +:+ ", " +:+ dq +:+ "ribbon" +:+ dq +:+ ": " +:+ dq +:+ "sport2.png" +:+ dq +:+ "},";
    "}";
    EmptyString;
    "# 改行が必要な教科";
    "MULTILINE_SUBJECTS = {" +:+ dq +:+ "技術家庭" +:+ dq +:+ ": " +:+ dq +:+ "技術\n家庭" +:+ dq +:+ ", " +:+ dq +:+ "保健体育" +:+ dq +:+ ": " +:+ dq +:+ "保健\n体育" +:+ dq +:+ "}";
    EmptyString;
    EmptyString;
    "def encode_image_to_base64(image_path: str) -> str:";
    "    " +:+ dq +:+ dq +:+ dq +:+ "画像ファイルをBase64エンコード" +:+ dq +:+ dq +:+ dq;
    "    try:";
    "        with open(image_path, " +:+ dq +:+ "rb" +:+ dq +:+ ") as image_file:";
    "            return base64.b64encode(image_file.read()).decode(" +:+ dq +:+ "utf-8" +:+ dq +:+ ")";
    "    except Exception as e:";
    "        print(f" +:+ dq +:+ "Warning: Could not load image {image_path}: {e}" +:+ dq +:+ ")";
    "        return " +:+ dq +:+ dq;
    EmptyString;
    EmptyString;
    "def generate_pdf(data: Dict[str, Any]) -> bytes:";
    "    " +:+ dq +:+ dq +:+ dq;
    "    PDFを生成する";
    EmptyString;
    "    Args:";
    "        data: PDF生成に必要なデータ";
    "            - subject: 教科名";
    "            - test_name: テスト名";
    "            - score: 点数";
    "            - sc_year: 学年";
    "            - last_name: 姓";
    "            - first_name: 名";
    "            - template_type: テンプレートタイプ";
    "                - " +:+ dq +:+ "得点掲示" +:+ dq +:+ ": 通常の点数表示";
    "                - " +:+ dq +:+ "点数アップ掲示" +:+ dq +:+ ": 点数の後ろにUPを表示";
    EmptyString;
    "    Returns:";
    "        bytes: 生成されたPDFデータ";
    "    " +:+ dq +:+ dq +:+ dq;
    "    from . import get_template_path";
    EmptyString;
    "    # CSSファイルを読み込み（一度だけ読み込む）";
    "    with open(get_template_path(" +:+ dq +:+ "css" +:+ dq +:+ ", " +:+ dq +:+ "main.css" +:+ dq +:+ "), " +:+ dq +:+ "r" +:+ dq +:+ ", encoding=" +:+ dq +:+ "utf-8" +:+ dq +:+ ") as f:";
    "        css_content = f.read()";
    EmptyString;
    "    # HTMLテンプレートを読み込み";
    "    with open(get_template_path(" +:+ dq +:+ "html" +:+ dq +:+ ", " +:+ dq +:+ "index.html" +:+ dq +:+ "), " +:+ dq +:+ "r" +:+ dq +:+ ", encoding=" +:+ dq +:+ "utf-8" +:+ dq +:+ ") as f:";
    "        html_content = f.read()";
    EmptyString;
    "    # テンプレートタイプに応じた修正";
    "    if data.get(" +:+ dq +:+ "template_type" +:+ dq +:+ ") == " +:+ dq +:+ "点数アップ掲示" +:+ dq +:+ ":";
    EmptyString;
    "        additional_css = " +:+ dq +:+ dq +:+ dq;
    "        /* スコア全体のレイアウト調整 */";
    "    .score-container {";
    "        position: relative;";
    "        width: 600px;  /* スコア表示エリアの幅を確保 */";
    "    }";
    "        /* 点数表示のコンテナ */";
    "        .score {";
    "        width: 485px;";
    "        color: rgba(255,0,0,1);";
    "        position: absolute;";
    "        top: 136px;";
    "        left: 178px;";
    "        text-shadow: 8px 6px 6px rgba(0, 0, 0, 0.25);";
    "        font-family: Inter;";
    "        font-weight: Bold Italic;";
    "        font-size: 227px;";
    "        opacity: 1;";
    "        text-align: center;";
    "        } ";
    EmptyString;
    "        /* 点UPのコンテナ */";
    "        .point.point-up {";
    "        position: absolute;";
    "        top: 328px;";
    "        left: 610px;  /* 元の.pointと同じ位置 */";
    "        display: flex;";
    "        align-items: baseline;";
    "        white-space: nowrap;";
    "        font-family: Inter;";
    "        font-weight: Bold Italic;";
    "        }";
    EmptyString;
    "        /* 点の文字 */";
    "        .point.point-up .ten {";
    "            font-size: 104px;";
    "            line-height: 1;";
    "            color: black;";
    "            font-family: Inter;";
    "            font-weight: Bold Italic;";
    "        }";
    EmptyString;
    "        /* UPの文字 */";
    "        .point.point-up .up {";
    "            font-size: 60px; ";
    "            line-height: 1;";
    "            color: black;";
    "            font-family: Inter;";
    "            font-weight: Bold Italic;";
    "            margin-left: 5px;";
    "        }";
    EmptyString;
    "        " +:+ dq +:+ dq +:+ dq;
    "        # CSSを追加";
    "        css_content += additional_css";
    "        # HTMLのリプレイス";
    "        html_content = html_content.replace(";
    "            '<span class=" +:+ dq +:+ "point" +:+ dq +:+ ">点</span>',";
    "            '<span class=" +:+ dq +:+ "point point-up" +:+ dq +:+ "><span class=" +:+ dq +:+ "ten" +:+ dq +:+ ">点</span><span class=" +:+ dq +:+ "up" +:+ dq +:+ ">UP</span></span>',";
    "        )";
    EmptyString;
    "    # HTMLコンテンツを更新";
    "    subject = data[" +:+ dq +:+ "subject" +:+ dq +:+ "]";
    "    html_content = html_content.replace(";
    "        " +:+ dq +:+ "[sc_year]{.sc_year}" +:+ dq +:+ ",";
    "        str(data[" +:+ dq +:+ "sc_year" +:+ dq +:+ "]),  # f'[{data[" +:+ dq +:+ "sc_year" +:+ dq +:+ "]}]{{.sc_year}}'";
    "    )";
    "    html_content = html_content.replace(";
    "        " +:+ dq +:+ "[last_name]{.last_name}" +:+ dq +:+ ",";
    "        str(data[" +:+ dq +:+ "last_name" +:+ dq +:+ "]),  # f'[{data[" +:+ dq +:+ "last_name" +:+ dq +:+ "]}]{{.last_name}}'";
    "    )";
    "    html_content = html_content.replace(";
    "        " +:+ dq +:+ "[first_name]{.first_name}" +:+ dq +:+ ",";
    "        str(data[" +:+ dq +:+ "first_name" +:+ dq +:+ "]),  # f'[{data[" +:+ dq +:+ "first_name" +:+ dq +:+ "]}]{{.first_name}}'";
    "    )";
    "    html_content = html_content.replace(";
    "        " +:+ dq +:+ "[subject]{.subject}" +:+ dq +:+ ",";
    "        str(data[" +:+ dq +:+ "subject" +:+ dq +:+ "]),  # f'[{data[" +:+ dq +:+ "subject" +:+ dq +:+ "]}]{{.subject}}'";
    "    )";
    "    html_content = html_content.replace(";
    "        " +:+ dq +:+ "[test_name]{.test_name}" +:+ dq +:+ ",";
    "        str(data[" +:+ dq +:+ "test_name" +:+ dq +:+ "]),  # f'[{data[" +:+ dq +:+ "test_name" +:+ dq +:+ "]}]{{.test_name}}'";
    "    )";
    "    html_content = html_content.replace(";
    "        " +:+ dq +:+ "[score]{.score}" +:+ dq +:+ ",";
    "        str(data[" +:+ dq +:+ "score" +:+ dq +:+ "]),  # f'[{data[" +:+ dq +:+ "score" +:+ dq +:+ "]}]{{.score}}'";
    "    )";
    EmptyString;
    "    # 教科に対応する画像の設定";
    "    # subject_images = VALID_SUBJECTS[subject]";
    "    subject_images = SUBJECT_IMAGES.get(subject, SUBJECT_IMAGES[" +:+ dq +:+ "国語" +:+ dq +:+ "])";
    EmptyString;
    "    # 画像をBase64エンコード";
    "    image_files = {";
    "        " +:+ dq +:+ "medal" +:+ dq +:+ ": encode_image_to_base64(";
    "            get_template_path(" +:+ dq +:+ "images" +:+ dq +:+ ", subject_images[" +:+ dq +:+ "medal" +:+ dq +:+ "])";
    "        ),";
    "        " +:+ dq +:+ "crest" +:+ dq +:+ ": encode_image_to_base64(get_template_path(" +:+ dq +:+ "images" +:+ dq +:+ ", " +:+ dq +:+ "crest.png" +:+ dq +:+ ")),";
    "        " +:+ dq +:+ "ribbon" +:+ dq +:+ ": encode_image_to_base64(";
    "            get_template_path(" +:+ dq +:+ "images" +:+ dq +:+ ", subject_images[" +:+ dq +:+ "ribbon" +:+ dq +:+ "])";
    "        ),";
    "        " +:+ dq +:+ "twinkle" +:+ dq +:+ ": encode_image_to_base64(get_template_path(" +:+ dq +:+ "images" +:+ dq +:+ ", " +:+ dq +:+ "twinkle.png" +:+ dq +:+ ")),";
    "    }";
    EmptyString;
    "    image_files = {";
    "        " +:+ dq +:+ "medal" +:+ dq +:+ ": encode_image_to_base64(";
    "            get_template_path(" +:+ dq +:+ "images" +:+ dq +:+ ", subject_images[" +:+ dq +:+ "medal" +:+ dq +:+ "])";
    "        ),";
    "        " +:+ dq +:+ "crest" +:+ dq +:+ ": encode_image_to_base64(get_template_path(" +:+ dq +:+ "images" +:+ dq +:+ ", " +:+ dq +:+ "crest.png" +:+ dq +:+ ")),";
    "        " +:+ dq +:+ "ribbon" +:+ dq +:+ ": encode_image_to_base64(";
    "            get_template_path(" +:+ dq +:+ "images" +:+ dq +:+ ", subject_images[" +:+ dq +:+ "ribbon" +:+ dq +:+ "])";
    "        ),";
    "        " +:+ dq +:+ "twinkle" +:+ dq +:+ ": encode_image_to_base64(get_template_path(" +:+ dq +:+ "images" +:+ dq +:+ ", " +:+ dq +:+ "twinkle.png" +:+ dq +:+ ")),";
    "    }";
    EmptyString;
    "    # 画像パスをBase64に置換";
    "    css_content = re.sub(";
    "        r'(\.medal\s*{[^}]*background:\s*)url\(" +:+ dq +:+ "[^" +:+ dq +:+ "]*" +:+ dq +:+ "\)([^}]*})',";
    "        f'\\1url(" +:+ dq +:+ "data:image/png;base64,{image_files[" +:+ dq +:+ "medal" +:+ dq +:+ "]}" +:+ dq +:+ ")\\2',";
    "        css_content,";
    "    )";
    "    css_content = re.sub(";
    "        r'(\.ribbon\s*{[^}]*background:\s*)url\(" +:+ dq +:+ "[^" +:+ dq +:+ "]*" +:+ dq +:+ "\)([^}]*})',";
    "        f'\\1url(" +:+ dq +:+ "data:image/png;base64,{image_files[" +:+ dq +:+ "ribbon" +:+ dq +:+ "]}" +:+ dq +:+ ")\\2',";
    "        css_content,";
    "    )";
    "    css_content = css_content.replace(";
    "        'url(" +:+ dq +:+ "../images/crest.png" +:+ dq +:+ ")',";
    "        f'url(" +:+ dq +:+ "data:image/png;base64,{image_files[" +:+ dq +:+ "crest" +:+ dq +:+ "]}" +:+ dq +:+ ")',";
    "    )";
    "    css_content = css_content.replace(";
    "        'url(" +:+ dq +:+ "../images/twinkle.png" +:+ dq +:+ ")',";
    "        f'url(" +:+ dq +:+ "data:image/png;base64,{image_files[" +:+ dq +:+ "twinkle" +:+ dq +:+ "]}" +:+ dq +:+ ")',";
    "    )";
    EmptyString;
    "    # リボンエリアのCSS追加";
    "    css_content += f" +:+ dq +:+ dq +:+ dq;
    "        .ribbon {{";
    "            width: 660px;";
    "            height: 106px;";
    "            background-repeat: no-repeat;";
    "            background-position: center center;";
    "            background-size: cover;";
    "            position: absolute;";
    "            top: 446px;";
    "            left: 91px;";
    "            display: flex;";
    "            justify-content: center;";
    "            align-items: flex-end;";
    "        }}";
    EmptyString;
    "        .name-content {{";
    "            display: flex;";
    "            align-items: center;";
    "            justify-content: center;";
    "            width: {LAYOUT['content_width']}%;";
    "            height: 66px;";
    "            padding: 0 {LAYOUT['margin']}px;";
    "            box-sizing: border-box;";
    "        }}";
    EmptyString;
    "        .name-group {{";
    "            display: flex;";
    "            align-items: center;";
    "            justify-content: center;";
    "            margin: 0 {LAYOUT['name_space']}px;";
    "            flex: 1;";
    "            width: {LAYOUT['content_width']}%;";
    "            height: 66px;";
    "        }}";
    EmptyString;
    "        /* 固定サイズのテキスト要素 */";
    "        .sc_year, .honorific {{";
    "            color: rgba(255,255,255,1);";
    "            font-family: Inter;";
    "            font-weight: Bold Italic;";
    "            white-space: nowrap;";
    "            display: inline-flex;";
    "            align-items: center;";
    "            justify-content: center;";
    "        }}";
    EmptyString;
    "        .sc_year {{";
    "            font-size: {FONT_SIZES['year']}px;";
    "            height: {FONT_SIZES['year']}px;";
    "            line-height: {FONT_SIZES['year']}px;";
    "            min-width: 80px;";
    "            margin-left: {LAYOUT['margin']}px;";
    "        }}";
    EmptyString;
    "        .honorific {{";
    "            font-size: {FONT_SIZES['honorific']}px;";
    "            height: {FONT_SIZES['honorific']}px;";
    "            line-height: {FONT_SIZES['honorific']}px;";
    "            min-width: 50px;";
    "            margin-left: {LAYOUT['name_space']}px;";
    "        }}";
    EmptyString;
    "        /* 姓名要素 */";
    "        .last_name, .first_name {{";
    "            display: flex;";
    "            align-items: center;";
    "            justify-content: center;";
    "            width: {LAYOUT['name_width']}px;";
    "            height: 40px;";
    "            font-size: {FONT_SIZES['name']}px;";
    "            color: rgba(255,255,255,1);";
    "            font-family: Inter;";
    "            font-weight: Bold Italic;";
    "            white-space: nowrap;";
    "            text-align: center;";
    "        }}";
    "    " +:+ dq +:+ dq +:+ dq;
    EmptyString;
    "    # 教科特有のスタイル追加";
    "    if subject in MULTILINE_SUBJECTS:";
    "        css_content += " +:+ dq +:+ dq +:+ dq;
    "            .subject {";
    "                position: absolute;";
    "                white-space: pre-line;";
    "                text-align: center;";
    "                width: 150px;";
    "                top: 140px;";
    "                left: 36px;";
    "                line-height: 1.2;";
    "                font-size: 38px;";
    "                display: flex;";
    "                flex-direction: column;";
    "                justify-content: center;";
    "                align-items: center;";
    "                color: rgba(255,255,255,1);";
    "                font-family: Inter;";
    "                font-weight: Bold Italic;";
    "            }";
    "        " +:+ dq +:+ dq +:+ dq;
    "    else:";
    "        css_content += " +:+ dq +:+ dq +:+ dq;
    "            .subject {";
    "                position: absolute;";
    "                white-space: nowrap;";
    "                text-align: center;";
    "                width: 150px;";
    "                top: 155px;";
    "                left: 36px;";
    "                font-size: 38px;";
    "                color: rgba(255,255,255,1);";
    "                font-family: Inter;";
    "                font-weight: Bold Italic;";
    "            }";
    "        " +:+ dq +:+ dq +:+ dq;
    EmptyString;
    "    # 改行が必要な教科の処理";
    "    if subject in MULTILINE_SUBJECTS:";
    "        html_content = html_content.replace(";
    "            f'<span class=" +:+ dq +:+ "subject" +:+ dq +:+ ">{subject}</span>',";
    "            f'<span class=" +:+ dq +:+ "subject" +:+ dq +:+ ">{MULTILINE_SUBJECTS[subject]}</span>',";
    "        )";
    EmptyString;
    "    # Create final HTML";
    "    html_with_css = f" +:+ dq +:+ dq +:+ dq;
    "    <!DOCTYPE html>";
    "    <html>";
    "        <head>";
    "            <meta charset=" +:+ dq +:+ "UTF-8" +:+ dq +:+ ">";
    "            <link href=" +:+ dq +:+ "https://fonts.googleapis.com/css?family=Inter&display=swap" +:+ dq +:+ " rel=" +:+ dq +:+ "stylesheet" +:+ dq +:+ " />";
    "            <style>";
    "                {css_content}";
    "                html, body {{";
    "                    margin: 0;";
    "                    padding: 0;";
    "                    width: 842px;";
    "                    height: 595px;";
    "                    overflow: hidden;";
    "                }}";
    "            </style>";
    "        </head>";
    "        <body>";
    "            {html_content.split('<body>')[1].split('</body>')[0]}";
    "        </body>";
    "    </html>";
    "    " +:+ dq +:+ dq +:+ dq;
    EmptyString;
    "    async def generate_pdf_async():";
    "        # Generate PDF";
    "        async with async_playwright() as p:";
    "            browser = await p.chromium.launch(";
    "                browser = await p.chromium.launch(";
    "            headless=True,";
    "            args=['--no-sandbox', '--disable-setuid-sandbox']";
    "            )";
    "            page = await browser.new_page()";
    "            await page.set_viewport_size({" +:+ dq +:+ "width" +:+ dq +:+ ": 842, " +:+ dq +:+ "height" +:+ dq +:+ ": 595})";
    "            await page.set_content(html_with_css, wait_until=" +:+ dq +:+ "networkidle" +:+ dq +:+ ")";
    "            await page.wait_for_timeout(1000)";
    "            pdf_data = await page.pdf(";
    "                width=" +:+ dq +:+ "842px" +:+ dq +:+ ",";
    "                height=" +:+ dq +:+ "595px" +:+ dq +:+ ",";
    "                print_background=True,";
    "                margin={" +:+ dq +:+ "top" +:+ dq +:+ ": " +:+ dq +:+ "0" +:+ dq +:+ ", " +:+ dq +:+ "right" +:+ dq +:+ ": " +:+ dq +:+ "0" +:+ dq +:+ ", " +:+ dq +:+ "bottom" +:+ dq +:+ ": " +:+ dq +:+ "0" +:+ dq +:+ ", " +:+ dq +:+ "left" +:+ dq +:+ ": " +:+ dq +:+ "0" +:+ dq +:+ "},";
    "            )";
    "            await browser.close()";
    "            return pdf_data";
    EmptyString;
    "    return asyncio.run(generate_pdf_async())";
    EmptyString;
    EmptyString;
    "if __name__ == " +:+ dq +:+ "__main__" +:+ dq +:+ ":";
    "    # テスト用のデータ";
    "    test_data = {";
    "        " +:+ dq +:+ "subject" +:+ dq +:+ ": " +:+ dq +:+ "数学" +:+ dq +:+ ",";
    "        " +:+ dq +:+ "test_name" +:+ dq +:+ ": " +:+ dq +:+ "第1回定期考査" +:+ dq +:+ ",";
    "        " +:+ dq +:+ "score" +:+ dq +:+ ": 95,";
    "        " +:+ dq +:+ "sc_year" +:+ dq +:+ ": " +:+ dq +:+ "小3" +:+ dq +:+ ",";
    "        " +:+ dq +:+ "last_name" +:+ dq +:+ ": " +:+ dq +:+ "山田" +:+ dq +:+ ",";
    "        " +:+ dq +:+ "first_name" +:+ dq +:+ ": " +:+ dq +:+ "太郎" +:+ dq +:+ ",";
    "    }";
    "    asyncio.run(generate_pdf(test_data))";
    EmptyString ].

Definition newline : string := String "010" EmptyString.

(** The text of a file from its lines, each ended by a newline. *)
Definition source_text (lines : list string) : string :=
  String.concat EmptyString ((λ l, l +:+ newline) <$> lines).

(** Where the tokenizer is: in code, in a comment, or inside a string literal
    opened by [quote], single or triple. *)
Inductive mode : Type :=
| Code
| Comment
| Quoted (quote : ascii) (triple : bool).

Inductive lex_error : Type :=
| UnmatchedClose (close : ascii) (line : nat)
| MismatchedClose (close : ascii) (line : nat) (opened : ascii) (opened_line : nat)
| NeverClosed (opened : ascii) (opened_line : nat)
| UnterminatedString (line : nat).

Definition is_open (c : ascii) : bool :=
  match c with "(" | "[" | "{" => true | _ => false end%char.

Definition is_close (c : ascii) : bool :=
  match c with ")" | "]" | "}" => true | _ => false end%char.

Definition closes (opened close : ascii) : bool :=
  match opened, close with
  | "(", ")" | "[", "]" | "{", "}" => true
  | _, _ => false
  end%char.

Definition is_quote (c : ascii) : bool :=
  match c with "'" | "034" => true | _ => false end%char.

Definition is_newline (c : ascii) : bool := Ascii.eqb c "010".

(** Whether the next two characters are both [q]. *)
Definition two_more (q : ascii) (s : list ascii) : bool :=
  match s with
  | a :: b :: _ => Ascii.eqb a q && Ascii.eqb b q
  | _ => false
  end.

(** The tokenizer's bracket discipline: brackets count in code only, a
    closing bracket has to match the innermost open one, and a string literal
    runs to its closing quote, a backslash protecting the character after it.
    [skip] counts characters already looked at; [line] is the current line.
    The result is the state at the end of the text, or the first error. *)
Fixpoint scan (m : mode) (stack : list (ascii * nat)) (line skip : nat)
    (s : list ascii) : lex_error + (mode * list (ascii * nat) * nat) :=
  match s with
  | [] => inr (m, stack, line)
  | c :: s' =>
      let line' := if is_newline c then S line else line in
      match skip with
      | S k => scan m stack line' k s'
      | O =>
          match m with
          | Code =>
              if Ascii.eqb c "#" then scan Comment stack line' O s'
              else if is_quote c then
                if two_more c s' then scan (Quoted c true) stack line' 2 s'
                else scan (Quoted c false) stack line' O s'
              else if is_open c then scan Code ((c, line) :: stack) line' O s'
              else if is_close c then
                match stack with
                | [] => inl (UnmatchedClose c line)
                | (o, l) :: rest =>
                    if closes o c then scan Code rest line' O s'
                    else inl (MismatchedClose c line o l)
                end
              else scan Code stack line' O s'
          | Comment =>
              scan (if is_newline c then Code else Comment) stack line' O s'
          | Quoted q triple =>
              if Ascii.eqb c "\" then scan m stack line' 1 s'
              else if Ascii.eqb c q then
                if triple then
                  if two_more q s' then scan Code stack line' 2 s'
                  else scan m stack line' O s'
                else scan Code stack line' O s'
              else if is_newline c && negb triple then inl (UnterminatedString line)
              else scan m stack line' O s'
          end
      end
  end.

(** The check at the end of the file: no string literal and no bracket is
    left open. *)
Definition check_brackets (src : string) : lex_error + unit :=
  match scan Code [] 1 0 (chars src) with
  | inl err => inl err
  | inr (Quoted _ _, _, line) => inl (UnterminatedString line)
  | inr (_, (o, l) :: _, _) => inl (NeverClosed o l)
  | inr (_, [], _) => inr tt
  end.

Definition describe (err : lex_error) : string :=
  match err with
  | UnmatchedClose c _ => "unmatched '" +:+ String c "'"
  | MismatchedClose c _ o l =>
      "closing parenthesis '" +:+ String c ("' does not match opening parenthesis '"
        +:+ String o ("' on line " +:+ pretty l))
  | NeverClosed o _ => "'" +:+ String o "' was never closed"
  | UnterminatedString line =>
      "unterminated string literal (detected at line " +:+ pretty line +:+ ")"
  end.

(** Compiling a module: a text that fails the bracket check is no Python. *)
Definition compile (src : string) : result unit :=
  match check_brackets src with
  | inl err => Raise (SyntaxError (describe err))
  | inr _ => Ok tt
  end.

(** [import pdf_generator.generator]. *)
Definition import_generator : result unit := compile (source_text generator_py).

Section Call.

Variable PACKAGE_DIR : string.
Variable fs : string → result string.
Variable render_pdf : string → result string.

(** A call of [generate_pdf] from a program: the module is imported, then the
    function runs. *)
Definition call_generate_pdf (data : gmap string pyval) : PdfGenerator.Generator.io string :=
  _ ← PdfGenerator.Generator.lift import_generator;
  PdfGenerator.Generator.generate_pdf PACKAGE_DIR fs render_pdf data.

End Call.

End Syntax.
(** * Sample inputs *)

Module Samples.

(** A record that satisfies every rule. *)
Definition record : gmap string pyval :=
  list_to_map
    [ ("subject", PStr "数学"); ("test_name", PStr "第1回定期考査"); ("score", PInt 95);
      ("sc_year", PStr "小3"); ("last_name", PStr "山田"); ("first_name", PStr "太郎") ].

(** The same record with the integer score 0. *)
Definition record_score_zero : gmap string pyval := <["score" := PInt 0]> record.

(** A record that breaks three rules at once: no last name, a subject that is
    not in the table, a score above 100. *)
Definition record_three_violations : gmap string pyval :=
  <["last_name" := PStr EmptyString]> (<["subject" := PStr "物理"]> (<["score" := PInt 150]> record)).

(** The table of [create_sample_data]. *)
Definition table : DataFrame :=
  list_to_map
    [ ("subject", [CStr "国語"; CStr "数学"; CStr "英語"]);
      ("test_name", [CStr "第1回定期考査"; CStr "第1回定期考査"; CStr "第1回定期考査"]);
      ("score", [CNum (NInt 95); CNum (NInt 88); CNum (NInt 92)]);
      ("sc_year", [CStr "小3"; CStr "小3"; CStr "小3"]);
      ("last_name", [CStr "山田"; CStr "鈴木"; CStr "佐藤"]);
      ("first_name", [CStr "太郎"; CStr "花子"; CStr "一郎"]) ].

Definition table_without_score : DataFrame := delete "score" table.

Definition table_score_150 : DataFrame :=
  <["score" := [CNum (NInt 95); CNum (NInt 150); CNum (NInt 92)]]> table.

(** The second row has the empty string as last name. *)
Definition table_empty_last_name : DataFrame :=
  <["last_name" := [CStr "山田"; CStr EmptyString; CStr "佐藤"]]> table.

(** The second row has no last name at all. *)
Definition table_missing_last_name : DataFrame :=
  <["last_name" := [CStr "山田"; CNone; CStr "佐藤"]]> table.

(** The scores as text, the way an untyped spreadsheet column holds them. *)
Definition table_text_scores : DataFrame :=
  <["score" := [CStr "95"; CStr "150"; CStr "92"]]> table.

(** A reading of numbers that knows the decimal integers. *)
Definition parse_integer (s : string) : option num := NInt <$> int_of_str s.

(** A set that hands out its elements in the order they came in. *)
Definition insertion_order (A : Type) (l : list A) : list A := l.

(** ** Templates and files

    A template pair of the shape [generate_pdf] expects: the six placeholders,
    the score markup, a body element, the two background rules and the two
    fixed images. *)
Definition html_template : string :=
  "<!DOCTYPE html>
<html>
<head>
<meta charset=" +:+ dq +:+ "UTF-8" +:+ dq +:+ ">
<link href=" +:+ dq +:+ "css/main.css" +:+ dq +:+ " rel=" +:+ dq +:+ "stylesheet" +:+ dq +:+ " />
</head>
<body>
<div class=" +:+ dq +:+ "certificate" +:+ dq +:+ ">
<div class=" +:+ dq +:+ "medal" +:+ dq +:+ "><span class=" +:+ dq +:+ "subject" +:+ dq +:+ ">[subject]{.subject}</span></div>
<span class=" +:+ dq +:+ "test_name" +:+ dq +:+ ">[test_name]{.test_name}</span>
<span class=" +:+ dq +:+ "score" +:+ dq +:+ ">[score]{.score}</span>
<span class=" +:+ dq +:+ "point" +:+ dq +:+ ">点</span>
<div class=" +:+ dq +:+ "ribbon" +:+ dq +:+ "><span class=" +:+ dq +:+ "sc_year" +:+ dq +:+ ">[sc_year]{.sc_year}</span><span class=" +:+ dq +:+ "last_name" +:+ dq +:+ ">[last_name]{.last_name}</span><span class=" +:+ dq +:+ "first_name" +:+ dq +:+ ">[first_name]{.first_name}</span><span class=" +:+ dq +:+ "honorific" +:+ dq +:+ ">さん</span></div>
</div>
</body>
</html>
".

Definition css_template : string :=
  ".certificate {
  width: 842px;
  height: 595px;
  background: url(" +:+ dq +:+ "../images/crest.png" +:+ dq +:+ ");
}
.medal {
  width: 220px;
  height: 300px;
  background: url(" +:+ dq +:+ "../images/medal.png" +:+ dq +:+ ");
  background-repeat: no-repeat;
}
.ribbon {
  background: url(" +:+ dq +:+ "../images/ribbon.png" +:+ dq +:+ ");
}
.score::after {
  background: url(" +:+ dq +:+ "../images/twinkle.png" +:+ dq +:+ ");
}
".

Definition package_dir : string := "/app/pdf_generator".

Definition no_such_file (path : string) : exn :=
  OSError ("[Errno 2] No such file or directory: '" +:+ path +:+ "'").

(** A file system that holds the two templates and no image. *)
Definition templates_only (path : string) : result string :=
  if String.eqb path "/app/pdf_generator/templates/css/main.css" then Ok css_template
  else if String.eqb path "/app/pdf_generator/templates/index.html" then Ok html_template
  else Raise (no_such_file path).

(** A file system that holds the templates and, as images, a few bytes each. *)
Definition templates_and_images (path : string) : result string :=
  if String.eqb path "/app/pdf_generator/templates/images/math1.png" then Ok "medal"
  else if String.eqb path "/app/pdf_generator/templates/images/math2.png" then Ok "ribbon"
  else if String.eqb path "/app/pdf_generator/templates/images/crest.png" then Ok "crest"
  else if String.eqb path "/app/pdf_generator/templates/images/twinkle.png" then Ok "twinkle"
  else templates_only path.

(** An empty file system. *)
Definition no_files (path : string) : result string := Raise (no_such_file path).

(** A renderer that hands back a fixed document. *)
Definition renderer (html : string) : result string := Ok "%PDF-1.4".

(** The record for the score-up template. *)
Definition record_score_up : gmap string pyval :=
  <["template_type" := PStr "点数アップ掲示"]> record.

(** The same, with the plain score markup typed in as the test name. *)
Definition record_markup_in_test_name : gmap string pyval :=
  <["test_name" := PStr PdfGenerator.Generator.point_markup]> record_score_up.

(** ** Encoding detection *)

(** A guesser that answers with the label chardet gives Shift-JIS text. *)
Definition guess_shift_jis (raw : string) : option string := Some "SHIFT_JIS".

Definition upload : BytesIO := {| getvalue := "subject,score"; tell := 0 |}.

(** ** More samples *)

(** The second row names a subject that is not in the table. *)
Definition table_unknown_subject : DataFrame :=
  <["subject" := [CStr "国語"; CStr "物理"; CStr "英語"]]> table.

(** A guesser with no guess, as for an empty buffer. *)
Definition guess_nothing (raw : string) : option string := None.

Definition empty_upload : BytesIO := {| getvalue := EmptyString; tell := 0 |}.

(** The record with a key the renderer does not know. *)
Definition record_with_note : gmap string pyval := <["note" := PStr "memo"]> record.

(** ** A batch *)

Definition temp_dir : string := "/tmp/batch".

(** A directory in which every file can be written. *)
Definition writable (path : string) : result unit := Ok tt.

(** A second pupil. *)
Definition record_hanako : gmap string pyval := <["first_name" := PStr "花子"]> record.

(** A renderer that gives up on the page of the second pupil. *)
Definition fragile_renderer (html : string) : result string :=
  if Text.str_contains "花子" html then Raise (RuntimeError "Timeout 30000ms exceeded.")
  else Ok "%PDF-1.4".

(** A text doubled [n] times over. *)
Fixpoint doubled (n : nat) (s : string) : string :=
  match n with
  | O => s
  | S n => doubled n s +:+ doubled n s
  end.

(** An upload of 16 MiB. *)
Definition big_upload : BytesIO := {| getvalue := doubled 24 "x"; tell := 0 |}.

(** Readers that find the sample table in whatever they are given. *)
Definition read_csv (raw encoding : string) : Utils.raised + DataFrame := inr table.
Definition read_excel (raw : string) : Utils.raised + DataFrame := inr table.

End Samples.

(** * Facts: the record validators *)

Section RecordValidators.

Import PdfGenerator.

Lemma check_required_None (data : gmap string pyval) (fields : list string) :
  check_required data fields = None ↔
  Forall (λ f, ∃ v, data !! f = Some v ∧ truthy v = true) fields.
Proof.
  induction fields as [|f fields IH]; simpl.
  - split; [constructor | reflexivity].
  - destruct (data !! f) as [v|] eqn:Hf.
    + destruct (truthy v) eqn:Hv; simpl.
      * rewrite IH. split.
        -- intros H. constructor; [eauto | exact H].
        -- intros H. by inversion H.
      * split; [discriminate |].
        intros H. inversion H as [|? ? (v' & Hv' & Ht) _]; subst.
        rewrite Hf in Hv'. injection Hv' as <-. congruence.
    + split; [discriminate |].
      intros H. inversion H as [|? ? (v' & Hv' & _) _]; subst. congruence.
Qed.

(** [int] raises nothing but [ValueError] on a truthy value. *)
Lemma py_int_truthy (v : pyval) :
  truthy v = true → (∃ z, py_int v = Ok z) ∨ (∃ msg, py_int v = Raise (ValueError msg)).
Proof.
  destruct v as [|b|z|s]; simpl; intros Ht; try discriminate; eauto.
  destruct (int_of_str s); eauto.
Qed.

(** [validate_data] returns: it never raises. *)
Lemma validate_data_returns (data : gmap string pyval) :
  ∃ r : option string, validate_data data = Ok r.
Proof.
  unfold validate_data.
  destruct (check_required data required_fields) as [msg|] eqn:Hreq; [eauto |].
  apply check_required_None in Hreq. unfold required_fields in Hreq.
  rewrite !Forall_cons in Hreq.
  destruct Hreq as ((subj & Hsubj & _) & _ & (sc & Hsc & Hsct) & _).
  unfold getitem. rewrite Hsubj, Hsc. simpl.
  destruct (key_in subj VALID_SUBJECTS); simpl; [| eauto].
  destruct (py_int_truthy sc Hsct) as [(z & ->) | (msg & ->)]; simpl.
  - destruct (negb _); eauto.
  - eauto.
Qed.

(** With every required field filled in and a known subject, the record is
    accepted exactly when the score converts to an integer from 0 to 100. *)
Lemma validate_data_accepts_iff (data : gmap string pyval) (subject score : pyval) :
  Forall (λ f, ∃ v, data !! f = Some v ∧ truthy v = true) required_fields →
  data !! "subject" = Some subject →
  key_in subject VALID_SUBJECTS = true →
  data !! "score" = Some score →
  validate_data data = Ok None ↔ ∃ z, py_int score = Ok z ∧ 0 ≤ z ≤ 100.
Proof.
  intros Hreq Hsubj Hkey Hsc.
  apply check_required_None in Hreq.
  unfold validate_data, getitem. rewrite Hreq, Hsubj, Hsc. simpl. rewrite Hkey. simpl.
  destruct (py_int score) as [z|e] eqn:Hint.
  - destruct ((0 <=? z) && (z <=? 100)) eqn:Hr; simpl.
    + split; [| reflexivity]. intros _. exists z. split; [reflexivity | lia].
    + split; [discriminate |]. intros (z' & [= <-] & ?). lia.
  - split.
    + destruct (is_ValueError e); discriminate.
    + intros (z & [=] & _).
Qed.

(** The messages for a score that is out of range and for one that is no
    integer, and that they differ. *)
Lemma validate_data_score_messages (data : gmap string pyval) (subject score : pyval) :
  Forall (λ f, ∃ v, data !! f = Some v ∧ truthy v = true) required_fields →
  data !! "subject" = Some subject →
  key_in subject VALID_SUBJECTS = true →
  data !! "score" = Some score →
  (∀ z, py_int score = Ok z → ¬ (0 ≤ z ≤ 100) →
        validate_data data = Ok (Some msg_score_range)) ∧
  (∀ msg, py_int score = Raise (ValueError msg) →
        validate_data data = Ok (Some msg_score_integer)) ∧
  msg_score_range ≠ msg_score_integer.
Proof.
  intros Hreq Hsubj Hkey Hsc.
  apply check_required_None in Hreq.
  unfold validate_data, getitem. rewrite Hreq, Hsubj, Hsc. simpl. rewrite Hkey. simpl.
  split; [| split].
  - intros z -> Hz.
    destruct ((0 <=? z) && (z <=? 100)) eqn:Hr; simpl; [lia | reflexivity].
  - intros msg ->. reflexivity.
  - discriminate.
Qed.

Example validate_data_score_100 :
  validate_data (<["score" := PInt 100]> Samples.record) = Ok None.
Proof. vm_compute. reflexivity. Qed.

Example validate_data_score_101 :
  validate_data (<["score" := PInt 101]> Samples.record) = Ok (Some msg_score_range).
Proof. vm_compute. reflexivity. Qed.

Example validate_data_score_minus_1 :
  validate_data (<["score" := PInt (-1)]> Samples.record) = Ok (Some msg_score_range).
Proof. vm_compute. reflexivity. Qed.

Example validate_data_score_abc :
  validate_data (<["score" := PStr "abc"]> Samples.record) = Ok (Some msg_score_integer).
Proof. vm_compute. reflexivity. Qed.

Example validate_data_score_zero_as_text :
  validate_data (<["score" := PStr "0"]> Samples.record) = Ok None.
Proof. vm_compute. reflexivity. Qed.

Example validate_input_score_zero :
  Main.validate_input Samples.record_score_zero = Ok [].
Proof. vm_compute. reflexivity. Qed.

(** C1: the Record Validator accepts score 0. In [validate_data] it does not:
    the integer 0 is falsy, so the required-field loop reports the score as
    empty before the range test [0 <= score <= 100] is reached. *)
Theorem C1_validate_data_zero_score_reported_empty :
  validate_data Samples.record_score_zero = Ok (Some (msg_empty_field "score")) ∧
  msg_empty_field "score" = "scoreが空です".
Proof. split; vm_compute; reflexivity. Qed.

(** C2, as stated, fails on a record with an empty last name, an unknown
    subject and a score of 150: [validate_data] stops at the first failing
    check and returns its one message, and [validate_input], which has no
    subject rule, returns two entries. *)
Lemma C2_three_violations_not_three_errors :
  validate_data Samples.record_three_violations = Ok (Some (msg_empty_field "last_name")) ∧
  Main.validate_input Samples.record_three_violations
    = Ok [Main.msg_last_name; Main.msg_score].
Proof. split; vm_compute; reflexivity. Qed.

(** C2, amended: [validate_input] runs its three checks (last name filled in,
    first name filled in, score from 0 to 100) without stopping at a failure,
    and its list holds exactly one entry per failed check, in that order;
    [validate_data] returns no list: none or one message. *)
Theorem C2_validate_input_collects (values : gmap string pyval)
    (last_name first_name : pyval) (score : Z) :
  values !! "last_name" = Some last_name →
  values !! "first_name" = Some first_name →
  values !! "score" = Some (PInt score) →
  ∃ errors,
    Main.validate_input values = Ok errors ∧
    (Main.msg_last_name ∈ errors ↔ truthy last_name = false) ∧
    (Main.msg_first_name ∈ errors ↔ truthy first_name = false) ∧
    (Main.msg_score ∈ errors ↔ ¬ (0 ≤ score ≤ 100)) ∧
    errors `sublist_of` [Main.msg_last_name; Main.msg_first_name; Main.msg_score] ∧
    (∃ r : option string, validate_data values = Ok r).
Proof.
  intros Hl Hf Hs.
  unfold Main.validate_input, getitem. rewrite Hl, Hf, Hs. simpl.
  eexists. split; [reflexivity |].
  assert (Hne : Main.msg_last_name ≠ Main.msg_first_name ∧
                Main.msg_last_name ≠ Main.msg_score ∧
                Main.msg_first_name ≠ Main.msg_score) by (repeat split; discriminate).
  destruct Hne as (H12 & H13 & H23).
  assert (Hrange : (0 <=? score) && (score <=? 100) = true ↔ 0 ≤ score ≤ 100) by lia.
  destruct (truthy last_name), (truthy first_name),
    ((0 <=? score) && (score <=? 100)) eqn:Hr; simpl;
    (split; [| split; [| split; [| split; [| apply validate_data_returns]]]]);
    rewrite ?elem_of_cons, ?elem_of_nil;
    try (split; intros; try tauto; try lia; try congruence;
         repeat match goal with H : _ ∨ _ |- _ => destruct H end; try done;
         try (right; left; reflexivity); try (left; reflexivity);
         try (right; right; left; reflexivity)).
  all: try (by repeat first [apply sublist_skip | apply sublist_cons | apply sublist_nil ]).
Qed.

Lemma C2_validate_input_collects_witness :
  ∃ errors,
    Main.validate_input Samples.record_three_violations = Ok errors ∧
    (Main.msg_last_name ∈ errors ↔ truthy (PStr EmptyString) = false) ∧
    (Main.msg_first_name ∈ errors ↔ truthy (PStr "太郎") = false) ∧
    (Main.msg_score ∈ errors ↔ ¬ (0 ≤ 150 ≤ 100)) ∧
    errors `sublist_of` [Main.msg_last_name; Main.msg_first_name; Main.msg_score] ∧
    (∃ r : option string, validate_data Samples.record_three_violations = Ok r).
Proof.
  apply (C2_validate_input_collects Samples.record_three_violations
           (PStr EmptyString) (PStr "太郎") 150); reflexivity.
Defined.

End RecordValidators.

(** * Facts: the table validators *)

Section TableValidators.

Variable parse_numeric : string → option num.
Variable set_order : ∀ A : Type, list A → list A.

Lemma elem_of_set_difference {A} `{EqDecision A} (xs ys : list A) (x : A) :
  x ∈ set_difference xs ys ↔ x ∈ xs ∧ x ∉ ys.
Proof.
  unfold set_difference. rewrite elem_of_remove_dups, list_elem_of_filter. tauto.
Qed.

Lemma NoDup_set_difference {A} `{EqDecision A} (xs ys : list A) :
  NoDup (set_difference xs ys).
Proof. apply NoDup_remove_dups. Qed.

Lemma set_difference_nil {A} `{EqDecision A} (xs ys : list A) :
  set_difference xs ys = [] ↔ ∀ x, x ∈ xs → x ∈ ys.
Proof.
  split.
  - intros Hnil x Hx. destruct (decide (x ∈ ys)) as [|Hn]; [done |].
    assert (x ∈ set_difference xs ys) as Hin by (by apply elem_of_set_difference).
    rewrite Hnil in Hin. by apply elem_of_nil in Hin.
  - intros Hall. apply elem_of_nil_inv. intros x [Hx Hn]%elem_of_set_difference.
    by apply Hn, Hall.
Qed.

Lemma elem_of_columns (df : DataFrame) (c : string) :
  c ∈ columns df ↔ is_Some (df !! c).
Proof. unfold columns. by rewrite elem_of_elements, elem_of_dom. Qed.

Lemma not_elem_of_columns (df : DataFrame) (c : string) :
  c ∉ columns df ↔ df !! c = None.
Proof. rewrite elem_of_columns. by rewrite eq_None_not_Some. Qed.

Lemma all_present (df : DataFrame) (required : list string) :
  set_difference required (columns df) = [] ↔ ∀ x, x ∈ required → is_Some (df !! x).
Proof.
  rewrite set_difference_nil. by setoid_rewrite elem_of_columns.
Qed.

(** ** Coercion of the score column *)

Lemma to_numeric_from_Raise (position : nat) (col : list cell) (e : exn) :
  to_numeric_from parse_numeric position col = Raise e →
  ∃ s p, e = ValueError (msg_unable_to_parse s p).
Proof.
  revert position. induction col as [|c col IH]; intros position; simpl; [discriminate |].
  destruct c as [n| |s]; simpl.
  - destruct (to_numeric_from _ _ col) eqn:Hrest; simpl; [discriminate |].
    intros [= <-]. eauto.
  - destruct (to_numeric_from _ _ col) eqn:Hrest; simpl; [discriminate |].
    intros [= <-]. eauto.
  - destruct (parse_numeric s); simpl.
    + destruct (to_numeric_from _ _ col) eqn:Hrest; simpl; [discriminate |].
      intros [= <-]. eauto.
    + intros [= <-]. eauto.
Qed.

Lemma to_numeric_from_Ok (position : nat) (col : list cell) (ns : list num) (c : cell) :
  to_numeric_from parse_numeric position col = Ok ns → c ∈ col →
  ∃ p n, to_numeric_cell parse_numeric p c = Ok n ∧ n ∈ ns.
Proof.
  revert position ns. induction col as [|c' col IH]; intros position ns; simpl.
  - intros _ Hin. by apply elem_of_nil in Hin.
  - destruct (to_numeric_cell parse_numeric position c') as [n'|] eqn:Hc; simpl; [| discriminate].
    destruct (to_numeric_from _ _ col) as [ns'|] eqn:Hrest; simpl; [| discriminate].
    intros [= <-] [-> | Hin]%elem_of_cons.
    + exists position, n'. split; [done | left].
    + destruct (IH _ _ Hrest Hin) as (p & n & Hn & Hnin).
      exists p, n. split; [done | by right].
Qed.

(** The two spellings of the range test agree. *)
Lemma range_tests_agree (scores : list num) :
  negb (bool_decide (filter (λ n, negb (num_between 0 100 n)) scores = []))
  = negb (forallb (num_between 0 100) scores).
Proof.
  f_equal. induction scores as [|n scores IH]; [done |].
  destruct (num_between 0 100 n) eqn:Hn.
  - rewrite filter_cons_False by (simpl; rewrite Hn; simpl; tauto).
    simpl. by rewrite Hn.
  - rewrite filter_cons_True by (simpl; rewrite Hn; simpl; tauto).
    simpl. by rewrite Hn.
Qed.

(** ** The null check *)

Lemma null_check_clean (df : DataFrame) (cols : list string) :
  (∀ c, c ∈ cols → ∃ cells, df !! c = Some cells ∧ existsb isna cells = false) →
  null_check df cols = Ok None.
Proof.
  induction cols as [|c cols IH]; intros Hall; simpl; [done |].
  destruct (Hall c) as (cells & Hc & Hna); [left |].
  unfold getitem. rewrite Hc. simpl. rewrite Hna.
  apply IH. intros c' Hin. apply Hall. by right.
Qed.

Lemma null_check_first (df : DataFrame) (pre post : list string) (c : string)
    (cells : list cell) :
  (∀ p, p ∈ pre → ∃ cs, df !! p = Some cs ∧ existsb isna cs = false) →
  df !! c = Some cells → existsb isna cells = true →
  null_check df (pre ++ c :: post) = Ok (Some (msg_null c)).
Proof.
  induction pre as [|p pre IH]; intros Hpre Hc Hna; simpl.
  - unfold getitem. rewrite Hc. simpl. by rewrite Hna.
  - destruct (Hpre p) as (cs & Hp & Hpna); [left |].
    unfold getitem. rewrite Hp. simpl. rewrite Hpna.
    apply IH; [| done | done]. intros p' Hin. apply Hpre. by right.
Qed.

Lemma between_not_na (scores : list num) :
  forallb (num_between 0 100) scores = true →
  existsb isna (CNum <$> scores) = false.
Proof.
  induction scores as [|n scores IH]; [done |].
  cbn [forallb]. intros [Hn Hrest]%andb_true_iff.
  rewrite fmap_cons. cbn [existsb]. rewrite (IH Hrest).
  by destruct n.
Qed.

(** ** The two validators agree *)

Lemma valid_subjects_agree (x : cell) :
  x ∈ CStr <$> elements (dom VALID_SUBJECTS) ↔ x ∈ CStr <$> FileProcessor.valid_subjects.
Proof.
  rewrite !list_elem_of_fmap.
  assert (Hkeys : ∀ s, s ∈ elements (dom VALID_SUBJECTS) ↔ s ∈ FileProcessor.valid_subjects).
  { intros s. rewrite elem_of_elements.
    replace (dom VALID_SUBJECTS) with (list_to_set FileProcessor.valid_subjects : gset string)
      by (by vm_compute).
    by rewrite elem_of_list_to_set. }
  by setoid_rewrite Hkeys.
Qed.

Lemma subject_checks_agree (df : DataFrame) :
  subject_check set_order df (elements (dom VALID_SUBJECTS))
  = subject_check set_order df FileProcessor.valid_subjects.
Proof.
  unfold subject_check. destruct (getitem df "subject") as [subjects|]; simpl; [| done].
  unfold set_difference.
  rewrite (list_filter_iff _ (λ x, x ∉ CStr <$> FileProcessor.valid_subjects)); [done |].
  intros x. by rewrite valid_subjects_agree.
Qed.

Lemma utils_try_block_agrees (df : DataFrame) :
  (∀ x, x ∈ Utils.REQUIRED_COLUMNS → is_Some (df !! x)) →
  Utils.try_block parse_numeric set_order df
  = FileProcessor.try_block parse_numeric set_order df.
Proof.
  intros Hall. unfold Utils.try_block, FileProcessor.try_block.
  destruct (getitem df "score" ≫= to_numeric parse_numeric) as [scores|]; [| done].
  rewrite range_tests_agree.
  destruct (forallb (num_between 0 100) scores) eqn:Hrange; simpl; [| done].
  f_equal.
  unfold Utils.REQUIRED_COLUMNS. simpl.
  destruct (getitem _ "subject") as [c1|]; simpl; [| done].
  destruct (existsb isna c1); [done |].
  destruct (getitem _ "test_name") as [c2|]; simpl; [| done].
  destruct (existsb isna c2); [done |].
  assert (getitem (<["score" := CNum <$> scores]> df) "score" = Ok (CNum <$> scores)) as ->
    by (unfold getitem; by rewrite lookup_insert_eq).
  simpl.
  rewrite (between_not_na _ Hrange).
  destruct (getitem _ "sc_year") as [c3|]; simpl; [| done].
  destruct (existsb isna c3); [done |].
  destruct (getitem _ "last_name") as [c4|]; simpl; [| done].
  destruct (existsb isna c4); [done |].
  destruct (getitem _ "first_name") as [c5|]; simpl; [| done].
  destruct (existsb isna c5); [done |].
  apply subject_checks_agree.
Qed.

(** [validate_dataframe] of [utils/__init__.py] is [validate_dataframe] of
    [utils/file_processor.py] called with the six required columns. *)
Lemma utils_validate_dataframe_agrees (df : DataFrame) :
  Utils.validate_dataframe parse_numeric set_order df
  = FileProcessor.validate_dataframe parse_numeric set_order df Utils.REQUIRED_COLUMNS.
Proof.
  unfold Utils.validate_dataframe, FileProcessor.validate_dataframe.
  destruct (set_difference Utils.REQUIRED_COLUMNS (columns df)) eqn:Hmissing; [| done].
  rewrite all_present in Hmissing. by rewrite utils_try_block_agrees.
Qed.

(** ** The column-set check *)

Lemma validate_dataframe_missing (df : DataFrame) (required : list string)
    (m : string) (ms : list string) :
  set_difference required (columns df) = m :: ms →
  FileProcessor.validate_dataframe parse_numeric set_order df required
  = (Some (msg_missing_columns set_order (m :: ms)), df).
Proof. intros H. unfold FileProcessor.validate_dataframe. by rewrite H. Qed.

Lemma validate_dataframe_present (df : DataFrame) (required : list string) :
  (∀ x, x ∈ required → is_Some (df !! x)) →
  FileProcessor.validate_dataframe parse_numeric set_order df required
  = (outcome (FileProcessor.try_block parse_numeric set_order df).1,
     (FileProcessor.try_block parse_numeric set_order df).2).
Proof.
  intros H%all_present. unfold FileProcessor.validate_dataframe. rewrite H.
  by destruct (FileProcessor.try_block _ _ _).
Qed.

Hypothesis set_order_perm : ∀ (A : Type) (l : list A), set_order A l ≡ₚ l.

(** C3: when a required column is absent, the Table Validator returns the
    missing-columns message, which lists exactly the required columns that
    are absent, each once (a table missing only one column lists exactly that
    one); nothing else is done, so the table is left as it was and the result
    is the same for every table with the same columns, whatever the cells
    hold. Both validators do so. *)
Theorem C3_missing_columns_short_circuit (df : DataFrame) (required : list string)
    (absent : string) :
  absent ∈ required → df !! absent = None →
  ∃ listed : list string,
    NoDup listed ∧
    (∀ c, c ∈ listed ↔ c ∈ required ∧ df !! c = None) ∧
    FileProcessor.validate_dataframe parse_numeric set_order df required
      = (Some ("必須カラムが不足しています: " +:+ String.concat ", " listed), df) ∧
    ((∀ c, c ∈ required ∧ df !! c = None ↔ c = absent) → listed = [absent]) ∧
    (∀ df' : DataFrame, dom df' = dom df →
       FileProcessor.validate_dataframe parse_numeric set_order df' required
       = (Some ("必須カラムが不足しています: " +:+ String.concat ", " listed), df')) ∧
    (required = Utils.REQUIRED_COLUMNS →
       Utils.validate_dataframe parse_numeric set_order df
       = (Some ("必須カラムが不足しています: " +:+ String.concat ", " listed), df)).
Proof.
  intros Hreq Habsent.
  destruct (set_difference required (columns df)) as [|m ms] eqn:Hmissing.
  { rewrite all_present in Hmissing. destruct (Hmissing _ Hreq) as [? ?]. congruence. }
  pose proof (set_order_perm _ (m :: ms)) as Hperm.
  assert (Hlisted : ∀ c, c ∈ set_order string (m :: ms) ↔ c ∈ required ∧ df !! c = None).
  { intros c. rewrite Hperm, <- Hmissing, elem_of_set_difference.
    by rewrite not_elem_of_columns. }
  exists (set_order _ (m :: ms)). split; [| split; [| split; [| split; [| split]]]].
  - rewrite Hperm, <- Hmissing. apply NoDup_set_difference.
  - exact Hlisted.
  - by apply validate_dataframe_missing.
  - intros Honly. apply Permutation_singleton_r.
    apply NoDup_Permutation.
    + rewrite Hperm, <- Hmissing. apply NoDup_set_difference.
    + apply NoDup_singleton.
    + intros c. rewrite Hlisted, Honly. by rewrite list_elem_of_singleton.
  - intros df' Hdom.
    apply validate_dataframe_missing. unfold columns. by rewrite Hdom.
  - intros ->. rewrite utils_validate_dataframe_agrees.
    by apply validate_dataframe_missing.
Qed.

(** ** The score check *)

(** C4: in a table that has every required column, a score that is out of
    range or cannot be coerced makes the Table Validator reject the table as
    a whole with one message: the range message, or the message that quotes
    the coercion error. Both validators do so. *)
Theorem C4_bad_score_rejects_table (df : DataFrame) (required : list string)
    (col : list cell) (c : cell) :
  (∀ x, x ∈ required → is_Some (df !! x)) →
  df !! "score" = Some col →
  c ∈ col →
  (∀ position n, to_numeric_cell parse_numeric position c = Ok n →
                 num_between 0 100 n = false) →
  ((FileProcessor.validate_dataframe parse_numeric set_order df required).1
     = Some "点数は0から100の間である必要があります"
   ∨ ∃ s position,
       (FileProcessor.validate_dataframe parse_numeric set_order df required).1
       = Some ("データの検証中にエラーが発生しました: " +:+ msg_unable_to_parse s position)) ∧
  (required = Utils.REQUIRED_COLUMNS →
     Utils.validate_dataframe parse_numeric set_order df
     = FileProcessor.validate_dataframe parse_numeric set_order df required).
Proof.
  intros Hall Hscore Hin Hbad. split; [| by intros ->; apply utils_validate_dataframe_agrees].
  rewrite (validate_dataframe_present _ _ Hall).
  unfold FileProcessor.try_block, getitem. rewrite Hscore. simpl.
  unfold to_numeric.
  destruct (to_numeric_from parse_numeric 0 col) as [scores|e] eqn:Hnum; simpl.
  - left.
    destruct (to_numeric_from_Ok _ _ _ _ Hnum Hin) as (p & n & Hn & Hnin).
    assert (forallb (num_between 0 100) scores = false) as ->; [| done].
    apply not_true_is_false. intros Hall'.
    apply Is_true_true, forallb_True in Hall'.
    rewrite Forall_forall in Hall'. specialize (Hall' _ Hnin).
    rewrite (Hbad _ _ Hn) in Hall'. done.
  - right. destruct (to_numeric_from_Raise _ _ _ Hnum) as (s & p & ->).
    by exists s, p.
Qed.

(** ** The null check *)

Lemma text_column_not_score (x : string) :
  x ∈ ["subject"; "test_name"; "sc_year"; "last_name"; "first_name"] → x ≠ "score".
Proof.
  rewrite !elem_of_cons, elem_of_nil.
  intros [-> | [-> | [-> | [-> | [-> | []]]]]]; discriminate.
Qed.

Lemma text_column_required (x : string) :
  x ∈ ["subject"; "test_name"; "sc_year"; "last_name"; "first_name"] →
  x ∈ Utils.REQUIRED_COLUMNS.
Proof.
  unfold Utils.REQUIRED_COLUMNS. rewrite !elem_of_cons, elem_of_nil. tauto.
Qed.

Lemma try_block_in_range (df : DataFrame) (col : list cell) (scores : list num) :
  df !! "score" = Some col →
  to_numeric parse_numeric col = Ok scores →
  forallb (num_between 0 100) scores = true →
  FileProcessor.try_block parse_numeric set_order df
  = (r ← null_check (<["score" := CNum <$> scores]> df)
           ["subject"; "test_name"; "sc_year"; "last_name"; "first_name"];
     match r with
     | Some msg => Ok (Some msg)
     | None => subject_check set_order (<["score" := CNum <$> scores]> df)
                 FileProcessor.valid_subjects
     end, <["score" := CNum <$> scores]> df).
Proof.
  intros Hscore Hnum Hrange.
  unfold FileProcessor.try_block, getitem. rewrite Hscore.
  cbn [mbind result_bind]. rewrite Hnum, Hrange. reflexivity.
Qed.

(** C5, amended: once the column-set and score checks have passed, the Table
    Validator fails, naming the column, when a cell of one of the five text
    columns is missing (None or NaN), the first such column in the order
    subject, test_name, sc_year, last_name, first_name; when no such cell is
    missing the null check passes and the outcome is that of the subject
    check. A cell that holds the empty string is not missing. Both validators
    do so. *)
Theorem C5_null_check_finds_missing_cells (df : DataFrame) (col : list cell)
    (scores : list num) :
  (∀ x, x ∈ Utils.REQUIRED_COLUMNS → is_Some (df !! x)) →
  df !! "score" = Some col →
  to_numeric parse_numeric col = Ok scores →
  forallb (num_between 0 100) scores = true →
  (∀ pre c post cells,
     ["subject"; "test_name"; "sc_year"; "last_name"; "first_name"] = pre ++ c :: post →
     (∀ p cs, p ∈ pre → df !! p = Some cs → existsb isna cs = false) →
     df !! c = Some cells → existsb isna cells = true →
     (FileProcessor.validate_dataframe parse_numeric set_order df Utils.REQUIRED_COLUMNS).1
       = Some (c +:+ "に空の値が含まれています")) ∧
  ((∀ c cs, c ∈ ["subject"; "test_name"; "sc_year"; "last_name"; "first_name"] →
            df !! c = Some cs → existsb isna cs = false) →
     (FileProcessor.validate_dataframe parse_numeric set_order df Utils.REQUIRED_COLUMNS).1
       = outcome (subject_check set_order df FileProcessor.valid_subjects)) ∧
  isna (CStr EmptyString) = false ∧
  Utils.validate_dataframe parse_numeric set_order df
    = FileProcessor.validate_dataframe parse_numeric set_order df Utils.REQUIRED_COLUMNS.
Proof.
  intros Hall Hscore Hnum Hrange.
  split; [| split; [| split; [done | apply utils_validate_dataframe_agrees]]].
  - intros pre c post cells Hsplit Hpre Hc Hna.
    rewrite (validate_dataframe_present _ _ Hall).
    rewrite (try_block_in_range _ _ _ Hscore Hnum Hrange). cbn [fst].
    rewrite Hsplit.
    assert (Htext : ∀ x, x ∈ pre ++ c :: post →
              x ∈ ["subject"; "test_name"; "sc_year"; "last_name"; "first_name"])
      by (intros x Hx; by rewrite Hsplit).
    assert (Hc_text : c ∈ pre ++ c :: post) by (apply elem_of_app; right; left).
    rewrite (null_check_first _ pre post c cells); [done | | | done].
    + intros p Hp.
      assert (Hp' : p ∈ pre ++ c :: post) by (apply elem_of_app; by left).
      destruct (Hall p) as [cs Hcs]; [by apply text_column_required, Htext |].
      exists cs.
      rewrite lookup_insert_ne by (apply not_eq_sym, text_column_not_score, Htext, Hp').
      split; [done | by eapply Hpre].
    + by rewrite lookup_insert_ne
        by (apply not_eq_sym, text_column_not_score, Htext, Hc_text).
  - intros Hclean.
    rewrite (validate_dataframe_present _ _ Hall).
    rewrite (try_block_in_range _ _ _ Hscore Hnum Hrange). cbn [fst].
    rewrite null_check_clean.
    + simpl. unfold subject_check, getitem.
      by rewrite lookup_insert_ne by done.
    + intros c Hc.
      destruct (Hall c) as [cs Hcs]; [by apply text_column_required |].
      exists cs.
      rewrite lookup_insert_ne by (by apply not_eq_sym, text_column_not_score).
      split; [done | by eapply Hclean].
Qed.

(** ** The write to the caller's table *)

Lemma try_block_writes (df : DataFrame) (col : list cell) (scores : list num) :
  df !! "score" = Some col →
  to_numeric parse_numeric col = Ok scores →
  (FileProcessor.try_block parse_numeric set_order df).2
  = <["score" := CNum <$> scores]> df.
Proof.
  intros Hscore Hnum.
  unfold FileProcessor.try_block, getitem. rewrite Hscore.
  cbn [mbind result_bind]. rewrite Hnum. by destruct (negb _).
Qed.

Lemma try_block_keeps (df : DataFrame) :
  (df !! "score" = None ∨
   ∃ col e, df !! "score" = Some col ∧ to_numeric parse_numeric col = Raise e) →
  (FileProcessor.try_block parse_numeric set_order df).2 = df.
Proof.
  unfold FileProcessor.try_block, getitem.
  intros [-> | (col & e & -> & Hnum)]; [done |].
  cbn [mbind result_bind]. by rewrite Hnum.
Qed.

Lemma validate_dataframe_table (df : DataFrame) (required : list string) :
  (FileProcessor.validate_dataframe parse_numeric set_order df required).2 = df ∨
  ∃ col scores,
    df !! "score" = Some col ∧ to_numeric parse_numeric col = Ok scores ∧
    (FileProcessor.validate_dataframe parse_numeric set_order df required).2
    = <["score" := CNum <$> scores]> df.
Proof.
  destruct (set_difference required (columns df)) as [|m ms] eqn:Hmissing.
  - rewrite all_present in Hmissing.
    rewrite (validate_dataframe_present _ _ Hmissing). cbn [snd].
    destruct (df !! "score") as [col|] eqn:Hscore.
    + destruct (to_numeric parse_numeric col) as [scores|e] eqn:Hnum.
      * right. exists col, scores. by rewrite (try_block_writes _ _ _ Hscore Hnum).
      * left. apply try_block_keeps. right. by exists col, e.
    + left. apply try_block_keeps. by left.
  - left. by rewrite (validate_dataframe_missing _ _ _ _ Hmissing).
Qed.

(** C10: the Table Validator writes into the table it is given. Once the
    column-set check has passed and the score column has been coerced, the
    coerced column replaces the score column, before the range, null and
    subject checks and whatever they find; no other column changes, and the
    table is untouched when the column-set check fails or the coercion
    raises. A table whose only score is missing comes back rejected and
    changed. Both validators do so. *)
Theorem C10_validator_writes_score_column (df : DataFrame) (required : list string) :
  let after := (FileProcessor.validate_dataframe parse_numeric set_order df required).2 in
  (∀ c, c ≠ "score" → after !! c = df !! c) ∧
  (∀ col scores,
     (∀ x, x ∈ required → is_Some (df !! x)) →
     df !! "score" = Some col → to_numeric parse_numeric col = Ok scores →
     after !! "score" = Some (CNum <$> scores)) ∧
  (∀ x, x ∈ required → df !! x = None → after = df) ∧
  (∀ col e, df !! "score" = Some col → to_numeric parse_numeric col = Raise e →
     after = df) ∧
  Utils.validate_dataframe parse_numeric set_order df
    = FileProcessor.validate_dataframe parse_numeric set_order df Utils.REQUIRED_COLUMNS ∧
  (let df0 : DataFrame := <["score" := [CNone]]> Samples.table in
   (FileProcessor.validate_dataframe parse_numeric set_order df0 Utils.REQUIRED_COLUMNS).1
     = Some "点数は0から100の間である必要があります" ∧
   (FileProcessor.validate_dataframe parse_numeric set_order df0 Utils.REQUIRED_COLUMNS).2
     !! "score" = Some [CNum NaN] ∧
   df0 !! "score" = Some [CNone]).
Proof.
  intros after. subst after.
  split; [| split; [| split; [| split; [| split]]]].
  - intros c Hc.
    destruct (validate_dataframe_table df required) as [-> | (col & scores & _ & _ & ->)];
      [done | by rewrite lookup_insert_ne].
  - intros col scores Hall Hscore Hnum.
    rewrite (validate_dataframe_present _ _ Hall). cbn [snd].
    rewrite (try_block_writes _ _ _ Hscore Hnum). apply lookup_insert_eq.
  - intros x Hx Hnone.
    destruct (set_difference required (columns df)) as [|m ms] eqn:Hmissing.
    + rewrite all_present in Hmissing. destruct (Hmissing _ Hx) as [? ?]. congruence.
    + by rewrite (validate_dataframe_missing _ _ _ _ Hmissing).
  - intros col e Hscore Hnum.
    destruct (validate_dataframe_table df required)
      as [-> | (col' & scores' & Hscore' & Hnum' & _)]; [done |].
    rewrite Hscore in Hscore'. injection Hscore' as <-. congruence.
  - apply utils_validate_dataframe_agrees.
  - by vm_compute.
Qed.

End TableValidators.

(** * Facts: [str.replace] *)

Section ReplaceFacts.

Context {A : Type} `{EqDecision A}.

Local Open Scope nat_scope.

Implicit Types (p s t u old new : list A).

Lemma starts_with_nil_r p : p ≠ [] → starts_with p [] = false.
Proof. by destruct p. Qed.

Lemma starts_with_app p t : starts_with p (p ++ t) = true.
Proof.
  induction p as [|a p IH]; simpl; [by destruct t |].
  by rewrite bool_decide_true, IH.
Qed.

Lemma starts_with_inv p s : starts_with p s = true → s = p ++ drop (length p) s.
Proof.
  revert s. induction p as [|a p IH]; intros [|b s]; simpl; try done.
  intros [Hab Hrest]%andb_true_iff. apply bool_decide_eq_true in Hab as ->.
  f_equal. by apply IH.
Qed.

(** Once [u] is as long as [p], what follows [u] does not matter. *)
Lemma starts_with_long p u t t' :
  length p ≤ length u → starts_with p (u ++ t) = starts_with p (u ++ t').
Proof.
  revert u. induction p as [|a p IH]; intros u Hlen.
  - by destruct (u ++ t), (u ++ t').
  - destruct u as [|b u]; simpl in Hlen; [lia |].
    simpl. f_equal. apply IH. lia.
Qed.

Lemma starts_with_drop p u x :
  length u < length p → starts_with p (u ++ x) = true →
  starts_with (drop (length u) p) x = true.
Proof.
  revert p. induction u as [|b u IH]; intros [|a p]; simpl; try done; try lia.
  intros Hlen [_ Hrest]%andb_true_iff. apply IH; [lia | done].
Qed.

Lemma clash_starts_with p x t : clash p x = true → starts_with p (x ++ t) = false.
Proof.
  revert x. induction p as [|a p IH]; intros [|b x]; simpl; try done.
  destruct (bool_decide (a = b)); simpl; [apply IH | done].
Qed.

Lemma contains_nil_r p : p ≠ [] → contains p [] = false.
Proof. by destruct p. Qed.

Lemma contains_cons p c s :
  contains p (c :: s) = starts_with p (c :: s) || contains p s.
Proof. done. Qed.

Lemma contains_app_r p a s : contains p s = true → contains p (a ++ s) = true.
Proof.
  intros Hs. induction a as [|c a IH]; [done |].
  rewrite <- app_comm_cons, contains_cons, IH. apply orb_true_r.
Qed.

Lemma contains_app_l p s b : contains p s = true → contains p (s ++ b) = true.
Proof.
  induction s as [|c s IH].
  - destruct p; [by destruct b | done].
  - rewrite <- app_comm_cons, !contains_cons.
    intros [Hhere | Hlater]%orb_true_iff.
    + apply starts_with_inv in Hhere.
      rewrite app_comm_cons, Hhere, <- app_assoc, starts_with_app. done.
    + rewrite (IH Hlater). apply orb_true_r.
Qed.

Lemma contains_starts_with p s : starts_with p s = true → contains p s = true.
Proof. intros H'. destruct s; simpl; by rewrite H'. Qed.

(** An occurrence in [a ++ b] starts inside [a] or lies in [b]. *)
Lemma contains_app_inv p a b :
  contains p (a ++ b) = true →
  (∃ k, k < length a ∧ starts_with p (drop k a ++ b) = true) ∨ contains p b = true.
Proof.
  induction a as [|c a IH]; [by right |].
  rewrite <- app_comm_cons, contains_cons.
  intros [Hhere | Hlater]%orb_true_iff.
  - left. exists 0. simpl. split; [lia | done].
  - destruct (IH Hlater) as [(k & Hk & Hstart) | Hb]; [| by right].
    left. exists (S k). simpl. split; [lia | done].
Qed.

(** ** The scan *)

Lemma replace_go_skip old new k s :
  replace_go old new k s = replace_go old new 0 (drop k s).
Proof.
  revert k. induction s as [|c s IH]; intros [|k]; try done.
  simpl. apply IH.
Qed.

Lemma replace_go_match old new s :
  old ≠ [] → starts_with old s = true →
  replace_go old new 0 s = new ++ replace_go old new 0 (drop (length old) s).
Proof.
  intros Hold Hstart. destruct s as [|c s].
  - by rewrite starts_with_nil_r in Hstart.
  - simpl replace_go. rewrite Hstart, replace_go_skip.
    destruct old as [|a old]; [done |]. done.
Qed.

Lemma replace_go_step old new c s :
  starts_with old (c :: s) = false →
  replace_go old new 0 (c :: s) = c :: replace_go old new 0 s.
Proof. intros Hstart. simpl replace_go. by rewrite Hstart. Qed.

(** Where [old] occurred, [new] stands afterwards. *)
Lemma replace_go_puts_new old new s :
  old ≠ [] → contains old s = true → contains new (replace_go old new 0 s) = true.
Proof.
  intros Hold. induction s as [|c s IH].
  - by rewrite contains_nil_r.
  - rewrite contains_cons. destruct (starts_with old (c :: s)) eqn:Hstart.
    + intros _. rewrite (replace_go_match _ _ _ Hold Hstart).
      apply contains_app_l, contains_starts_with.
      rewrite <- (app_nil_r new) at 2. apply starts_with_app.
    + simpl orb. intros Hlater. rewrite (replace_go_step _ _ _ _ Hstart).
      rewrite contains_cons, (IH Hlater). apply orb_true_r.
Qed.

Section Unmistakable.

Variables old new : list A.
Hypothesis old_not_nil : old ≠ [].
Hypothesis old_new : unmistakable old new = true.

Lemma clash_end_of_new k t :
  k < length new → starts_with old (drop k new ++ t) = false.
Proof.
  intros Hk. apply clash_starts_with.
  apply andb_true_iff in old_new as [H1 _].
  rewrite forallb_forall in H1. apply H1, in_seq. lia.
Qed.

Lemma clash_end_of_old k t :
  0 < k < length old → starts_with (drop k old) (new ++ t) = false.
Proof.
  intros Hk. apply clash_starts_with.
  apply andb_true_iff in old_new as [_ H2].
  rewrite forallb_forall in H2. apply H2, in_seq. lia.
Qed.

(** If [old] begins [u] followed by the rewritten text, it began [u] followed
    by the text. *)
Lemma starts_with_replace_go t u :
  starts_with old (u ++ replace_go old new 0 t) = true →
  starts_with old (u ++ t) = true.
Proof.
  remember (length t) as n eqn:Hn. revert t u Hn.
  induction n as [n IH] using lt_wf_ind. intros t u Hn.
  destruct (decide (length old ≤ length u)) as [Hlong | Hshort].
  { by rewrite (starts_with_long old u _ t). }
  destruct t as [|c t]; [done |].
  destruct (starts_with old (c :: t)) eqn:Hstart.
  - rewrite (replace_go_match _ _ _ old_not_nil Hstart).
    destruct u as [|b u]; [done |].
    intros Hu. exfalso.
    apply starts_with_drop in Hu; [| lia].
    rewrite clash_end_of_old in Hu; [done |]. simpl in *. lia.
  - rewrite (replace_go_step _ _ _ _ Hstart).
    rewrite !(cons_middle c), !app_assoc.
    apply (IH (length t)); [simpl in Hn; lia | done].
Qed.

(** After the replacement no [old] is left. *)
Lemma replace_go_removes_old t : contains old (replace_go old new 0 t) = false.
Proof.
  remember (length t) as n eqn:Hn. revert t Hn.
  induction n as [n IH] using lt_wf_ind. intros t Hn.
  destruct t as [|c t]; [by apply contains_nil_r |].
  destruct (starts_with old (c :: t)) eqn:Hstart.
  - rewrite (replace_go_match _ _ _ old_not_nil Hstart).
    apply not_true_is_false. intros [(k & Hk & Hat) | Hrest]%contains_app_inv.
    + by rewrite clash_end_of_new in Hat.
    + rewrite (IH (length (drop (length old) (c :: t)))) in Hrest; [done | | done].
      rewrite length_drop. destruct old; [done |]. simpl in *. lia.
  - rewrite (replace_go_step _ _ _ _ Hstart), contains_cons.
    rewrite (IH (length t)); [| simpl in Hn; lia | done].
    rewrite orb_false_r. apply not_true_is_false. intros Hat.
    apply (starts_with_replace_go t [c]) in Hat. simpl in Hat. congruence.
Qed.

End Unmistakable.

End ReplaceFacts.

(** ** On strings *)

Lemma chars_text (l : list ascii) : chars (text l) = l.
Proof. apply list_ascii_of_string_of_list_ascii. Qed.

Lemma chars_not_nil (s : string) : s ≠ EmptyString → chars s ≠ [].
Proof. by destruct s. Qed.

Lemma str_replace_removes_old (old new s : string) :
  old ≠ EmptyString → unmistakable (chars old) (chars new) = true →
  str_contains old (str_replace old new s) = false.
Proof.
  intros Hold Hsafe. unfold str_contains, str_replace. rewrite chars_text.
  pose proof (chars_not_nil _ Hold) as Hne.
  unfold replace. destruct (chars old) eqn:Hchars; [done |].
  by apply replace_go_removes_old.
Qed.

Lemma str_replace_puts_new (old new s : string) :
  old ≠ EmptyString → str_contains old s = true →
  str_contains new (str_replace old new s) = true.
Proof.
  intros Hold Hin. unfold str_contains, str_replace in *. rewrite chars_text.
  pose proof (chars_not_nil _ Hold) as Hne.
  unfold replace. destruct (chars old) eqn:Hchars; [done |].
  by apply replace_go_puts_new.
Qed.

(** * Facts: the encoding detectors *)

Section EncodingDetectors.

Variable chardet_detect : string → option string.

Lemma substring_full (s : string) : String.substring 0 (String.length s) s = s.
Proof. induction s as [|c s IH]; simpl; [done | by rewrite IH]. Qed.

(** Rewound, a stream is read from its first byte to its last. *)
Lemma read_rewound (f : BytesIO) :
  read (seek 0 f)
  = (getvalue f, {| getvalue := getvalue f; tell := String.length (getvalue f) |}).
Proof.
  unfold read, seek. simpl. by rewrite Nat.sub_0_r, substring_full.
Qed.

(** With no guess, both detectors raise; the stream of the first is left where
    the read ended, the second rewinds it. *)
Lemma detect_encoding_no_guess (f : BytesIO) :
  chardet_detect (getvalue f) = None →
  FileProcessor.detect_encoding chardet_detect f
    = (Raise (AttributeError "'NoneType' object has no attribute 'lower'"),
       {| getvalue := getvalue f; tell := String.length (getvalue f) |}) ∧
  Utils.detect_encoding chardet_detect (inl f)
    = (Raise (FileProcessError
               "エンコーディングの検出に失敗しました: 'NoneType' object has no attribute 'lower'"),
       inl (seek 0 f)).
Proof.
  intros Hnone. split.
  - unfold FileProcessor.detect_encoding. rewrite read_rewound. by rewrite Hnone.
  - unfold Utils.detect_encoding, Utils.detect_encoding_try.
    rewrite read_rewound. by rewrite Hnone.
Qed.

(** C6, as stated, fails for the detector of [utils/file_processor.py] on a
    buffer the guesser labels SHIFT_JIS: the label comes back as guessed, in
    upper case, which is none of the three lowercase names. *)
Lemma C6_label_returned_as_guessed :
  (FileProcessor.detect_encoding Samples.guess_shift_jis Samples.upload).1 = Ok "SHIFT_JIS" ∧
  bool_decide ("SHIFT_JIS" ∈ ["utf-8"; "shift-jis"; "shift_jis"]) = false.
Proof. split; vm_compute; reflexivity. Qed.

(** C6, amended: whenever the guesser yields a label, the detector of
    [utils/__init__.py] returns the lowercased label if that is one of utf-8,
    shift-jis and shift_jis and utf-8 otherwise, so one of the three; the
    detector of [utils/file_processor.py] lowercases the label for the test
    only and returns it as guessed when the test succeeds, utf-8 otherwise,
    so its result is one of the three once lowercased. Both leave the stream
    rewound. *)
Theorem C6_detect_encoding_allow_list (f : BytesIO) (label : string) :
  chardet_detect (getvalue f) = Some label →
  ∃ encoding encoding',
    Utils.detect_encoding chardet_detect (inl f) = (Ok encoding, inl (seek 0 f)) ∧
    Utils.detect_encoding chardet_detect (inr (getvalue f)) = (Ok encoding, inr (getvalue f)) ∧
    FileProcessor.detect_encoding chardet_detect f = (Ok encoding', seek 0 f) ∧
    encoding ∈ ["utf-8"; "shift-jis"; "shift_jis"] ∧
    lower encoding' = encoding ∧
    (lower label ∈ ["utf-8"; "shift-jis"; "shift_jis"] →
       encoding = lower label ∧ encoding' = label) ∧
    (lower label ∉ ["utf-8"; "shift-jis"; "shift_jis"] →
       encoding = "utf-8" ∧ encoding' = "utf-8").
Proof.
  intros Hlabel.
  unfold Utils.detect_encoding, Utils.detect_encoding_try, FileProcessor.detect_encoding.
  rewrite read_rewound, Hlabel. unfold Utils.ALLOWED_ENCODINGS.
  assert (Hsame : lower label ∈ ({[ "utf-8"; "shift-jis"; "shift_jis" ]} : gset string)
                  ↔ lower label ∈ ["utf-8"; "shift-jis"; "shift_jis"]).
  { rewrite !elem_of_union, !elem_of_singleton, !elem_of_cons, elem_of_nil. tauto. }
  destruct (decide (lower label ∈ ["utf-8"; "shift-jis"; "shift_jis"])) as [Hin | Hout].
  - rewrite (bool_decide_true _ Hin), (bool_decide_true _ (proj2 Hsame Hin)). simpl.
    exists (lower label), label. repeat split; try done.
  - rewrite (bool_decide_false _ Hout).
    rewrite (bool_decide_false (lower label ∈ _)) by (by rewrite Hsame). simpl.
    exists "utf-8", "utf-8". repeat split; try done.
    rewrite !elem_of_cons. by left.
Qed.

End EncodingDetectors.

Lemma C6_detect_encoding_allow_list_witness :
  Samples.guess_shift_jis (getvalue Samples.upload) = Some "SHIFT_JIS" ∧
  ∃ encoding encoding',
    Utils.detect_encoding Samples.guess_shift_jis (inl Samples.upload)
      = (Ok encoding, inl (seek 0 Samples.upload)) ∧
    Utils.detect_encoding Samples.guess_shift_jis (inr (getvalue Samples.upload))
      = (Ok encoding, inr (getvalue Samples.upload)) ∧
    FileProcessor.detect_encoding Samples.guess_shift_jis Samples.upload
      = (Ok encoding', seek 0 Samples.upload) ∧
    encoding ∈ ["utf-8"; "shift-jis"; "shift_jis"] ∧
    lower encoding' = encoding ∧
    (lower "SHIFT_JIS" ∈ ["utf-8"; "shift-jis"; "shift_jis"] →
       encoding = lower "SHIFT_JIS" ∧ encoding' = "SHIFT_JIS") ∧
    (lower "SHIFT_JIS" ∉ ["utf-8"; "shift-jis"; "shift_jis"] →
       encoding = "utf-8" ∧ encoding' = "utf-8").
Proof.
  split; [reflexivity |].
  apply (C6_detect_encoding_allow_list Samples.guess_shift_jis Samples.upload "SHIFT_JIS").
  reflexivity.
Defined.

(** ** The table validators on the sample tables *)

Lemma insertion_order_perm (A : Type) (l : list A) : Samples.insertion_order A l ≡ₚ l.
Proof. reflexivity. Qed.

Lemma sample_columns_present (df : DataFrame) :
  dom df = dom Samples.table →
  ∀ x, x ∈ Utils.REQUIRED_COLUMNS → is_Some (df !! x).
Proof.
  intros Hdom x Hx. apply elem_of_dom. rewrite Hdom. apply elem_of_dom.
  unfold Utils.REQUIRED_COLUMNS in Hx. rewrite !elem_of_cons, elem_of_nil in Hx.
  destruct Hx as [-> | [-> | [-> | [-> | [-> | [-> | []]]]]]]; by eexists.
Qed.

Lemma C3_missing_columns_short_circuit_witness :
  "score" ∈ Utils.REQUIRED_COLUMNS ∧
  Samples.table_without_score !! "score" = None ∧
  FileProcessor.validate_dataframe Samples.parse_integer Samples.insertion_order
    Samples.table_without_score Utils.REQUIRED_COLUMNS
  = (Some "必須カラムが不足しています: score", Samples.table_without_score).
Proof.
  assert (Hreq : "score" ∈ Utils.REQUIRED_COLUMNS)
    by (unfold Utils.REQUIRED_COLUMNS; rewrite !elem_of_cons; tauto).
  assert (Habsent : Samples.table_without_score !! "score" = None) by reflexivity.
  split; [exact Hreq | split; [exact Habsent |]].
  destruct (C3_missing_columns_short_circuit Samples.parse_integer Samples.insertion_order
              insertion_order_perm Samples.table_without_score Utils.REQUIRED_COLUMNS
              "score" Hreq Habsent) as (listed & _ & _ & Hresult & Honly & _).
  rewrite Hresult, Honly; [reflexivity |].
  intros c. split.
  - intros [Hc Hnone]. unfold Utils.REQUIRED_COLUMNS in Hc.
    rewrite !elem_of_cons, elem_of_nil in Hc.
    destruct Hc as [-> | [-> | [-> | [-> | [-> | [-> | []]]]]]];
      first [reflexivity | discriminate Hnone].
  - intros ->. split; [exact Hreq | exact Habsent].
Defined.

Lemma C4_bad_score_rejects_table_witness :
  Samples.table_score_150 !! "score"
    = Some [CNum (NInt 95); CNum (NInt 150); CNum (NInt 92)] ∧
  ((FileProcessor.validate_dataframe Samples.parse_integer Samples.insertion_order
      Samples.table_score_150 Utils.REQUIRED_COLUMNS).1
     = Some "点数は0から100の間である必要があります"
   ∨ ∃ s position,
       (FileProcessor.validate_dataframe Samples.parse_integer Samples.insertion_order
          Samples.table_score_150 Utils.REQUIRED_COLUMNS).1
       = Some ("データの検証中にエラーが発生しました: " +:+ msg_unable_to_parse s position)) ∧
  (Utils.REQUIRED_COLUMNS = Utils.REQUIRED_COLUMNS →
     Utils.validate_dataframe Samples.parse_integer Samples.insertion_order
       Samples.table_score_150
     = FileProcessor.validate_dataframe Samples.parse_integer Samples.insertion_order
         Samples.table_score_150 Utils.REQUIRED_COLUMNS).
Proof.
  split; [reflexivity |].
  apply (C4_bad_score_rejects_table Samples.parse_integer Samples.insertion_order
           Samples.table_score_150 Utils.REQUIRED_COLUMNS
           [CNum (NInt 95); CNum (NInt 150); CNum (NInt 92)] (CNum (NInt 150))).
  - apply sample_columns_present. by vm_compute.
  - reflexivity.
  - rewrite !elem_of_cons. tauto.
  - intros position n [= <-]. reflexivity.
Defined.

(** C5, as stated, fails on a table whose second row has the empty string as
    last name: the string is text, not a missing value, and both validators
    accept the table. *)
Lemma C5_empty_string_passes_null_check :
  Samples.table_empty_last_name !! "last_name"
    = Some [CStr "山田"; CStr EmptyString; CStr "佐藤"] ∧
  (FileProcessor.validate_dataframe Samples.parse_integer Samples.insertion_order
     Samples.table_empty_last_name Utils.REQUIRED_COLUMNS).1 = None ∧
  (Utils.validate_dataframe Samples.parse_integer Samples.insertion_order
     Samples.table_empty_last_name).1 = None.
Proof. repeat split; vm_compute; reflexivity. Qed.

Lemma C5_null_check_finds_missing_cells_witness :
  Samples.table_missing_last_name !! "last_name" = Some [CStr "山田"; CNone; CStr "佐藤"] ∧
  (FileProcessor.validate_dataframe Samples.parse_integer Samples.insertion_order
     Samples.table_missing_last_name Utils.REQUIRED_COLUMNS).1
  = Some "last_nameに空の値が含まれています".
Proof.
  split; [reflexivity |].
  destruct (C5_null_check_finds_missing_cells Samples.parse_integer Samples.insertion_order
              Samples.table_missing_last_name
              [CNum (NInt 95); CNum (NInt 88); CNum (NInt 92)]
              [NInt 95; NInt 88; NInt 92]) as (Hfirst & _).
  - apply sample_columns_present. by vm_compute.
  - reflexivity.
  - reflexivity.
  - reflexivity.
  - apply (Hfirst ["subject"; "test_name"; "sc_year"] "last_name" ["first_name"]
             [CStr "山田"; CNone; CStr "佐藤"]).
    + reflexivity.
    + intros p cs Hp Hcs. rewrite !elem_of_cons, elem_of_nil in Hp.
      destruct Hp as [-> | [-> | [-> | []]]]; injection Hcs as <-; reflexivity.
    + reflexivity.
    + reflexivity.
Defined.

(** * Facts: the template renderer *)

Section Renderer.

Import PdfGenerator PdfGenerator.Generator.

Lemma run_bind_raise {A B} (m : io A) (f : A → io B) (e : exn) (out : list string) :
  run m = (Raise e, out) → run (m ≫= f) = (Raise e, out).
Proof. intros Hm. unfold mbind, io_bind. by rewrite Hm. Qed.

Lemma run_bind_ok {A B} (m : io A) (f : A → io B) (a : A) (out : list string) :
  run m = (Ok a, out) → run (m ≫= f) = ((run (f a)).1, out ++ (run (f a)).2).
Proof.
  intros Hm. unfold mbind, io_bind. rewrite Hm. by destruct (run (f a)).
Qed.

(** ** The score markup *)

Lemma point_markup_unmistakable :
  unmistakable (chars point_markup) (chars point_up_markup) = true.
Proof. by vm_compute. Qed.

Lemma point_markup_not_empty : point_markup ≠ EmptyString.
Proof. discriminate. Qed.

(** The two-part element: a span of class ten for the character 点 and a span
    of class up for the letters UP, inside the span of classes point and
    point-up. *)
Lemma point_up_markup_parts :
  str_contains ("<span class=" +:+ dq +:+ "ten" +:+ dq +:+ ">点</span>") point_up_markup = true ∧
  str_contains ("<span class=" +:+ dq +:+ "up" +:+ dq +:+ ">UP</span>") point_up_markup = true ∧
  str_contains point_markup point_up_markup = false.
Proof. repeat split; by vm_compute. Qed.



(** On the sample templates a record without markup in its fields gives a
    final markup with the two-part element and without the plain markup, and
    the other template type keeps the plain markup. *)
Example final_markup_score_up :
  ∃ html,
    (run (final_markup Samples.package_dir Samples.templates_and_images
            Samples.record_score_up)).1 = Ok html ∧
    str_contains point_up_markup html = true ∧
    str_contains point_markup html = false.
Proof. eexists. split; [vm_compute; reflexivity |]. split; by vm_compute. Qed.

Example final_markup_plain :
  ∃ html,
    (run (final_markup Samples.package_dir Samples.templates_and_images
            Samples.record)).1 = Ok html ∧
    str_contains point_up_markup html = false ∧
    str_contains point_markup html = true.
Proof. eexists. split; [vm_compute; reflexivity |]. split; by vm_compute. Qed.

(** ** Failures *)

Variable PACKAGE_DIR : string.
Variable fs : string → result string.
Variable render_pdf : string → result string.

Lemma create_pdf_valid (data : gmap string pyval) :
  validate_data data = Ok None →
  run (create_pdf PACKAGE_DIR fs render_pdf data)
  = run (try_generate_pdf PACKAGE_DIR fs render_pdf data).
Proof.
  intros Hvalid. unfold create_pdf. rewrite Hvalid.
  rewrite (run_bind_ok _ _ None []) by done.
  by destruct (run (try_generate_pdf _ _ _ _)).
Qed.

Lemma try_generate_pdf_raise (data : gmap string pyval) (e : exn) (out : list string) :
  run (generate_pdf PACKAGE_DIR fs render_pdf data) = (Raise e, out) →
  run (try_generate_pdf PACKAGE_DIR fs render_pdf data)
  = (Raise (RuntimeError (msg_pdf_failed e)), out).
Proof. intros Hgen. unfold try_generate_pdf. by rewrite Hgen. Qed.

Lemma final_markup_no_css (data : gmap string pyval) (e : exn) :
  fs (get_template_path PACKAGE_DIR "css" "main.css") = Raise e →
  run (final_markup PACKAGE_DIR fs data) = (Raise e, []).
Proof.
  intros Hcss. unfold final_markup. apply run_bind_raise. by rewrite Hcss.
Qed.

Lemma final_markup_no_html (data : gmap string pyval) (css : string) (e : exn) :
  fs (get_template_path PACKAGE_DIR "css" "main.css") = Ok css →
  fs (get_template_path PACKAGE_DIR "html" "index.html") = Raise e →
  run (final_markup PACKAGE_DIR fs data) = (Raise e, []).
Proof.
  intros Hcss Hhtml. unfold final_markup.
  rewrite (run_bind_ok _ _ css []) by (by rewrite Hcss).
  rewrite (run_bind_raise _ _ e []) by (by rewrite Hhtml). done.
Qed.

(** C8, amended: a template file that cannot be read, and any other
    exception of the rendering, reaches the caller of [create_pdf] as a
    runtime error whose text ends with the text of the cause; an image file
    that cannot be read does not: [encode_image_to_base64] prints a warning
    and returns the empty string, raising nothing. *)
Theorem C8_failures_of_the_rendering (data : gmap string pyval) :
  validate_data data = Ok None →
  (∀ e, fs (get_template_path PACKAGE_DIR "css" "main.css") = Raise e →
     run (create_pdf PACKAGE_DIR fs render_pdf data)
     = (Raise (RuntimeError ("PDF生成中にエラーが発生しました: " +:+ str_exn e)), [])) ∧
  (∀ css e, fs (get_template_path PACKAGE_DIR "css" "main.css") = Ok css →
     fs (get_template_path PACKAGE_DIR "html" "index.html") = Raise e →
     run (create_pdf PACKAGE_DIR fs render_pdf data)
     = (Raise (RuntimeError ("PDF生成中にエラーが発生しました: " +:+ str_exn e)), [])) ∧
  (∀ e out, run (generate_pdf PACKAGE_DIR fs render_pdf data) = (Raise e, out) →
     run (create_pdf PACKAGE_DIR fs render_pdf data)
     = (Raise (RuntimeError ("PDF生成中にエラーが発生しました: " +:+ str_exn e)), out)) ∧
  (∀ image_path e, fs image_path = Raise e →
     run (encode_image_to_base64 fs image_path)
     = (Ok EmptyString,
        ["Warning: Could not load image " +:+ image_path +:+ ": " +:+ str_exn e])).
Proof.
  intros Hvalid. split; [| split; [| split]].
  - intros e Hcss. rewrite (create_pdf_valid _ Hvalid).
    apply try_generate_pdf_raise. unfold generate_pdf.
    apply run_bind_raise. by apply final_markup_no_css.
  - intros css e Hcss Hhtml. rewrite (create_pdf_valid _ Hvalid).
    apply try_generate_pdf_raise. unfold generate_pdf.
    apply run_bind_raise. by apply (final_markup_no_html _ css).
  - intros e out Hgen. rewrite (create_pdf_valid _ Hvalid).
    by apply try_generate_pdf_raise.
  - intros image_path e Himage. unfold encode_image_to_base64. by rewrite Himage.
Qed.

End Renderer.

(** C8, as stated, fails when the image files cannot be read: the rendering
    of a valid record completes, with a warning printed for each image and
    the empty string in the place of its content. *)
Lemma C8_unreadable_images_render_empty :
  PdfGenerator.validate_data Samples.record = Ok None ∧
  Samples.templates_only "/app/pdf_generator/templates/images/math1.png"
    = Raise (Samples.no_such_file "/app/pdf_generator/templates/images/math1.png") ∧
  (PdfGenerator.Generator.run
     (PdfGenerator.create_pdf Samples.package_dir Samples.templates_only Samples.renderer
        Samples.record)).1 = Ok "%PDF-1.4" ∧
  ∃ html,
    (PdfGenerator.Generator.run
       (PdfGenerator.Generator.final_markup Samples.package_dir Samples.templates_only
          Samples.record)).1 = Ok html ∧
    str_contains (PdfGenerator.Generator.data_url EmptyString) html = true.
Proof.
  split; [by vm_compute | split; [by vm_compute | split; [by vm_compute |]]].
  eexists. split; [vm_compute; reflexivity | by vm_compute].
Qed.

Lemma C8_failures_of_the_rendering_witness :
  PdfGenerator.validate_data Samples.record = Ok None ∧
  PdfGenerator.Generator.run
    (PdfGenerator.create_pdf Samples.package_dir Samples.no_files Samples.renderer
       Samples.record)
  = (Raise (RuntimeError
       "PDF生成中にエラーが発生しました: [Errno 2] No such file or directory: '/app/pdf_generator/templates/css/main.css'"),
     []).
Proof.
  assert (Hvalid : PdfGenerator.validate_data Samples.record = Ok None) by (by vm_compute).
  split; [exact Hvalid |].
  destruct (C8_failures_of_the_rendering Samples.package_dir Samples.no_files
              Samples.renderer Samples.record Hvalid) as (Hcss & _).
  apply (Hcss (Samples.no_such_file "/app/pdf_generator/templates/css/main.css")).
  reflexivity.
Defined.

(** * Facts: the text of [generator.py] *)

Section GeneratorText.

Import Syntax.

(** The text is the file, byte for byte in number. *)
Example generator_py_size :
  length generator_py = 394%nat ∧
  N.of_nat (String.length (source_text generator_py)) = 12615%N.
Proof. split; by vm_compute. Qed.

(** Up to line 361 every bracket is closed, and without line 363 so is the
    whole file. *)
Lemma brackets_balanced_before_launch :
  check_brackets (source_text (take 361 generator_py)) = inr tt ∧
  check_brackets (source_text (take 362 generator_py ++ drop 363 generator_py)) = inr tt.
Proof. split; by vm_compute. Qed.

(** C9: in [generate_pdf_async] the call that launches the browser is opened
    twice, on lines 362 and 363, and closed once, on line 366; the parenthesis
    of line 362 is still open at the end of the file. The text is therefore
    no Python module: importing it raises a syntax error, and so does every
    call of [generate_pdf], before anything is read or rendered. *)
Theorem C9_launch_parenthesis_never_closed :
  generator_py !! 361%nat = Some "            browser = await p.chromium.launch(" ∧
  generator_py !! 362%nat = Some "                browser = await p.chromium.launch(" ∧
  generator_py !! 365%nat = Some "            )" ∧
  scan Code [] 1 0 (chars (source_text (take 366 generator_py)))
    = inr (Code, [("("%char, 362%nat)], 367%nat) ∧
  check_brackets (source_text generator_py) = inl (NeverClosed "(" 362) ∧
  import_generator = Raise (SyntaxError "'(' was never closed") ∧
  ∀ (PACKAGE_DIR : string) (fs render_pdf : string → result string)
    (data : gmap string pyval),
    PdfGenerator.Generator.run (call_generate_pdf PACKAGE_DIR fs render_pdf data)
    = (Raise (SyntaxError "'(' was never closed"), []).
Proof.
  assert (Himport : import_generator = Raise (SyntaxError "'(' was never closed"))
    by (by vm_compute).
  split; [by vm_compute |]. split; [by vm_compute |]. split; [by vm_compute |].
  split; [by vm_compute |]. split; [by vm_compute |]. split; [exact Himport |].
  intros PACKAGE_DIR fs render_pdf data. unfold call_generate_pdf.
  apply run_bind_raise. by rewrite Himport.
Qed.

End GeneratorText.
(** * More facts: the record validators *)

Section MoreRecordValidators.

Import PdfGenerator.

Lemma app_not_empty_r (a b : string) : b ≠ EmptyString → a +:+ b ≠ EmptyString.
Proof. destruct a; [done | discriminate]. Qed.

Lemma check_required_not_empty (data : gmap string pyval) (fields : list string)
    (msg : string) :
  check_required data fields = Some msg → msg ≠ EmptyString.
Proof.
  induction fields as [|f fields IH]; simpl; [discriminate |].
  destruct (data !! f) as [v|].
  - destruct (truthy v); simpl; [exact IH |].
    intros [= <-]. by apply app_not_empty_r.
  - intros [= <-]. discriminate.
Qed.

(** A message of [validate_data] is never the empty string. *)
Lemma validate_data_message_not_empty (data : gmap string pyval) (msg : string) :
  validate_data data = Ok (Some msg) → msg ≠ EmptyString.
Proof.
  unfold validate_data.
  destruct (check_required data required_fields) as [m|] eqn:Hreq.
  { intros [= <-]. by eapply check_required_not_empty. }
  destruct (getitem data "subject") as [subject|]; simpl; [| discriminate].
  destruct (key_in subject VALID_SUBJECTS); simpl.
  - destruct (getitem data "score") as [raw|]; simpl; [| discriminate].
    destruct (py_int raw) as [score|e].
    + destruct (negb _); [| discriminate]. intros [= <-]. discriminate.
    + destruct (is_ValueError e); [| discriminate]. intros [= <-]. discriminate.
  - intros [= <-]. discriminate.
Qed.



(** The fields are checked in the order subject, test_name, score, sc_year,
    last_name, first_name, and the first one that is absent or falsy decides
    the message, whatever the later fields, the subject or the score are. *)
Theorem validate_data_first_bad_field (data : gmap string pyval)
    (pre post : list string) (field : string) :
  required_fields = pre ++ field :: post →
  Forall (λ f, ∃ v, data !! f = Some v ∧ truthy v = true) pre →
  (data !! field = None →
     validate_data data = Ok (Some ("必須フィールドが不足しています: " +:+ field))) ∧
  (∀ v, data !! field = Some v → truthy v = false →
     validate_data data = Ok (Some (field +:+ "が空です"))).
Proof.
  intros Hsplit Hpre. unfold validate_data. rewrite Hsplit.
  assert (Hgo : ∀ msg,
    (match data !! field with
     | None => Some (msg_missing_field field)
     | Some v => if negb (truthy v) then Some (msg_empty_field field)
                 else check_required data post
     end = Some msg) →
    check_required data (pre ++ field :: post) = Some msg).
  { intros msg Hmsg. clear Hsplit. induction pre as [|p pre IH]; simpl; [exact Hmsg |].
    apply Forall_cons in Hpre as [(v & -> & ->) Hpre]. simpl. by apply IH. }
  split.
  - intros Hnone. rewrite (Hgo (msg_missing_field field)); [done |]. by rewrite Hnone.
  - intros v Hv Hfalsy. rewrite (Hgo (msg_empty_field field)); [done |].
    by rewrite Hv, Hfalsy.
Qed.

(** With every field filled in, a subject outside the table is rejected with
    the message that names it, whatever the score is. *)
Theorem validate_data_unknown_subject (data : gmap string pyval) (subject : pyval) :
  Forall (λ f, ∃ v, data !! f = Some v ∧ truthy v = true) required_fields →
  data !! "subject" = Some subject →
  key_in subject VALID_SUBJECTS = false →
  validate_data data = Ok (Some ("無効な教科名です: " +:+ py_str subject)).
Proof.
  intros Hreq Hsubject Hkey. apply check_required_None in Hreq.
  unfold validate_data, getitem. rewrite Hreq, Hsubject. simpl. by rewrite Hkey.
Qed.

(** [validate_input] reports nothing about a value it cannot test: a missing
    key raises [KeyError] (the first missing one of last_name, first_name,
    score), and a score that is text or [None] raises [TypeError] instead of
    adding an entry. *)
Theorem validate_input_raises (values : gmap string pyval) :
  (values !! "last_name" = None →
     Main.validate_input values = Raise (KeyError "last_name")) ∧
  (is_Some (values !! "last_name") → values !! "first_name" = None →
     Main.validate_input values = Raise (KeyError "first_name")) ∧
  (is_Some (values !! "last_name") → is_Some (values !! "first_name") →
   values !! "score" = None →
     Main.validate_input values = Raise (KeyError "score")) ∧
  (is_Some (values !! "last_name") → is_Some (values !! "first_name") →
   (values !! "score" = Some PNone ∨ ∃ s, values !! "score" = Some (PStr s)) →
     ∃ msg, Main.validate_input values = Raise (TypeError msg)).
Proof.
  unfold Main.validate_input, getitem. repeat split.
  - by intros ->.
  - intros [ln ->] ->. done.
  - intros [ln ->] [fn ->] ->. done.
  - intros [ln ->] [fn ->] [-> | [s ->]]; simpl; eauto.
Qed.

End MoreRecordValidators.

Lemma validate_data_first_bad_field_witness :
  PdfGenerator.validate_data (delete "score" Samples.record_three_violations)
  = Ok (Some "必須フィールドが不足しています: score").
Proof.
  destruct (validate_data_first_bad_field (delete "score" Samples.record_three_violations)
              ["subject"; "test_name"] ["sc_year"; "last_name"; "first_name"] "score")
    as [Hmissing _].
  - reflexivity.
  - repeat constructor; by eexists.
  - apply Hmissing. reflexivity.
Defined.

Lemma validate_data_unknown_subject_witness :
  PdfGenerator.validate_data (<["subject" := PStr "物理"]> (<["score" := PInt 150]> Samples.record))
  = Ok (Some "無効な教科名です: 物理").
Proof.
  apply (validate_data_unknown_subject
           (<["subject" := PStr "物理"]> (<["score" := PInt 150]> Samples.record))
           (PStr "物理")).
  - repeat constructor; by eexists.
  - reflexivity.
  - reflexivity.
Defined.

Lemma validate_input_raises_witness :
  Main.validate_input (delete "score" Samples.record) = Raise (KeyError "score").
Proof.
  destruct (validate_input_raises (delete "score" Samples.record))
    as (_ & _ & Hscore & _).
  apply Hscore; [by eexists | by eexists | reflexivity].
Defined.
(** * More facts: the table validators *)

Section MoreTableValidators.

Variable parse_numeric : string → option num.
Variable set_order : ∀ A : Type, list A → list A.

Lemma null_check_None_inv (df : DataFrame) (cols : list string) :
  null_check df cols = Ok None →
  ∀ c, c ∈ cols → ∃ cells, df !! c = Some cells ∧ existsb isna cells = false.
Proof.
  induction cols as [|c cols IH]; simpl.
  - intros _ c Hc. by apply elem_of_nil in Hc.
  - unfold getitem. destruct (df !! c) as [cells|] eqn:Hc; simpl; [| discriminate].
    destruct (existsb isna cells) eqn:Hna; [discriminate |].
    intros Hrest c' [-> | Hin]%elem_of_cons; [by exists cells | by apply IH].
Qed.

(** Numbers are left as they are by the coercion. *)
Lemma to_numeric_from_numbers (position : nat) (scores : list num) :
  to_numeric_from parse_numeric position (CNum <$> scores) = Ok scores.
Proof.
  revert position. induction scores as [|n scores IH]; intros position; [done |].
  rewrite fmap_cons. simpl. by rewrite IH.
Qed.

Lemma try_block_fixed (df : DataFrame) (col : list cell) (scores : list num) :
  df !! "score" = Some col →
  to_numeric parse_numeric col = Ok scores →
  FileProcessor.try_block parse_numeric set_order (<["score" := CNum <$> scores]> df)
  = FileProcessor.try_block parse_numeric set_order df.
Proof.
  intros Hscore Hnum. unfold FileProcessor.try_block, getitem.
  rewrite lookup_insert_eq, Hscore. cbn [mbind result_bind].
  unfold to_numeric at 1. rewrite to_numeric_from_numbers, Hnum.
  by rewrite insert_insert_eq.
Qed.

Lemma columns_insert_present (df : DataFrame) (c : string) (old new : list cell) :
  df !! c = Some old → columns (<[c := new]> df) = columns df.
Proof.
  intros Hc. unfold columns. f_equal. rewrite dom_insert_L.
  apply subseteq_union_1_L, singleton_subseteq_l, elem_of_dom. by eexists.
Qed.

(** The two validators are one: on every table [validate_dataframe] of
    [utils/__init__.py] returns what [validate_dataframe] of
    [utils/file_processor.py] returns for the six required columns, and
    leaves the same table. *)
Theorem validators_agree (df : DataFrame) :
  Utils.validate_dataframe parse_numeric set_order df
  = FileProcessor.validate_dataframe parse_numeric set_order df
      ["subject"; "test_name"; "score"; "sc_year"; "last_name"; "first_name"].
Proof. apply utils_validate_dataframe_agrees. Qed.

(** A table is accepted exactly when every required column is present, the
    score column coerces to numbers that all lie in 0..100, no cell of the
    five text columns is missing, and every subject is the text of one of the
    eight names. *)
Theorem validate_dataframe_accepts_exactly (df : DataFrame) (required : list string) :
  (FileProcessor.validate_dataframe parse_numeric set_order df required).1 = None ↔
  (∀ x, x ∈ required → is_Some (df !! x)) ∧
  (∃ col scores, df !! "score" = Some col ∧ to_numeric parse_numeric col = Ok scores ∧
                 forallb (num_between 0 100) scores = true) ∧
  (∀ c, c ∈ ["subject"; "test_name"; "sc_year"; "last_name"; "first_name"] →
        ∃ cells, df !! c = Some cells ∧ existsb isna cells = false) ∧
  (∀ subjects x, df !! "subject" = Some subjects → x ∈ subjects →
        ∃ s, x = CStr s ∧ s ∈ FileProcessor.valid_subjects).
Proof.
  split.
  - destruct (set_difference required (columns df)) as [|m ms] eqn:Hmissing.
    2: { by rewrite (validate_dataframe_missing _ _ _ _ _ _ Hmissing). }
    rewrite all_present in Hmissing.
    rewrite (validate_dataframe_present _ _ _ _ Hmissing). cbn [fst].
    destruct (df !! "score") as [col|] eqn:Hscore.
    2: { unfold FileProcessor.try_block, getitem. by rewrite Hscore. }
    destruct (to_numeric parse_numeric col) as [scores|e] eqn:Hnum.
    2: { unfold FileProcessor.try_block, getitem. rewrite Hscore.
         cbn [mbind result_bind]. by rewrite Hnum. }
    destruct (forallb (num_between 0 100) scores) eqn:Hrange.
    2: { unfold FileProcessor.try_block, getitem. rewrite Hscore.
         cbn [mbind result_bind]. by rewrite Hnum, Hrange. }
    rewrite (try_block_in_range _ _ _ _ _ Hscore Hnum Hrange). cbn [fst].
    destruct (null_check _ _) as [[msg|]|e] eqn:Hnull; try done.
    cbn [mbind result_bind].
    pose proof (null_check_None_inv _ _ Hnull) as Hclean.
    assert (Hclean' : ∀ c,
      c ∈ ["subject"; "test_name"; "sc_year"; "last_name"; "first_name"] →
      ∃ cells, df !! c = Some cells ∧ existsb isna cells = false).
    { intros c Hc. destruct (Hclean c Hc) as (cells & Hcells & Hna).
      rewrite lookup_insert_ne in Hcells
        by (by apply not_eq_sym, text_column_not_score).
      by exists cells. }
    intros Hsubject. split; [done |]. split; [by exists col, scores |].
    split; [done |].
    intros subjects x Hsubjects Hx. revert Hsubject.
    unfold subject_check, getitem. rewrite lookup_insert_ne by done.
    rewrite Hsubjects. cbn [mbind result_bind].
    destruct (set_difference subjects (CStr <$> FileProcessor.valid_subjects))
      as [|bad rest] eqn:Hdiff.
    + intros _. rewrite set_difference_nil in Hdiff.
      pose proof (Hdiff x Hx) as Hxin.
      apply list_elem_of_fmap in Hxin as (s & -> & Hs). by exists s.
    + by destruct (join_cells _ _).
  - intros (Hall & (col & scores & Hscore & Hnum & Hrange) & Hclean & Hvalid).
    rewrite (validate_dataframe_present _ _ _ _ Hall). cbn [fst].
    rewrite (try_block_in_range _ _ _ _ _ Hscore Hnum Hrange). cbn [fst].
    rewrite null_check_clean.
    2: { intros c Hc. destruct (Hclean c Hc) as (cells & Hcells & Hna).
         exists cells.
         by rewrite lookup_insert_ne by (by apply not_eq_sym, text_column_not_score). }
    cbn [mbind result_bind].
    destruct (Hclean "subject") as (subjects & Hsubjects & _); [left |].
    unfold subject_check, getitem. rewrite lookup_insert_ne by done.
    rewrite Hsubjects. cbn [mbind result_bind].
    assert (set_difference subjects (CStr <$> FileProcessor.valid_subjects) = []) as ->;
      [| done].
    apply set_difference_nil. intros x Hx.
    destruct (Hvalid subjects x Hsubjects Hx) as (s & -> & Hs).
    by apply list_elem_of_fmap_2.
Qed.

Lemma validate_dataframe_settles (df : DataFrame) (required : list string) :
  FileProcessor.validate_dataframe parse_numeric set_order
    (FileProcessor.validate_dataframe parse_numeric set_order df required).2 required
  = FileProcessor.validate_dataframe parse_numeric set_order df required.
Proof.
  destruct (set_difference required (columns df)) as [|m ms] eqn:Hmissing.
  2: { rewrite (validate_dataframe_missing _ _ _ _ _ _ Hmissing). cbn [snd].
       by rewrite (validate_dataframe_missing _ _ _ _ _ _ Hmissing). }
  pose proof Hmissing as Hall. rewrite all_present in Hall.
  rewrite (validate_dataframe_present _ _ _ _ Hall). cbn [snd].
  destruct (df !! "score") as [col|] eqn:Hscore.
  2: { rewrite !try_block_keeps by (by left).
       rewrite (validate_dataframe_present _ _ _ _ Hall).
       by rewrite try_block_keeps by (by left). }
  destruct (to_numeric parse_numeric col) as [scores|e] eqn:Hnum.
  2: { rewrite !try_block_keeps by (right; by exists col, e).
       rewrite (validate_dataframe_present _ _ _ _ Hall).
       by rewrite try_block_keeps by (right; by exists col, e). }
  rewrite !(try_block_writes _ _ _ _ _ Hscore Hnum).
  assert (Hall' : ∀ x, x ∈ required → is_Some (<["score" := CNum <$> scores]> df !! x)).
  { apply all_present. by rewrite (columns_insert_present _ _ col). }
  rewrite (validate_dataframe_present _ _ _ _ Hall').
  rewrite (try_block_fixed _ _ _ Hscore Hnum).
  by rewrite (try_block_writes _ _ _ _ _ Hscore Hnum).
Qed.

(** Validation settles: validating the table a validation leaves behind gives
    the same message and changes nothing more, so the coercion of the score
    column is applied once and for all. *)
Theorem validate_dataframe_idempotent (df : DataFrame) (required : list string) :
  let validated := FileProcessor.validate_dataframe parse_numeric set_order df required in
  FileProcessor.validate_dataframe parse_numeric set_order validated.2 required
  = validated.
Proof. apply validate_dataframe_settles. Qed.

(** When the caller's list of required columns does not ask for the score
    column and the table has none, the validator does not fail on a missing
    column: the lookup of the score raises, and the message returned quotes
    the key; the table is left as it was. *)
Theorem validate_dataframe_without_score (df : DataFrame) (required : list string) :
  (∀ x, x ∈ required → is_Some (df !! x)) →
  df !! "score" = None →
  FileProcessor.validate_dataframe parse_numeric set_order df required
  = (Some "データの検証中にエラーが発生しました: 'score'", df).
Proof.
  intros Hall Hscore. rewrite (validate_dataframe_present _ _ _ _ Hall).
  unfold FileProcessor.try_block, getitem. by rewrite Hscore.
Qed.

(** ** The subject check *)

Lemma text_cells (cells : list cell) :
  (∀ x, x ∈ cells → ∃ s, x = CStr s) → ∃ strs, cells = CStr <$> strs.
Proof.
  induction cells as [|c cells IH]; intros Htext; [by exists [] |].
  destruct (Htext c) as (s & ->); [left |].
  destruct IH as (strs & ->); [intros x Hx; apply Htext; by right |].
  by exists (s :: strs).
Qed.

Lemma join_from_text (index : nat) (strs : list string) :
  join_from index (CStr <$> strs) = Ok strs.
Proof.
  revert index. induction strs as [|s strs IH]; intros index; [done |].
  rewrite fmap_cons. simpl. by rewrite IH.
Qed.

Local Instance CStr_inj : Inj (=) (=) CStr.
Proof. by intros ?? [=]. Qed.

Hypothesis set_order_perm : ∀ (A : Type) (l : list A), set_order A l ≡ₚ l.

(** When the earlier checks pass and the subject column holds text, a subject
    outside the eight names makes the validator return the invalid-subjects
    message, which lists exactly the subjects of the column that are not valid
    names, each once. *)
Theorem validate_dataframe_lists_invalid_subjects (df : DataFrame)
    (required : list string) (col : list cell) (scores : list num)
    (subjects : list cell) (bad : string) :
  (∀ x, x ∈ required → is_Some (df !! x)) →
  df !! "score" = Some col → to_numeric parse_numeric col = Ok scores →
  forallb (num_between 0 100) scores = true →
  (∀ c, c ∈ ["subject"; "test_name"; "sc_year"; "last_name"; "first_name"] →
        ∃ cells, df !! c = Some cells ∧ existsb isna cells = false) →
  df !! "subject" = Some subjects →
  (∀ x, x ∈ subjects → ∃ s, x = CStr s) →
  CStr bad ∈ subjects → bad ∉ FileProcessor.valid_subjects →
  ∃ listed : list string,
    NoDup listed ∧
    (∀ s, s ∈ listed ↔ CStr s ∈ subjects ∧ s ∉ FileProcessor.valid_subjects) ∧
    (FileProcessor.validate_dataframe parse_numeric set_order df required).1
    = Some ("無効な教科名が含まれています: " +:+ String.concat ", " listed).
Proof.
  intros Hall Hscore Hnum Hrange Hclean Hsubjects Htext Hbad Hinvalid.
  rewrite (validate_dataframe_present _ _ _ _ Hall). cbn [fst].
  rewrite (try_block_in_range _ _ _ _ _ Hscore Hnum Hrange). cbn [fst].
  rewrite null_check_clean.
  2: { intros c Hc. destruct (Hclean c Hc) as (cells & Hcells & Hna).
       exists cells.
       by rewrite lookup_insert_ne by (by apply not_eq_sym, text_column_not_score). }
  cbn [mbind result_bind].
  unfold subject_check, getitem. rewrite lookup_insert_ne by done.
  rewrite Hsubjects. cbn [mbind result_bind].
  set (invalid := set_difference subjects (CStr <$> FileProcessor.valid_subjects)).
  assert (Hin : ∀ x, x ∈ invalid ↔ x ∈ subjects ∧ x ∉ CStr <$> FileProcessor.valid_subjects)
    by (intros x; apply elem_of_set_difference).
  assert (Hbad' : CStr bad ∈ invalid).
  { apply Hin. split; [done |]. intros (s & [= <-] & Hs)%list_elem_of_fmap. done. }
  destruct invalid as [|x0 rest] eqn:Hinvalid_eq; [by apply elem_of_nil in Hbad' |].
  rewrite <- Hinvalid_eq in *. clear Hinvalid_eq x0 rest.
  pose proof (set_order_perm _ invalid) as Hperm.
  destruct (text_cells (set_order cell invalid)) as (listed & Hlisted).
  { intros x Hx. rewrite Hperm in Hx. apply Hin in Hx as [Hx _]. by apply Htext. }
  exists listed. split; [| split].
  - apply (NoDup_fmap_1 CStr). rewrite <- Hlisted, Hperm.
    apply NoDup_set_difference.
  - intros s. rewrite <- (list_elem_of_fmap_inj CStr), <- Hlisted, Hperm, Hin.
    by rewrite (list_elem_of_fmap_inj CStr).
  - unfold join_cells. rewrite Hlisted, join_from_text. done.
Qed.

End MoreTableValidators.

Lemma validate_dataframe_without_score_witness :
  FileProcessor.validate_dataframe Samples.parse_integer Samples.insertion_order
    Samples.table_without_score ["subject"; "last_name"]
  = (Some "データの検証中にエラーが発生しました: 'score'", Samples.table_without_score).
Proof.
  apply (validate_dataframe_without_score Samples.parse_integer Samples.insertion_order
           Samples.table_without_score ["subject"; "last_name"]).
  - intros x Hx. rewrite !elem_of_cons, elem_of_nil in Hx.
    destruct Hx as [-> | [-> | []]]; by eexists.
  - reflexivity.
Defined.

Lemma validate_dataframe_lists_invalid_subjects_witness :
  ∃ listed : list string,
    NoDup listed ∧
    (∀ s, s ∈ listed ↔
          CStr s ∈ [CStr "国語"; CStr "物理"; CStr "英語"] ∧ s ∉ FileProcessor.valid_subjects) ∧
    (FileProcessor.validate_dataframe Samples.parse_integer Samples.insertion_order
       Samples.table_unknown_subject Utils.REQUIRED_COLUMNS).1
    = Some ("無効な教科名が含まれています: " +:+ String.concat ", " listed).
Proof.
  apply (validate_dataframe_lists_invalid_subjects Samples.parse_integer
           Samples.insertion_order insertion_order_perm Samples.table_unknown_subject
           Utils.REQUIRED_COLUMNS [CNum (NInt 95); CNum (NInt 88); CNum (NInt 92)]
           [NInt 95; NInt 88; NInt 92] [CStr "国語"; CStr "物理"; CStr "英語"] "物理").
  - apply sample_columns_present. by vm_compute.
  - reflexivity.
  - reflexivity.
  - reflexivity.
  - intros c Hc. rewrite !elem_of_cons, elem_of_nil in Hc.
    destruct Hc as [-> | [-> | [-> | [-> | [-> | []]]]]]; by eexists.
  - reflexivity.
  - intros x Hx. rewrite !elem_of_cons, elem_of_nil in Hx.
    destruct Hx as [-> | [-> | [-> | []]]]; by eexists.
  - rewrite !elem_of_cons. tauto.
  - intros Hin. apply (bool_decide_pack _) in Hin. vm_compute in Hin. exact Hin.
Defined.

(** * More facts: the encoding detectors *)

(** When the guesser has no guess, as for an empty buffer, neither detector
    falls back to utf-8: the one of [utils/file_processor.py] raises
    [AttributeError] and leaves the cursor at the end of the stream, the one
    of [utils/__init__.py] raises [FileProcessError] quoting the cause and
    rewinds the stream. *)
Theorem detect_encoding_without_guess (chardet_detect : string → option string)
    (f : BytesIO) :
  chardet_detect (getvalue f) = None →
  FileProcessor.detect_encoding chardet_detect f
    = (Raise (AttributeError "'NoneType' object has no attribute 'lower'"),
       {| getvalue := getvalue f; tell := String.length (getvalue f) |}) ∧
  Utils.detect_encoding chardet_detect (inl f)
    = (Raise (FileProcessError
               "エンコーディングの検出に失敗しました: 'NoneType' object has no attribute 'lower'"),
       inl (seek 0 f)) ∧
  Utils.detect_encoding chardet_detect (inr (getvalue f))
    = (Raise (FileProcessError
               "エンコーディングの検出に失敗しました: 'NoneType' object has no attribute 'lower'"),
       inr (getvalue f)).
Proof.
  intros Hnone.
  destruct (detect_encoding_no_guess chardet_detect f Hnone) as [Hfile Hutils].
  split; [exact Hfile | split; [exact Hutils |]].
  unfold Utils.detect_encoding, Utils.detect_encoding_try. by rewrite Hnone.
Qed.

Lemma detect_encoding_without_guess_witness :
  (FileProcessor.detect_encoding Samples.guess_nothing Samples.empty_upload).1
  = Raise (AttributeError "'NoneType' object has no attribute 'lower'").
Proof.
  destruct (detect_encoding_without_guess Samples.guess_nothing Samples.empty_upload)
    as [Hfile _]; [reflexivity |].
  by rewrite Hfile.
Defined.

(** * More facts: the template renderer *)

Section MoreRenderer.

Import PdfGenerator PdfGenerator.Generator.

Lemma run_bind_ok_nil {A B} (m : io A) (f : A → io B) (a : A) :
  run m = (Ok a, []) → run (m ≫= f) = run (f a).
Proof.
  intros Hm. unfold mbind, io_bind. rewrite Hm. by destruct (run (f a)).
Qed.

(** ** Base64 *)

Lemma get_elem_of (s : string) (k : nat) (c : ascii) :
  String.get k s = Some c → c ∈ chars s.
Proof.
  revert k. induction s as [|a s IH]; intros [|k]; simpl; try done.
  - intros [= ->]. left.
  - intros Hget. right. by eapply IH.
Qed.

Lemma b64_digit_in_alphabet (n : N) :
  b64_digit n ∈ chars b64_alphabet ∨ b64_digit n = "="%char.
Proof.
  unfold b64_digit. destruct (String.get (N.to_nat n) b64_alphabet) as [c|] eqn:Hget.
  - left. by eapply get_elem_of.
  - by right.
Qed.

Lemma b64encode_alphabet (bytes : string) :
  Forall (λ c, c ∈ chars b64_alphabet ∨ c = "="%char) (chars (b64encode bytes)).
Proof.
  remember (String.length bytes) as n eqn:Hn. revert bytes Hn.
  induction n as [n IH] using lt_wf_ind. intros bytes Hn.
  destruct bytes as [|a [|b [|c rest]]]; cbn [b64encode].
  - constructor.
  - repeat (constructor; [first [apply b64_digit_in_alphabet | by right] |]).
    constructor.
  - repeat (constructor; [first [apply b64_digit_in_alphabet | by right] |]).
    constructor.
  - cbn [chars]. repeat (constructor; [apply b64_digit_in_alphabet |]).
    apply (IH (String.length rest)); [simpl in Hn; lia | done].
Qed.

Lemma b64encode_empty (bytes : string) :
  b64encode bytes = EmptyString ↔ bytes = EmptyString.
Proof.
  split; [| by intros ->].
  by destruct bytes as [|a [|b [|c rest]]].
Qed.

Variable PACKAGE_DIR : string.
Variable fs : string → result string.
Variable render_pdf : string → result string.

(** [encode_image_to_base64] never raises, and what it returns is made of the
    64 characters of the base64 alphabet and the padding sign only, so no
    quote, parenthesis or backslash can reach the style sheet through an
    image. The result is empty exactly when the file is unreadable or empty:
    the two cannot be told apart by the caller. *)
Theorem encode_image_to_base64_alphabet (image_path : string) :
  ∃ base64 out,
    run (encode_image_to_base64 fs image_path) = (Ok base64, out) ∧
    Forall (λ c, c ∈ chars b64_alphabet ∨ c = "="%char) (chars base64) ∧
    (base64 = EmptyString ↔
       fs image_path = Ok EmptyString ∨ ∃ e, fs image_path = Raise e).
Proof.
  unfold encode_image_to_base64. destruct (fs image_path) as [bytes|e].
  - exists (b64encode bytes), []. split; [done |]. split; [apply b64encode_alphabet |].
    rewrite b64encode_empty. split.
    + intros ->. by left.
    + intros [[= ->] | [e' [=]]]. done.
  - eexists _, _. split; [reflexivity |]. split; [constructor |].
    split; [intros _; right; by exists e | done].
Qed.

(** ** [create_pdf] *)

Lemma create_pdf_invalid_record_aux (data : gmap string pyval) (msg : string) :
  validate_data data = Ok (Some msg) →
  run (create_pdf PACKAGE_DIR fs render_pdf data) = (Raise (ValueError msg), []).
Proof.
  intros Hinvalid. unfold create_pdf. rewrite Hinvalid.
  rewrite (run_bind_ok_nil _ _ (Some msg)) by done.
  pose proof (validate_data_message_not_empty _ _ Hinvalid) as Hne.
  destruct (String.eqb msg EmptyString) eqn:Heq; [| done].
  by apply String.eqb_eq in Heq.
Qed.

(** For a record that [validate_data] rejects, [create_pdf] raises
    [ValueError] with the validator's message; no file is read, nothing is
    printed and the renderer is not called, whatever the file system and the
    renderer are. *)
Theorem create_pdf_invalid_record (data : gmap string pyval) (msg : string) :
  validate_data data = Ok (Some msg) →
  run (create_pdf PACKAGE_DIR fs render_pdf data) = (Raise (ValueError msg), []).
Proof. apply create_pdf_invalid_record_aux. Qed.


(** ** [generate_pdf] *)

Lemma substitute_fields_missing_key (data : gmap string pyval) (html : string)
    (pre post : list string) (key : string) :
  ["sc_year"; "last_name"; "first_name"; "subject"; "test_name"; "score"]
    = pre ++ key :: post →
  Forall (λ k, is_Some (data !! k)) pre → data !! key = None →
  substitute_fields data html = Raise (KeyError key).
Proof.
  intros Hsplit Hpre Hkey. unfold substitute_fields, getitem.
  repeat (destruct pre as [|? pre];
          [injection Hsplit as <- _; by rewrite Hkey
          | injection Hsplit as <- Hsplit;
            apply Forall_cons in Hpre as [[? ->] Hpre]; cbn [mbind result_bind]]).
  by destruct pre.
Qed.

(** Called on a record that lacks a field, as [main.py] could call it,
    [generate_pdf] raises [KeyError] for the first missing one of subject,
    sc_year, last_name, first_name, test_name, score, once both templates
    have been read and before any image is loaded or anything is printed. *)
Theorem generate_pdf_missing_key (data : gmap string pyval) (css html : string)
    (pre post : list string) (key : string) :
  fs (get_template_path PACKAGE_DIR "css" "main.css") = Ok css →
  fs (get_template_path PACKAGE_DIR "html" "index.html") = Ok html →
  ["subject"; "sc_year"; "last_name"; "first_name"; "test_name"; "score"]
    = pre ++ key :: post →
  Forall (λ k, is_Some (data !! k)) pre → data !! key = None →
  run (generate_pdf PACKAGE_DIR fs render_pdf data) = (Raise (KeyError key), []).
Proof.
  intros Hcss Hhtml Hsplit Hpre Hkey.
  unfold generate_pdf. apply run_bind_raise. unfold final_markup.
  rewrite (run_bind_ok_nil _ _ css) by (by rewrite Hcss).
  rewrite (run_bind_ok_nil _ _ html) by (by rewrite Hhtml).
  destruct (apply_template_type data css html) as [css' html'].
  destruct pre as [|p pre].
  - injection Hsplit as <- _. apply run_bind_raise. unfold getitem. by rewrite Hkey.
  - injection Hsplit as <- Hsplit. apply Forall_cons in Hpre as [[subject Hsubject] Hpre].
    rewrite (run_bind_ok_nil _ _ subject) by (unfold getitem; by rewrite Hsubject).
    apply run_bind_raise.
    assert (Hfields : substitute_fields data html' = Raise (KeyError key)); [| by rewrite Hfields].
    repeat (destruct pre as [|? pre];
            [injection Hsplit as <- _
            | injection Hsplit as <- Hsplit;
              apply Forall_cons in Hpre as [? Hpre]]);
      try (by destruct pre).
    + by eapply (substitute_fields_missing_key data html' []).
    + eapply (substitute_fields_missing_key data html' ["sc_year"]);
        [reflexivity | by repeat constructor | done].
    + eapply (substitute_fields_missing_key data html' ["sc_year"; "last_name"]);
        [reflexivity | by repeat constructor | done].
    + eapply (substitute_fields_missing_key data html'
                ["sc_year"; "last_name"; "first_name"; "subject"]);
        [reflexivity | | done].
      repeat constructor; try done; by exists subject.
    + eapply (substitute_fields_missing_key data html'
                ["sc_year"; "last_name"; "first_name"; "subject"; "test_name"]);
        [reflexivity | | done].
      repeat constructor; try done; by exists subject.
Qed.

(** [generate_pdf] reads the six fields of the record and whether its
    template type is the score-up one, and nothing else: two records that
    agree on these give the same result, so other keys are ignored, and a
    template type that is absent or unknown is treated as the plain one. *)
Theorem generate_pdf_reads_seven_keys (data1 data2 : gmap string pyval) :
  (∀ k, k ∈ ["subject"; "sc_year"; "last_name"; "first_name"; "test_name"; "score"] →
        data1 !! k = data2 !! k) →
  (data1 !! "template_type" = Some (PStr "点数アップ掲示") ↔
   data2 !! "template_type" = Some (PStr "点数アップ掲示")) →
  generate_pdf PACKAGE_DIR fs render_pdf data1
  = generate_pdf PACKAGE_DIR fs render_pdf data2.
Proof.
  intros Hsame Htype.
  assert (H1 : data1 !! "subject" = data2 !! "subject") by (apply Hsame; rewrite !elem_of_cons; tauto).
  assert (H2 : data1 !! "sc_year" = data2 !! "sc_year") by (apply Hsame; rewrite !elem_of_cons; tauto).
  assert (H3 : data1 !! "last_name" = data2 !! "last_name") by (apply Hsame; rewrite !elem_of_cons; tauto).
  assert (H4 : data1 !! "first_name" = data2 !! "first_name") by (apply Hsame; rewrite !elem_of_cons; tauto).
  assert (H5 : data1 !! "test_name" = data2 !! "test_name") by (apply Hsame; rewrite !elem_of_cons; tauto).
  assert (H6 : data1 !! "score" = data2 !! "score") by (apply Hsame; rewrite !elem_of_cons; tauto).
  assert (H7 : bool_decide (data1 !! "template_type" = Some (PStr "点数アップ掲示"))
             = bool_decide (data2 !! "template_type" = Some (PStr "点数アップ掲示")))
    by (by apply bool_decide_ext).
  unfold generate_pdf, final_markup, apply_template_type, substitute_fields, getitem.
  by rewrite H1, H2, H3, H4, H5, H6, H7.
Qed.

End MoreRenderer.

Lemma create_pdf_invalid_record_witness :
  PdfGenerator.validate_data Samples.record_three_violations
    = Ok (Some "last_nameが空です") ∧
  PdfGenerator.Generator.run
    (PdfGenerator.create_pdf Samples.package_dir Samples.templates_and_images
       Samples.renderer Samples.record_three_violations)
  = (Raise (ValueError "last_nameが空です"), []).
Proof.
  assert (Hinvalid : PdfGenerator.validate_data Samples.record_three_violations
                     = Ok (Some "last_nameが空です")) by (by vm_compute).
  split; [exact Hinvalid |].
  exact (create_pdf_invalid_record Samples.package_dir Samples.templates_and_images
           Samples.renderer Samples.record_three_violations _ Hinvalid).
Defined.


Lemma generate_pdf_missing_key_witness :
  PdfGenerator.Generator.run
    (PdfGenerator.Generator.generate_pdf Samples.package_dir Samples.templates_and_images
       Samples.renderer (delete "last_name" Samples.record))
  = (Raise (KeyError "last_name"), []).
Proof.
  apply (generate_pdf_missing_key Samples.package_dir Samples.templates_and_images
           Samples.renderer (delete "last_name" Samples.record)
           Samples.css_template Samples.html_template
           ["subject"; "sc_year"] ["first_name"; "test_name"; "score"] "last_name").
  - reflexivity.
  - reflexivity.
  - reflexivity.
  - repeat constructor; by eexists.
  - reflexivity.
Defined.

Lemma generate_pdf_reads_seven_keys_witness :
  PdfGenerator.Generator.generate_pdf Samples.package_dir Samples.templates_and_images
    Samples.renderer Samples.record_with_note
  = PdfGenerator.Generator.generate_pdf Samples.package_dir Samples.templates_and_images
      Samples.renderer (<["template_type" := PStr "得点掲示"]> Samples.record).
Proof.
  apply (generate_pdf_reads_seven_keys Samples.package_dir Samples.templates_and_images
           Samples.renderer).
  - intros k Hk. rewrite !elem_of_cons, elem_of_nil in Hk.
    destruct Hk as [-> | [-> | [-> | [-> | [-> | [-> | []]]]]]]; reflexivity.
  - split; intros H; vm_compute in H; discriminate H.
Defined.

(** * More facts: [process_file] *)

Section ProcessFile.

Variable chardet_detect : string → option string.
Variable parse_numeric : string → option num.
Variable set_order : ∀ A : Type, list A → list A.
Variable read_csv : string → string → Utils.raised + DataFrame.
Variable read_excel : string → Utils.raised + DataFrame.

Lemma null_check_message_not_empty (df : DataFrame) (cols : list string) (msg : string) :
  null_check df cols = Ok (Some msg) → msg ≠ EmptyString.
Proof.
  induction cols as [|c cols IH]; simpl; [discriminate |].
  destruct (getitem df c) as [cells|]; simpl; [| discriminate].
  destruct (existsb isna cells); [| exact IH].
  intros [= <-]. by apply app_not_empty_r.
Qed.

(** A message of the table validators is never the empty string. *)
Lemma validate_dataframe_message_not_empty (df : DataFrame) (required : list string)
    (msg : string) :
  (FileProcessor.validate_dataframe parse_numeric set_order df required).1 = Some msg →
  msg ≠ EmptyString.
Proof.
  unfold FileProcessor.validate_dataframe.
  destruct (set_difference required (columns df)) as [|m ms].
  2: { intros [= <-]. discriminate. }
  destruct (FileProcessor.try_block parse_numeric set_order df) as [r df'] eqn:Htry.
  cbn [fst]. revert Htry. unfold FileProcessor.try_block.
  destruct (getitem df "score" ≫= to_numeric parse_numeric) as [scores|e].
  2: { intros [= <- _] [= <-]. discriminate. }
  destruct (negb (forallb (num_between 0 100) scores)).
  { intros [= <- _] [= <-]. discriminate. }
  destruct (null_check _ _) as [[m|]|e] eqn:Hnull; cbn [mbind result_bind].
  - intros [= <- _] [= <-]. by eapply null_check_message_not_empty.
  - unfold subject_check.
    destruct (getitem _ "subject") as [subjects|]; cbn [mbind result_bind].
    2: { intros [= <- _] [= <-]. discriminate. }
    destruct (set_difference subjects _); [by intros [= <- _] |].
    destruct (join_cells _ _); cbn [mbind result_bind];
      intros [= <- _] [= <-]; discriminate.
  - intros [= <- _] [= <-]. discriminate.
Qed.

(** Whatever goes wrong, [process_file] raises [FileProcessError] and no
    other class of exception. *)
Theorem process_file_raises_file_process_error (file_obj : BytesIO)
    (file_extension : string) (e : exn) :
  Utils.process_file chardet_detect parse_numeric set_order read_csv read_excel
    file_obj file_extension = Raise e →
  ∃ msg, e = FileProcessError msg.
Proof.
  unfold Utils.process_file.
  destruct (Utils.process_file_try _ _ _ _ _ _ _) as [[e'|m]|df]; [| | discriminate].
  - destruct e'; intros [= <-]; eauto.
  - intros [= <-]. eauto.
Qed.

(** A file of more than 10 MiB is refused with the size message before its
    extension is looked at and before anything is guessed, read or
    validated. *)
Theorem process_file_too_large (file_obj : BytesIO) (file_extension : string) :
  (10 * 1024 * 1024 < N.of_nat (String.length (getvalue file_obj)))%N →
  Utils.process_file chardet_detect parse_numeric set_order read_csv read_excel
    file_obj file_extension
  = Raise (FileProcessError "ファイルサイズが大きすぎます。上限: 10.0MB").
Proof.
  intros Hsize. unfold Utils.process_file, Utils.process_file_try.
  apply N.ltb_lt in Hsize. unfold Utils.MAX_FILE_SIZE. by rewrite Hsize.
Qed.

(** A file of an admissible size whose extension is neither .csv nor .xlsx,
    in whatever case, is refused as unsupported without being read. *)
Theorem process_file_unsupported_extension (file_obj : BytesIO)
    (file_extension : string) :
  (N.of_nat (String.length (getvalue file_obj)) ≤ 10 * 1024 * 1024)%N →
  lower file_extension ≠ ".csv" → lower file_extension ≠ ".xlsx" →
  Utils.process_file chardet_detect parse_numeric set_order read_csv read_excel
    file_obj file_extension
  = Raise (FileProcessError "サポートされていないファイル形式です").
Proof.
  intros Hsize Hcsv Hxlsx. unfold Utils.process_file, Utils.process_file_try.
  apply N.ltb_ge in Hsize. unfold Utils.MAX_FILE_SIZE. rewrite Hsize.
  apply String.eqb_neq in Hcsv, Hxlsx. by rewrite Hcsv, Hxlsx.
Qed.

(** When the guesser has no guess for a .csv file, the caller gets the
    detector's [FileProcessError] as it is: it is passed on, not wrapped a
    second time, and the file is not parsed. *)
Theorem process_file_detection_failure (file_obj : BytesIO) (file_extension : string) :
  (N.of_nat (String.length (getvalue file_obj)) ≤ 10 * 1024 * 1024)%N →
  lower file_extension = ".csv" →
  chardet_detect (getvalue file_obj) = None →
  Utils.process_file chardet_detect parse_numeric set_order read_csv read_excel
    file_obj file_extension
  = Raise (FileProcessError
      "エンコーディングの検出に失敗しました: 'NoneType' object has no attribute 'lower'").
Proof.
  intros Hsize Hcsv Hnone. unfold Utils.process_file, Utils.process_file_try.
  apply N.ltb_ge in Hsize. unfold Utils.MAX_FILE_SIZE. rewrite Hsize, Hcsv.
  cbn [String.eqb Ascii.eqb Bool.eqb andb].
  destruct (detect_encoding_no_guess chardet_detect (seek 0 file_obj) Hnone) as [_ Hutils].
  by rewrite Hutils.
Qed.

(** A table that [process_file] returns has been validated and is in its
    validated form: the validator accepts it and leaves it as it is. *)
Theorem process_file_returns_accepted_table (file_obj : BytesIO)
    (file_extension : string) (df : DataFrame) :
  Utils.process_file chardet_detect parse_numeric set_order read_csv read_excel
    file_obj file_extension = Ok df →
  Utils.validate_dataframe parse_numeric set_order df = (None, df).
Proof.
  unfold Utils.process_file, Utils.process_file_try.
  destruct (_ <? _)%N; [discriminate |].
  match goal with
  | |- context [match ?loaded with inl r => inl r | inr d => _ end] =>
      destruct loaded as [r|table]
  end.
  { destruct r as [e|m]; [destruct e |]; discriminate. }
  set (stripped := (λ column : list cell, Utils.strip_cell <$> column) <$> table).
  pose proof (validate_dataframe_settles parse_numeric set_order stripped
                Utils.REQUIRED_COLUMNS) as Hagain.
  rewrite !utils_validate_dataframe_agrees.
  destruct (FileProcessor.validate_dataframe parse_numeric set_order stripped
              Utils.REQUIRED_COLUMNS) as [[msg|] after] eqn:Hfirst; cbn [snd] in Hagain.
  - destruct (String.eqb msg EmptyString) eqn:Hempty; simpl.
    + apply String.eqb_eq in Hempty.
      exfalso. eapply (validate_dataframe_message_not_empty stripped); [| exact Hempty].
      by rewrite Hfirst.
    + discriminate.
  - intros [= <-]. exact Hagain.
Qed.

End ProcessFile.

(** ** [process_file] on the samples *)

Lemma string_length_app (a b : string) :
  String.length (a +:+ b) = (String.length a + String.length b)%nat.
Proof.
  induction a as [|c a IH]; [done |].
  change (String c a +:+ b) with (String c (a +:+ b)). simpl. by rewrite IH.
Qed.

Lemma doubled_length (n : nat) (s : string) :
  N.of_nat (String.length (Samples.doubled n s))
  = (2 ^ N.of_nat n * N.of_nat (String.length s))%N.
Proof.
  induction n as [|n IH].
  - simpl Samples.doubled. change (N.of_nat 0) with 0%N. rewrite N.pow_0_r. lia.
  - simpl Samples.doubled. rewrite string_length_app, Nat2N.inj_add, IH.
    rewrite Nat2N.inj_succ, N.pow_succ_r'. lia.
Qed.

Lemma process_file_raises_file_process_error_witness :
  ∃ msg, FileProcessError "サポートされていないファイル形式です" = FileProcessError msg.
Proof.
  apply (process_file_raises_file_process_error Samples.guess_shift_jis
           Samples.parse_integer Samples.insertion_order Samples.read_csv
           Samples.read_excel Samples.upload ".txt").
  by vm_compute.
Defined.

Lemma process_file_too_large_witness :
  Utils.process_file Samples.guess_shift_jis Samples.parse_integer Samples.insertion_order
    Samples.read_csv Samples.read_excel Samples.big_upload ".csv"
  = Raise (FileProcessError "ファイルサイズが大きすぎます。上限: 10.0MB").
Proof.
  apply process_file_too_large.
  unfold Samples.big_upload, getvalue. rewrite doubled_length. reflexivity.
Defined.

Lemma process_file_unsupported_extension_witness :
  Utils.process_file Samples.guess_shift_jis Samples.parse_integer Samples.insertion_order
    Samples.read_csv Samples.read_excel Samples.upload ".TXT"
  = Raise (FileProcessError "サポートされていないファイル形式です").
Proof.
  apply process_file_unsupported_extension.
  - by vm_compute.
  - by vm_compute.
  - by vm_compute.
Defined.

Lemma process_file_detection_failure_witness :
  Utils.process_file Samples.guess_nothing Samples.parse_integer Samples.insertion_order
    Samples.read_csv Samples.read_excel Samples.upload ".CSV"
  = Raise (FileProcessError
      "エンコーディングの検出に失敗しました: 'NoneType' object has no attribute 'lower'").
Proof.
  apply process_file_detection_failure.
  - by vm_compute.
  - by vm_compute.
  - reflexivity.
Defined.

Lemma process_file_returns_accepted_table_witness :
  Utils.process_file Samples.guess_shift_jis Samples.parse_integer Samples.insertion_order
    Samples.read_csv Samples.read_excel Samples.upload ".csv" = Ok Samples.table ∧
  Utils.validate_dataframe Samples.parse_integer Samples.insertion_order Samples.table
  = (None, Samples.table).
Proof.
  assert (Hok : Utils.process_file Samples.guess_shift_jis Samples.parse_integer
                  Samples.insertion_order Samples.read_csv Samples.read_excel
                  Samples.upload ".csv" = Ok Samples.table) by (by vm_compute).
  split; [exact Hok |].
  exact (process_file_returns_accepted_table _ _ _ _ _ _ _ _ Hok).
Defined.

(** * More facts: the batch *)

Section Batch.

Import PdfGenerator.Generator Main.

Variable PACKAGE_DIR : string.
Variable fs : string → result string.
Variable render_pdf : string → result string.
Variable temp_dir : string.
Variable open_for_writing : string → result unit.
Variable template_type : pyval.

(** What has come of a row: the name of its file, its PDF and what was
    printed. *)
Implicit Types (made : list (string * string * list string)).

Local Abbreviation renders :=
  (λ (row : gmap string pyval) (d : string * string * list string),
     row_renders PACKAGE_DIR fs render_pdf temp_dir open_for_writing template_type
       row d.1.1 d.1.2 d.2).

Local Abbreviation path_of :=
  (λ d : string * string * list string, path_join temp_dir d.1.1).

Local Abbreviation store :=
  (foldl (λ (f : gmap string string) (d : string * string * list string),
            <[path_join temp_dir d.1.1 := d.1.2]> f)).

Lemma render_rows_all rows made (files : gmap string string)
    (pdfs : list (string * string)) :
  Forall2 renders rows made →
  run (render_rows PACKAGE_DIR fs render_pdf temp_dir open_for_writing template_type
         rows files pdfs)
  = (Ok (store files made, pdfs ++ ((λ d, (path_of d, d.1.1)) <$> made)),
     concat (snd <$> made)).
Proof.
  intros Hall. revert files pdfs.
  induction Hall as [|row d rows made (values & Hvalues & Hpdf & Hname & Hopen) _ IH];
    intros files pdfs.
  - simpl. by rewrite app_nil_r.
  - cbn [render_rows].
    rewrite (run_bind_ok_nil _ _ values) by (by rewrite Hvalues).
    rewrite (run_bind_ok _ _ d.1.2 d.2) by exact Hpdf.
    rewrite (run_bind_ok_nil _ _ d.1.1) by (by rewrite Hname).
    rewrite (run_bind_ok_nil _ _ tt) by (by rewrite Hopen).
    rewrite IH. cbn [fst snd]. rewrite fmap_cons, <- app_assoc. done.
Qed.

Lemma render_rows_abort rows made (row : gmap string pyval) (rest : list (gmap string pyval))
    (values : gmap string pyval) (e : exn) (out : list string)
    (files : gmap string string) (pdfs : list (string * string)) :
  Forall2 renders rows made →
  input_values template_type row = Ok values →
  run (generate_pdf PACKAGE_DIR fs render_pdf values) = (Raise e, out) →
  run (render_rows PACKAGE_DIR fs render_pdf temp_dir open_for_writing template_type
         (rows ++ row :: rest) files pdfs)
  = (Raise e, concat (snd <$> made) ++ out).
Proof.
  intros Hall Hvalues Hfail. revert files pdfs.
  induction Hall as [|row' d rows made (values' & Hvalues' & Hpdf & Hname & Hopen) _ IH];
    intros files pdfs.
  - cbn [app render_rows].
    rewrite (run_bind_ok_nil _ _ values) by (by rewrite Hvalues).
    by rewrite (run_bind_raise _ _ e out).
  - rewrite <- app_comm_cons. cbn [render_rows].
    rewrite (run_bind_ok_nil _ _ values') by (by rewrite Hvalues').
    rewrite (run_bind_ok _ _ d.1.2 d.2) by exact Hpdf.
    rewrite (run_bind_ok_nil _ _ d.1.1) by (by rewrite Hname).
    rewrite (run_bind_ok_nil _ _ tt) by (by rewrite Hopen).
    rewrite IH. cbn [fst snd]. rewrite fmap_cons. simpl. by rewrite app_assoc.
Qed.

Lemma store_keeps made (files : gmap string string) (path : string) :
  path ∉ path_of <$> made → store files made !! path = files !! path.
Proof.
  revert files. induction made as [|d made IH]; intros files Hnot; [done |].
  rewrite fmap_cons, not_elem_of_cons in Hnot. destruct Hnot as [Hne Hnot].
  cbn [foldl]. rewrite IH by done. by rewrite lookup_insert_ne.
Qed.

Lemma store_holds made (files : gmap string string) (path : string) :
  path ∈ path_of <$> made → is_Some (store files made !! path).
Proof.
  revert files. induction made as [|d made IH]; intros files Hpath.
  - by apply elem_of_nil in Hpath.
  - cbn [foldl].
    destruct (decide (path ∈ path_of <$> made)) as [Hlater | Hfresh]; [by apply IH |].
    rewrite fmap_cons in Hpath. apply elem_of_cons in Hpath as [-> | Hin]; [| done].
    rewrite store_keeps by done. rewrite lookup_insert_eq. by eexists.
Qed.

Lemma store_distinct made (files : gmap string string) (d : string * string * list string) :
  NoDup (path_of <$> made) → d ∈ made →
  store files made !! path_join temp_dir d.1.1 = Some d.1.2.
Proof.
  revert files. induction made as [|d' made IH]; intros files Hnodup Hd.
  - by apply elem_of_nil in Hd.
  - rewrite fmap_cons in Hnodup. apply NoDup_cons in Hnodup as [Hfresh Hnodup].
    cbn [foldl]. apply elem_of_cons in Hd as [-> | Hin].
    + rewrite store_keeps by done. apply lookup_insert_eq.
    + by apply IH.
Qed.

Lemma zip_entries_names (files : gmap string string) made :
  (∀ d, d ∈ made → is_Some (files !! path_of d)) →
  ∃ archive,
    zip_entries files ((λ d, (path_of d, d.1.1)) <$> made) = Ok archive ∧
    archive.*1 = (λ d, d.1.1) <$> made.
Proof.
  induction made as [|d made IH]; intros Hheld; [by exists [] |].
  destruct IH as (archive & Harchive & Hnames); [intros d' Hd'; apply Hheld; by right |].
  destruct (Hheld d) as [content Hcontent]; [left |].
  exists ((d.1.1, content) :: archive).
  rewrite !fmap_cons. cbn [zip_entries]. rewrite Hcontent, Harchive. simpl.
  by rewrite Hnames.
Qed.

Lemma zip_entries_contents (files : gmap string string) made :
  (∀ d, d ∈ made → files !! path_of d = Some d.1.2) →
  zip_entries files ((λ d, (path_of d, d.1.1)) <$> made)
  = Ok ((λ d, (d.1.1, d.1.2)) <$> made).
Proof.
  induction made as [|d made IH]; intros Hheld; [done |].
  rewrite !fmap_cons. cbn [zip_entries].
  rewrite (Hheld d) by left. rewrite IH by (intros d' Hd'; apply Hheld; by right).
  done.
Qed.


(** The first row whose rendering raises ends the batch: the user is shown
    the error text with the cause and no archive, the rows after it are not
    touched, and what they would print is not printed. *)
Theorem bulk_generate_aborts (rows rest : list (gmap string pyval)) made
    (row values : gmap string pyval) (e : exn) (out : list string) :
  Forall2 renders rows made →
  input_values template_type row = Ok values →
  run (generate_pdf PACKAGE_DIR fs render_pdf values) = (Raise e, out) →
  bulk_generate PACKAGE_DIR fs render_pdf temp_dir open_for_writing template_type
    (rows ++ row :: rest)
  = (Error ("PDF生成中にエラーが発生しました: " +:+ str_exn e),
     concat (snd <$> made) ++ out).
Proof.
  intros Hall Hvalues Hfail. unfold bulk_generate.
  by rewrite (render_rows_abort _ _ _ _ _ _ _ _ _ Hall Hvalues Hfail).
Qed.

(** Two rows whose files have the same name share one file in the temporary
    directory, which the second overwrites: the archive gets two entries of
    that name, and both hold the PDF of the second row. *)
Theorem bulk_generate_same_name (row1 row2 : gmap string pyval)
    (filename pdf1 pdf2 : string) (out1 out2 : list string) :
  renders row1 (filename, pdf1, out1) →
  renders row2 (filename, pdf2, out2) →
  bulk_generate PACKAGE_DIR fs render_pdf temp_dir open_for_writing template_type
    [row1; row2]
  = (Download [(filename, pdf2); (filename, pdf2)] 2, out1 ++ out2).
Proof.
  intros H1 H2. unfold bulk_generate.
  rewrite (render_rows_all [row1; row2] [(filename, pdf1, out1); (filename, pdf2, out2)])
    by (repeat constructor; done).
  cbn [fmap list_fmap app zip_entries fst snd foldl concat].
  rewrite insert_insert_eq, lookup_insert_eq. simpl. by rewrite app_nil_r.
Qed.


End Batch.

Lemma sample_row_renders (row : gmap string pyval) (filename : string) :
  Main.input_values (PStr "得点掲示") row
    = Ok (<["template_type" := PStr "得点掲示"]> row) →
  PdfGenerator.Generator.run
    (PdfGenerator.Generator.generate_pdf Samples.package_dir Samples.templates_and_images
       Samples.renderer (<["template_type" := PStr "得点掲示"]> row))
    = (Ok "%PDF-1.4", []) →
  Main.file_name row = Ok filename →
  Main.row_renders Samples.package_dir Samples.templates_and_images Samples.renderer
    Samples.temp_dir Samples.writable (PStr "得点掲示") row filename "%PDF-1.4" [].
Proof. intros Hvalues Hpdf Hname. by eexists. Qed.


Lemma bulk_generate_aborts_witness :
  Main.bulk_generate Samples.package_dir Samples.templates_and_images
    Samples.fragile_renderer Samples.temp_dir Samples.writable (PStr "得点掲示")
    [Samples.record; Samples.record_hanako; Samples.record]
  = (Main.Error "PDF生成中にエラーが発生しました: Timeout 30000ms exceeded.", []).
Proof.
  apply (bulk_generate_aborts Samples.package_dir Samples.templates_and_images
           Samples.fragile_renderer Samples.temp_dir Samples.writable (PStr "得点掲示")
           [Samples.record] [Samples.record]
           [("山田太郎_数学.pdf", "%PDF-1.4", [])]
           Samples.record_hanako
           (<["template_type" := PStr "得点掲示"]> Samples.record_hanako)
           (RuntimeError "Timeout 30000ms exceeded.") []).
  - repeat constructor.
    exists (<["template_type" := PStr "得点掲示"]> Samples.record).
    repeat split; by vm_compute.
  - by vm_compute.
  - by vm_compute.
Defined.

Lemma bulk_generate_same_name_witness :
  Main.bulk_generate Samples.package_dir Samples.templates_and_images Samples.renderer
    Samples.temp_dir Samples.writable (PStr "得点掲示")
    [Samples.record; Samples.record]
  = (Main.Download [("山田太郎_数学.pdf", "%PDF-1.4"); ("山田太郎_数学.pdf", "%PDF-1.4")] 2,
     []).
Proof.
  apply (bulk_generate_same_name Samples.package_dir Samples.templates_and_images
           Samples.renderer Samples.temp_dir Samples.writable (PStr "得点掲示")
           Samples.record Samples.record "山田太郎_数学.pdf" "%PDF-1.4" "%PDF-1.4" [] []);
    apply sample_row_renders; by vm_compute.
Defined.

